(** * Social graph, engagement, visibility and fan-out of the social-media
      backend: a shallow embedding of the Express controllers and Mongoose
      models, and the properties of the specification checked against them.

    The document store is explicit state.  A controller is a computation in
    a state-and-exception monad over that store: a write performed before a
    later operation throws stays in the store, as it does for the JavaScript
    handlers, whose [try]/[catch] only turns the exception into a 500
    reply.

    Covered: the Follow, Post and Notification models with their hooks and
    statics; followController.js; of postController.js the handlers
    createPost, getPopularPosts, getPost, likePost and sharePost; of
    commentController.js the handlers createComment, getComments and
    deleteComment.  A collection is the list of its documents in the order
    the store scans them; the accounts are a finite map from ids. *)

From stdpp Require Import gmap strings list fin_maps.
From Stdlib Require Import ZArith Sorting.Permutation Sorting.Sorted.

(** An ObjectId.  The handlers compare ids through [toString()]; that is
    equality of the ids. *)
Abbreviation ObjectId := nat.

(* ===================================================================== *)
(** ** Documents *)
(* ===================================================================== *)

Module User.

(** Modelled from the spec: models/User.js is absent from the sources.  The
    fields are those the controllers read and write (section 3, Account:
    privacy flag, active flag, the two denormalized counters), together
    with the user name the notification messages quote.  The document is
    stored under its [_id].  The counters are integers: [$inc] with -1 has
    no lower bound. *)
Record t := mk {
  username : string;
  isPrivate : bool;
  isActive : bool;
  followersCount : Z;
  followingCount : Z
}.

(** [{ $inc: { followersCount: d } }] *)
Definition inc_followersCount (d : Z) (u : t) : t :=
  mk (username u) (isPrivate u) (isActive u)
     (followersCount u + d)%Z (followingCount u).

(** [{ $inc: { followingCount: d } }] *)
Definition inc_followingCount (d : Z) (u : t) : t :=
  mk (username u) (isPrivate u) (isActive u)
     (followersCount u) (followingCount u + d)%Z.

End User.

Module Follow.

(** [status: enum ['pending', 'accepted', 'blocked']] *)
Inductive Status := pending | accepted | blocked.

#[global] Instance Status_eq_dec : EqDecision Status.
Proof. solve_decision. Defined.

(** followSchema: follower, following, status. *)
Record t := mk {
  _id : ObjectId;
  follower : ObjectId;
  following : ObjectId;
  status : Status
}.

#[global] Instance t_eq_dec : EqDecision t.
Proof. solve_decision. Defined.

Definition set_status (s : Status) (f : t) : t :=
  mk (_id f) (follower f) (following f) s.

End Follow.

Module Notification.

(** [type: enum [...]] of notificationSchema. *)
Inductive Type_ :=
  like | comment | reply | follow | follow_request | share | mention | tag.

(** [entityType: enum ['post', 'comment', 'user']] *)
Inductive EntityType := post | comment_ | user.

#[global] Instance Type_eq_dec : EqDecision Type_.
Proof. solve_decision. Defined.

#[global] Instance EntityType_eq_dec : EqDecision EntityType.
Proof. solve_decision. Defined.

(** The two shapes of [groupKey] the pre-save hook builds:
    [post_like_<id>] and [post_comment_<id>]. *)
Inductive GroupKey := post_like_ (entityId : ObjectId) | post_comment_ (entityId : ObjectId).

Record t := mk {
  recipient : ObjectId;
  sender : ObjectId;
  type : Type_;
  entityType : EntityType;
  entityId : ObjectId;
  message : string;
  isRead : bool;
  groupKey : option GroupKey;
  isActive : bool
}.

(** What the controllers pass to [createNotification] and [insertMany]. *)
Record Data := mkData {
  d_recipient : ObjectId;
  d_sender : ObjectId;
  d_type : Type_;
  d_entityType : EntityType;
  d_entityId : ObjectId;
  d_message : string
}.

(** [new this(data)]: the schema defaults fill the other fields. *)
Definition new (d : Data) : t :=
  mk (d_recipient d) (d_sender d) (d_type d) (d_entityType d) (d_entityId d)
     (d_message d) false None true.

(** notificationSchema.pre('save'): the group key of likes and comments on
    a post. *)
Definition preSave (n : t) : t :=
  if decide (type n = like ∧ entityType n = post) then
    mk (recipient n) (sender n) (type n) (entityType n) (entityId n)
       (message n) (isRead n) (Some (post_like_ (entityId n))) (isActive n)
  else if decide (type n = comment ∧ entityType n = post) then
    mk (recipient n) (sender n) (type n) (entityType n) (entityId n)
       (message n) (isRead n) (Some (post_comment_ (entityId n))) (isActive n)
  else n.

End Notification.

Module Post.

(** [visibility: enum ['public', 'followers', 'private']] *)
Inductive Visibility := public | followers | private.

#[global] Instance Visibility_eq_dec : EqDecision Visibility.
Proof. solve_decision. Defined.

(** postSchema.  The [likes] and [shares] arrays are kept as the arrays of
    their [user] fields, in array order; media, tags, location and the edit
    history play no part in the operations below and are left out. *)
Record t := mk {
  _id : ObjectId;
  author : ObjectId;
  content : string;
  likes : list ObjectId;
  likesCount : Z;
  comments : list ObjectId;
  commentsCount : Z;
  shares : list ObjectId;
  sharesCount : Z;
  mentions : list ObjectId;
  visibility : Visibility;
  isActive : bool;
  sharedPost : option ObjectId;
  shareText : option string;
  createdAt : Z
}.

Definition set_likes (l : list ObjectId) (p : t) : t :=
  mk (_id p) (author p) (content p) l (likesCount p) (comments p)
     (commentsCount p) (shares p) (sharesCount p) (mentions p) (visibility p)
     (isActive p) (sharedPost p) (shareText p) (createdAt p).

Definition set_likesCount (n : Z) (p : t) : t :=
  mk (_id p) (author p) (content p) (likes p) n (comments p)
     (commentsCount p) (shares p) (sharesCount p) (mentions p) (visibility p)
     (isActive p) (sharedPost p) (shareText p) (createdAt p).

Definition set_comments (l : list ObjectId) (p : t) : t :=
  mk (_id p) (author p) (content p) (likes p) (likesCount p) l
     (commentsCount p) (shares p) (sharesCount p) (mentions p) (visibility p)
     (isActive p) (sharedPost p) (shareText p) (createdAt p).

Definition set_shares (l : list ObjectId) (p : t) : t :=
  mk (_id p) (author p) (content p) (likes p) (likesCount p) (comments p)
     (commentsCount p) l (sharesCount p) (mentions p) (visibility p)
     (isActive p) (sharedPost p) (shareText p) (createdAt p).

Definition set_sharesCount (n : Z) (p : t) : t :=
  mk (_id p) (author p) (content p) (likes p) (likesCount p) (comments p)
     (commentsCount p) (shares p) n (mentions p) (visibility p)
     (isActive p) (sharedPost p) (shareText p) (createdAt p).

(** The paths a handler modifies before [save()]. *)
Inductive Path := path_likes | path_comments | path_shares.

#[global] Instance Path_eq_dec : EqDecision Path.
Proof. solve_decision. Defined.

(** [this.isModified(path)] *)
Definition isModified (modified : list Path) (path : Path) : bool :=
  bool_decide (path ∈ modified).

(** postSchema.pre('save'): the like and share counters follow their
    arrays; there is no line for [commentsCount]. *)
Definition preSave (modified : list Path) (p : t) : t :=
  let p1 :=
    if isModified modified path_likes
    then set_likesCount (Z.of_nat (length (likes p))) p else p in
  if isModified modified path_shares
  then set_sharesCount (Z.of_nat (length (shares p1))) p1 else p1.

(** postSchema.virtual('engagementCount') *)
Definition engagementCount (p : t) : Z :=
  (likesCount p + commentsCount p + sharesCount p)%Z.

(** postSchema.methods.isLikedBy *)
Definition isLikedBy (p : t) (userId : ObjectId) : bool :=
  existsb (λ like, bool_decide (like = userId)) (likes p).

(** postSchema.methods.isSharedBy *)
Definition isSharedBy (p : t) (userId : ObjectId) : bool :=
  existsb (λ share, bool_decide (share = userId)) (shares p).

(** The object a controller hands to [Post.create].  A field the caller
    leaves out is [None]; [visibility] then takes its default. *)
Record Input := mkInput {
  in_author : ObjectId;
  in_content : option string;
  in_mentions : list ObjectId;
  in_visibility : option Visibility;
  in_sharedPost : option ObjectId;
  in_shareText : option string
}.

(** White space as [String.prototype.trim] removes it, for the characters
    of the ASCII range: tab, line feed, vertical tab, form feed, carriage
    return and space.  Outside that range JavaScript knows further white
    space (U+00A0 among others) and counts the length of a text in UTF-16
    units; [trim] and [validate] below follow the schema for the texts
    [isAscii] accepts. *)
Definition isSpace (c : Ascii.ascii) : bool :=
  let n := Ascii.nat_of_ascii c in
  bool_decide (n = 32 ∨ (9 ≤ n ∧ n ≤ 13)).

Fixpoint trimStart (s : string) : string :=
  match s with
  | String c r => if isSpace c then trimStart r else s
  | EmptyString => EmptyString
  end.

Fixpoint trimEnd (s : string) : string :=
  match s with
  | String c r =>
      match trimEnd r with
      | EmptyString => if isSpace c then EmptyString else String c EmptyString
      | r' => String c r'
      end
  | EmptyString => EmptyString
  end.

(** The [trim: true] setter of [content]. *)
Definition trim (s : string) : string := trimEnd (trimStart s).

(** The text has only characters of the ASCII range. *)
Fixpoint isAscii (s : string) : bool :=
  match s with
  | String c r => bool_decide (Ascii.nat_of_ascii c < 128) && isAscii r
  | EmptyString => true
  end.

(** Schema validation of a new post: [content] is required (a missing or
    empty string fails the required validator) and has at most 2000
    characters; [shareText] has at most 500.  [author] is always supplied
    by the callers, and [visibility] cannot leave its enumeration. *)
Definition validate (i : Input) : bool :=
  match in_content i with
  | None => false
  | Some c =>
      negb (bool_decide (trim c = EmptyString))
      && bool_decide (String.length (trim c) ≤ 2000)
  end
  && match in_shareText i with
     | None => true
     | Some s => bool_decide (String.length s ≤ 500)
     end.

(** The document [new Post(input)] yields once validated: defaults for the
    engagement arrays and counters, [isActive] true, [visibility] public
    unless given. *)
Definition new (id : ObjectId) (now : Z) (i : Input) : t :=
  mk id (in_author i) (trim (default EmptyString (in_content i)))
     [] 0 [] 0 [] 0 (in_mentions i)
     (default public (in_visibility i)) true
     (in_sharedPost i) (in_shareText i) now.

End Post.

Module Comment.

(** Modelled from the spec: models/Comment.js is absent from the sources.
    The fields are those commentController.js reads and writes: author,
    parent post, content, optional parent comment, the replies array and
    the soft-delete flag (section 3, ContentItem). *)
Record t := mk {
  _id : ObjectId;
  author : ObjectId;
  post : ObjectId;
  content : string;
  parentComment : option ObjectId;
  replies : list ObjectId;
  isActive : bool;
  createdAt : Z
}.

Definition set_replies (l : list ObjectId) (c : t) : t :=
  mk (_id c) (author c) (post c) (content c) (parentComment c) l
     (isActive c) (createdAt c).

Definition set_isActive (b : bool) (c : t) : t :=
  mk (_id c) (author c) (post c) (content c) (parentComment c) (replies c)
     b (createdAt c).

(** The object [createComment] hands to [Comment.create]. *)
Record Input := mkInput {
  in_author : ObjectId;
  in_post : ObjectId;
  in_content : string;
  in_parentComment : option ObjectId
}.

Definition new (id : ObjectId) (now : Z) (i : Input) : t :=
  mk id (in_author i) (in_post i) (in_content i) (in_parentComment i)
     [] true now.

End Comment.

(* ===================================================================== *)
(** ** The store, the cache and the handler monad *)
(* ===================================================================== *)

(** The keys the post controller uses in Redis: [popular_posts],
    [popular_posts:<page>:<limit>] and [user_feed:<id>]. *)
Inductive CacheKey :=
  | popular_posts
  | popular_posts_page (page limit : Z)
  | user_feed (userId : ObjectId).

#[global] Instance CacheKey_eq_dec : EqDecision CacheKey.
Proof. solve_decision. Defined.

(** The [result] object of [getPopularPosts], which is also what the cache
    holds under a page key. *)
Record PopularResult := mkPopularResult {
  pr_posts : list Post.t;
  pr_page : Z;
  pr_limit : Z
}.

(** A cache entry: the value and the instant it expires. *)
Record CacheEntry := mkCacheEntry {
  ce_key : CacheKey;
  ce_value : PopularResult;
  ce_expires : Z
}.

(** The collections, the optional Redis client ([getRedisClient()] is
    [null] when the connection failed), the source of fresh ObjectIds and
    the clock [Date.now()] reads, in milliseconds. *)
Record DB := mkDB {
  users : gmap ObjectId User.t;
  follows : list Follow.t;
  posts : list Post.t;
  comments : list Comment.t;
  notifications : list Notification.t;
  redis : option (list CacheEntry);
  nextId : ObjectId;
  clock : Z
}.

Definition set_users (f : gmap ObjectId User.t → gmap ObjectId User.t) (db : DB) : DB :=
  mkDB (f (users db)) (follows db) (posts db) (comments db)
       (notifications db) (redis db) (nextId db) (clock db).

Definition set_follows (f : list Follow.t → list Follow.t) (db : DB) : DB :=
  mkDB (users db) (f (follows db)) (posts db) (comments db)
       (notifications db) (redis db) (nextId db) (clock db).

Definition set_posts (f : list Post.t → list Post.t) (db : DB) : DB :=
  mkDB (users db) (follows db) (f (posts db)) (comments db)
       (notifications db) (redis db) (nextId db) (clock db).

Definition set_comments (f : list Comment.t → list Comment.t) (db : DB) : DB :=
  mkDB (users db) (follows db) (posts db) (f (comments db))
       (notifications db) (redis db) (nextId db) (clock db).

Definition set_notifications (f : list Notification.t → list Notification.t) (db : DB) : DB :=
  mkDB (users db) (follows db) (posts db) (comments db)
       (f (notifications db)) (redis db) (nextId db) (clock db).

Definition set_redis (f : list CacheEntry → list CacheEntry) (db : DB) : DB :=
  mkDB (users db) (follows db) (posts db) (comments db)
       (notifications db) (f <$> redis db) (nextId db) (clock db).

Definition set_nextId (n : ObjectId) (db : DB) : DB :=
  mkDB (users db) (follows db) (posts db) (comments db)
       (notifications db) (redis db) n (clock db).

(** What an awaited call yields: a value, or a thrown error. *)
Inductive Outcome (A : Type) : Type :=
  | Return (a : A)
  | Throw (error : string).
Arguments Return {A} a.
Arguments Throw {A} error.

(** A handler step: it reads and writes the store and may throw.  The
    store it leaves is kept in both cases. *)
Definition M (A : Type) : Type := DB → Outcome A * DB.

#[global] Instance M_ret : MRet M := λ A a db, (Return a, db).

#[global] Instance M_bind : MBind M := λ A B f m db,
  match m db with
  | (Return a, db') => f a db'
  | (Throw e, db') => (Throw e, db')
  end.

Definition throw {A} (e : string) : M A := λ db, (Throw e, db).

Definition get {A} (f : DB → A) : M A := λ db, (Return (f db), db).

Definition modify (f : DB → DB) : M unit := λ db, (Return tt, f db).

(** [try { body } catch (error) { handler }] *)
Definition tryCatch {A} (body handler : M A) : M A := λ db,
  match body db with
  | (Return a, db') => (Return a, db')
  | (Throw _, db') => handler db'
  end.

(** A new ObjectId. *)
Definition freshId : M ObjectId := λ db,
  (Return (nextId db), set_nextId (S (nextId db)) db).

(** [res.status(code).json({ success, message, data })] *)
Record Response (A : Type) := mkResponse {
  code : nat;
  success : bool;
  message : option string;
  data : option A
}.
Arguments mkResponse {A} code success message data.
Arguments code {A} r.
Arguments success {A} r.
Arguments message {A} r.
Arguments data {A} r.

Definition failure {A} (c : nat) (msg : string) : M (Response A) :=
  mret (mkResponse c false (Some msg) None).

(** [req.user], set by the [protect] middleware. *)
Record ReqUser := mkReqUser {
  ru_id : ObjectId;
  ru_username : string;
  ru_admin : bool
}.

(** An id as it stands in the URL ([req.params.userId]): a text that
    casts to an ObjectId.  [findById] and the queries cast it, whatever
    the case of its hex digits; a handler that compares the parameter with
    [req.user._id.toString()] compares the text, and [toString()] spells
    the digits in lower case.  [url_asToString] tells whether the URL
    spells the id as [toString()] does. *)
Record UrlId := mkUrlId {
  url_id : ObjectId;
  url_asToString : bool
}.

(* ===================================================================== *)
(** ** Model statics *)
(* ===================================================================== *)

(** The query [{ _id: i }]. *)
Definition byId {D} (id : D → ObjectId) (i : ObjectId) (d : D) : bool :=
  bool_decide (id d = i).

(** [save()] of a document that is already stored: it takes the place of
    the stored document with the same [_id]. *)
Definition replaceById {D} (id : D → ObjectId) (d : D) (coll : list D) : list D :=
  map (λ e, if decide (id e = id d) then d else e) coll.

(** [findOneAndDelete]: the first match leaves the collection. *)
Fixpoint deleteFirst {D} (q : D → bool) (coll : list D) : list D :=
  match coll with
  | [] => []
  | d :: r => if q d then r else d :: deleteFirst q r
  end.

(** How a query value that may be absent ([req.user?._id] without a user)
    matches a stored id: an absent value reaches the store as null, and
    no stored reference is null, since the schema requires it. *)
Definition matchesId (q : option ObjectId) (stored : ObjectId) : bool :=
  match q with
  | Some i => bool_decide (stored = i)
  | None => false
  end.

Module UserModel.

(** [User.findById(id)] *)
Definition findById (id : ObjectId) : M (option User.t) :=
  get (λ db, users db !! id).

(** [User.findByIdAndUpdate(id, update)]: nothing happens for an id that
    is not stored. *)
Definition findByIdAndUpdate (id : ObjectId) (update : User.t → User.t) : M unit :=
  modify (set_users (alter update id)).

End UserModel.

Module FollowModel.

(** [Follow.findOne(query)] *)
Definition findOne (q : Follow.t → bool) : M (option Follow.t) :=
  get (λ db, find q (follows db)).

(** followSchema.pre('save'): no self-follow. *)
Definition preSave (f : Follow.t) : M unit :=
  if decide (Follow.follower f = Follow.following f)
  then throw "Users cannot follow themselves"
  else mret tt.

(** The unique index on (follower, following). *)
Definition samePair (follower following : ObjectId) (f : Follow.t) : bool :=
  bool_decide (Follow.follower f = follower)
  && bool_decide (Follow.following f = following).

(** [Follow.create({ follower, following, status })] *)
Definition create (follower following : ObjectId) (status : Follow.Status) : M Follow.t :=
  id ← freshId;
  let f := Follow.mk id follower following status in
  preSave f;;
  dup ← get (λ db, existsb (samePair follower following) (follows db));
  if (dup : bool) then throw "E11000 duplicate key error"
  else
    modify (set_follows (λ c, c ++ [f]));;
    mret f.

(** [follow.save()] of a stored edge. *)
Definition save (f : Follow.t) : M unit :=
  preSave f;;
  modify (set_follows (replaceById Follow._id f)).

(** [Follow.findOneAndDelete(query)] *)
Definition findOneAndDelete (q : Follow.t → bool) : M (option Follow.t) :=
  found ← findOne q;
  modify (set_follows (deleteFirst q));;
  mret found.

(** followSchema.statics.isFollowing: the matching edge, or null. *)
Definition isFollowing (followerId : option ObjectId) (followingId : ObjectId) : M (option Follow.t) :=
  findOne (λ f,
    matchesId followerId (Follow.follower f)
    && bool_decide (Follow.following f = followingId)
    && bool_decide (Follow.status f = Follow.accepted)).

(** followSchema.statics.getFollowers *)
Definition getFollowers (userId : ObjectId) (status : Follow.Status) : M (list Follow.t) :=
  get (λ db, filter (λ f, Follow.following f = userId ∧ Follow.status f = status) (follows db)).

(** followSchema.statics.getFollowing *)
Definition getFollowing (userId : ObjectId) (status : Follow.Status) : M (list Follow.t) :=
  get (λ db, filter (λ f, Follow.follower f = userId ∧ Follow.status f = status) (follows db)).

(** [Follow.countDocuments(query)] *)
Definition countDocuments (q : Follow.t → bool) : M nat :=
  get (λ db, length (List.filter q (follows db))).

(** followSchema.statics.getFollowStats *)
Definition getFollowStats (userId : ObjectId) : M (nat * nat) :=
  followersCount ← countDocuments (λ f,
    bool_decide (Follow.following f = userId)
    && bool_decide (Follow.status f = Follow.accepted));
  followingCount ← countDocuments (λ f,
    bool_decide (Follow.follower f = userId)
    && bool_decide (Follow.status f = Follow.accepted));
  mret (followersCount, followingCount).

End FollowModel.

Module NotificationModel.

(** notificationSchema.statics.createNotification: [new this(data)] and
    [save()], which runs the pre-save hook.  The messages the controllers
    build are a user name followed by a fixed phrase; user names have at
    most 30 characters (validateUserRegistration), so the 500-character
    limit of [message] cannot be reached and is not checked here. *)
Definition createNotification (d : Notification.Data) : M Notification.t :=
  let n := Notification.preSave (Notification.new d) in
  modify (set_notifications (λ c, c ++ [n]));;
  mret n.

(** [Notification.insertMany(docs)]: no [save] middleware runs. *)
Definition insertMany (ds : list Notification.Data) : M unit :=
  modify (set_notifications (λ c, c ++ map Notification.new ds)).

End NotificationModel.

(* ===================================================================== *)
(** ** Pagination *)
(* ===================================================================== *)

(** [.skip((page - 1) * limit).limit(limit)] for the values the
    [validatePagination] middleware lets through, [page] from 1 and
    [limit] from 1.  Outside them the store behaves otherwise (a limit of 0
    is no limit, a negative skip is refused), so what is proved of a
    listing is proved under [validatePagination]. *)
Definition paginate {D} (page limit : Z) (docs : list D) : list D :=
  take (Z.to_nat limit) (drop (Z.to_nat ((page - 1) * limit)) docs).

(** validatePagination: [page] is an integer from 1, [limit] one from 1 to
    100. *)
Definition validatePagination (page limit : Z) : bool :=
  bool_decide (1 ≤ page)%Z && bool_decide (1 ≤ limit ≤ 100)%Z.

(** A page of documents with the [pagination] object of the reply. *)
Record Page (D : Type) := mkPage {
  pg_items : list D;
  pg_page : Z;
  pg_limit : Z;
  pg_total : nat
}.
Arguments mkPage {D} pg_items pg_page pg_limit pg_total.
Arguments pg_items {D} p.
Arguments pg_page {D} p.
Arguments pg_limit {D} p.
Arguments pg_total {D} p.

(* ===================================================================== *)
(** ** controllers/followController.js *)
(* ===================================================================== *)

Module followController.

(** [data.follow] of the reply to a follow: the status of the new edge and
    the id of the followed user. *)
Record FollowReply := mkFollowReply {
  fr_status : Follow.Status;
  fr_following : ObjectId
}.

(** POST /api/follow/:userId.  The test [userId === req.user._id
    .toString()] is taken on the ids: the URL is taken to spell an id as
    [toString()] does.  (Another spelling of the caller's own id passes
    that test and is stopped by the pre-save hook of Follow, with the 500
    of the catch block in place of the 400, and nothing stored.) *)
Definition followUser (me : ReqUser) (userId : ObjectId) : M (Response FollowReply) :=
  tryCatch
    (if decide (userId = ru_id me) then failure 400 "Cannot follow yourself"
     else
       userToFollow ← UserModel.findById userId;
       match userToFollow with
       | None => failure 404 "User not found"
       | Some target =>
         if negb (User.isActive target) then failure 404 "User not found"
         else
           existingFollow ← FollowModel.findOne
             (FollowModel.samePair (ru_id me) userId);
           match existingFollow with
           | Some _ => failure 400 "Already following this user"
           | None =>
             follow ← FollowModel.create (ru_id me) userId
               (if User.isPrivate target then Follow.pending else Follow.accepted);
             UserModel.findByIdAndUpdate (ru_id me) (User.inc_followingCount 1);;
             UserModel.findByIdAndUpdate userId (User.inc_followersCount 1);;
             (if negb (User.isPrivate target) then
                NotificationModel.createNotification
                  (Notification.mkData userId (ru_id me) Notification.follow
                     Notification.user (ru_id me)
                     (ru_username me +:+ " started following you"))
              else
                NotificationModel.createNotification
                  (Notification.mkData userId (ru_id me) Notification.follow_request
                     Notification.user (ru_id me)
                     (ru_username me +:+ " sent you a follow request")));;
             mret (mkResponse 201 true
                     (Some (if User.isPrivate target then "Follow request sent"
                            else "User followed successfully"))
                     (Some (mkFollowReply (Follow.status follow) userId)))
           end
       end)
    (failure 500 "Server error following user").

(** DELETE /api/follow/:userId *)
Definition unfollowUser (me : ReqUser) (userId : ObjectId) : M (Response unit) :=
  tryCatch
    (follow ← FollowModel.findOneAndDelete
       (FollowModel.samePair (ru_id me) userId);
     match follow with
     | None => failure 404 "Not following this user"
     | Some _ =>
       UserModel.findByIdAndUpdate (ru_id me) (User.inc_followingCount (-1));;
       UserModel.findByIdAndUpdate userId (User.inc_followersCount (-1));;
       mret (mkResponse 200 true (Some "User unfollowed successfully") None)
     end)
    (failure 500 "Server error unfollowing user").

(** The query of the two request handlers: the pending edge from [userId]
    to the caller. *)
Definition pendingFrom (userId me : ObjectId) (f : Follow.t) : bool :=
  FollowModel.samePair userId me f
  && bool_decide (Follow.status f = Follow.pending).

(** PUT /api/follow/:userId/accept *)
Definition acceptFollowRequest (me : ReqUser) (userId : ObjectId) : M (Response unit) :=
  tryCatch
    (follow ← FollowModel.findOne (pendingFrom userId (ru_id me));
     match follow with
     | None => failure 404 "Follow request not found"
     | Some f =>
       FollowModel.save (Follow.set_status Follow.accepted f);;
       NotificationModel.createNotification
         (Notification.mkData userId (ru_id me) Notification.follow
            Notification.user (ru_id me)
            (ru_username me +:+ " accepted your follow request"));;
       mret (mkResponse 200 true (Some "Follow request accepted") None)
     end)
    (failure 500 "Server error accepting follow request").

(** PUT /api/follow/:userId/reject *)
Definition rejectFollowRequest (me : ReqUser) (userId : ObjectId) : M (Response unit) :=
  tryCatch
    (follow ← FollowModel.findOneAndDelete (pendingFrom userId (ru_id me));
     match follow with
     | None => failure 404 "Follow request not found"
     | Some _ =>
       mret (mkResponse 200 true (Some "Follow request rejected") None)
     end)
    (failure 500 "Server error rejecting follow request").

(** [!req.user || req.user._id.toString() !== userId]: a comparison of
    texts, which the owner passes only when the URL spells the id as
    [toString()] does. *)
Definition notOwner (viewer : option ReqUser) (userId : UrlId) : bool :=
  match viewer with
  | None => true
  | Some u => negb (url_asToString userId
                    && bool_decide (ru_id u = url_id userId))
  end.

(** The privacy check shared by the follower and following lists: a
    private account is shown to its owner and to its accepted followers.
    The result tells whether the request may proceed. *)
Definition privacyCheck (viewer : option ReqUser) (userId : UrlId) (user : User.t) : M bool :=
  if User.isPrivate user && notOwner viewer userId
  then
    isFollowing ← FollowModel.isFollowing (ru_id <$> viewer) (url_id userId);
    mret (bool_decide (is_Some isFollowing))
  else mret true.

(** GET /api/follow/:userId/followers *)
Definition getFollowers (viewer : option ReqUser) (userId : UrlId) (page limit : Z) : M (Response (Page Follow.t)) :=
  tryCatch
    (user ← UserModel.findById (url_id userId);
     match user with
     | None => failure 404 "User not found"
     | Some u =>
       if negb (User.isActive u) then failure 404 "User not found"
       else
         allowed ← privacyCheck viewer userId u;
         if (allowed : bool) then
           followers ← FollowModel.getFollowers (url_id userId) Follow.accepted;
           total ← FollowModel.countDocuments (λ f,
             bool_decide (Follow.following f = url_id userId)
             && bool_decide (Follow.status f = Follow.accepted));
           mret (mkResponse 200 true None
                   (Some (mkPage (paginate page limit followers) page limit total)))
         else failure 403 "This account is private"
     end)
    (failure 500 "Server error getting followers").

(** GET /api/follow/:userId/following *)
Definition getFollowing (viewer : option ReqUser) (userId : UrlId) (page limit : Z) : M (Response (Page Follow.t)) :=
  tryCatch
    (user ← UserModel.findById (url_id userId);
     match user with
     | None => failure 404 "User not found"
     | Some u =>
       if negb (User.isActive u) then failure 404 "User not found"
       else
         allowed ← privacyCheck viewer userId u;
         if (allowed : bool) then
           following ← FollowModel.getFollowing (url_id userId) Follow.accepted;
           total ← FollowModel.countDocuments (λ f,
             bool_decide (Follow.follower f = url_id userId)
             && bool_decide (Follow.status f = Follow.accepted));
           mret (mkResponse 200 true None
                   (Some (mkPage (paginate page limit following) page limit total)))
         else failure 403 "This account is private"
     end)
    (failure 500 "Server error getting following").

(** [data] of the reply of getFollowStatus. *)
Record FollowStatus := mkFollowStatus {
  isFollowing : bool;
  hasPendingRequest : bool;
  status : option Follow.Status
}.

(** GET /api/follow/:userId/status *)
Definition getFollowStatus (me : ReqUser) (userId : ObjectId) : M (Response FollowStatus) :=
  tryCatch
    (follow ← FollowModel.findOne (FollowModel.samePair (ru_id me) userId);
     let isFollowing :=
       bool_decide (is_Some follow)
       && bool_decide (Follow.status <$> follow = Some Follow.accepted) in
     let hasPendingRequest :=
       bool_decide (is_Some follow)
       && bool_decide (Follow.status <$> follow = Some Follow.pending) in
     mret (mkResponse 200 true None
             (Some (mkFollowStatus isFollowing hasPendingRequest
                      (Follow.status <$> follow)))))
    (failure 500 "Server error getting follow status").

End followController.

(* ===================================================================== *)
(** ** Sorting as the store does it *)
(* ===================================================================== *)

(** Order of sort keys: a document without the field sorts as null, below
    every number. *)
Definition keyLt (a b : option Z) : bool :=
  match a, b with
  | None, None => false
  | None, Some _ => true
  | Some _, None => false
  | Some x, Some y => bool_decide (x < y)%Z
  end.

(** [d] came before the documents of [sorted] in the scan; it goes in
    front of the first one whose key is not greater than its own, so
    documents with equal keys keep the order of the scan. *)
Fixpoint insertDesc {D} (key : D → option Z) (d : D) (sorted : list D) : list D :=
  match sorted with
  | [] => [d]
  | e :: r => if keyLt (key d) (key e) then e :: insertDesc key d r
              else d :: e :: r
  end.

(** [.sort({ key: -1 })] *)
Definition sortDesc {D} (key : D → option Z) (docs : list D) : list D :=
  foldr (insertDesc key) [] docs.

Module PostModel.

(** [Post.findById(id)] *)
Definition findById (id : ObjectId) : M (option Post.t) :=
  get (λ db, find (byId Post._id id) (posts db)).

(** [Post.create(input)]: the new document gets its id, is validated
    against the schema, passes the pre-save hook and is inserted. *)
Definition create (i : Post.Input) : M Post.t :=
  id ← freshId;
  now ← get clock;
  if Post.validate i then
    dup ← get (λ db, existsb (byId Post._id id) (posts db));
    if (dup : bool) then throw "E11000 duplicate key error"
    else
      let p := Post.preSave [] (Post.new id now i) in
      modify (set_posts (λ c, c ++ [p]));;
      mret p
  else throw "Post validation failed".

(** [post.save()] of a stored post after the handler modified the paths
    [modified].  The stored documents passed validation when they were
    created and the handlers below touch only the engagement arrays, so
    validation is not repeated here.  The saved document is returned:
    the handler reads the recomputed counters from it. *)
Definition save (modified : list Post.Path) (p : Post.t) : M Post.t :=
  let p' := Post.preSave modified p in
  modify (set_posts (replaceById Post._id p'));;
  mret p'.

(** [Post.findByIdAndUpdate(id, { $pull: { comments: commentId } })] *)
Definition pullComment (id commentId : ObjectId) : M unit :=
  modify (set_posts (map (λ p,
    if byId Post._id id p
    then Post.set_comments (filter (λ c, c ≠ commentId) (Post.comments p)) p
    else p))).

(** The sort key the store sees for [engagementCount].  The schema
    declares it as a virtual, computed by a getter on a loaded document
    and never stored: the store finds no such field in any document. *)
Definition engagementKey (p : Post.t) : option Z := None.

(** The filter of getPopularPosts: public, active, created in the last
    seven days. *)
Definition isRecentPublic (now : Z) (p : Post.t) : bool :=
  bool_decide (Post.visibility p = Post.public)
  && Post.isActive p
  && bool_decide (now - 7 * 24 * 60 * 60 * 1000 ≤ Post.createdAt p)%Z.

(** postSchema.statics.getPopularPosts *)
Definition getPopularPosts (page limit : Z) : M (list Post.t) :=
  now ← get clock;
  found ← get (λ db, List.filter (isRecentPublic now) (posts db));
  mret (paginate page limit (sortDesc engagementKey found)).

End PostModel.

Module CommentModel.

(** [Comment.findById(id)] *)
Definition findById (id : ObjectId) : M (option Comment.t) :=
  get (λ db, find (byId Comment._id id) (comments db)).

(** [Comment.create(input)].  The comment schema is not among the
    sources; [schemaOk] stands for its validation. *)
Definition create (schemaOk : Comment.Input → bool) (i : Comment.Input) : M Comment.t :=
  id ← freshId;
  now ← get clock;
  if schemaOk i then
    dup ← get (λ db, existsb (byId Comment._id id) (comments db));
    if (dup : bool) then throw "E11000 duplicate key error"
    else
      let c := Comment.new id now i in
      modify (set_comments (λ coll, coll ++ [c]));;
      mret c
  else throw "Comment validation failed".

(** [comment.save()] of a stored comment. *)
Definition save (c : Comment.t) : M unit :=
  modify (set_comments (replaceById Comment._id c)).

(** [Comment.findByIdAndUpdate(id, { $pull: { replies: replyId } })] *)
Definition pullReply (id replyId : ObjectId) : M unit :=
  modify (set_comments (map (λ c,
    if byId Comment._id id c
    then Comment.set_replies (filter (λ r, r ≠ replyId) (Comment.replies c)) c
    else c))).

(** The query of getComments: the active top-level comments of a post. *)
Definition isTopLevelOf (postId : ObjectId) (c : Comment.t) : bool :=
  bool_decide (Comment.post c = postId)
  && bool_decide (Comment.parentComment c = None)
  && Comment.isActive c.

End CommentModel.

(** ** The Redis client *)

(** [const redis = getRedisClient(); if (redis) ...] *)
Definition getRedisClient : M bool :=
  get (λ db, bool_decide (is_Some (redis db))).

(** [redis.get(key)]: the live entry under the key, if any. *)
Definition redis_get (key : CacheKey) : M (option PopularResult) :=
  get (λ db,
    cache ← redis db;
    ce_value <$> find (λ e, bool_decide (ce_key e = key)
                            && bool_decide (clock db < ce_expires e)%Z) cache).

(** [redis.setex(key, seconds, value)].  The client is the one
    config/database.js makes with [redis.createClient({ url })] and
    [connect()], the client of node-redis 4, which names this command
    [setEx]: it has no property [setex], and the call throws before
    anything reaches the cache. *)
Definition redis_setex (key : CacheKey) (seconds : Z) (value : PopularResult) : M unit :=
  throw "TypeError: redis.setex is not a function".

(** [redis.del(key)] *)
Definition redis_del (key : CacheKey) : M unit :=
  modify (set_redis (filter (λ e, ce_key e ≠ key))).

(* ===================================================================== *)
(** ** controllers/postController.js *)
(* ===================================================================== *)

Module postController.

(** [req.body] of createPost, as far as this development follows it. *)
Record CreateBody := mkCreateBody {
  content : option string;
  visibility : option Post.Visibility;
  mentions : option (list ObjectId)
}.

(** POST /api/posts *)
Definition createPost (me : ReqUser) (body : CreateBody) : M (Response Post.t) :=
  tryCatch
    (post ← PostModel.create
       (Post.mkInput (ru_id me) (content body) (default [] (mentions body))
          (Some (default Post.public (visibility body))) None None);
     (match mentions body with
      | Some mentioned =>
        if bool_decide (0 < length mentioned) then
          NotificationModel.insertMany
            (map (λ userId,
                    Notification.mkData userId (ru_id me) Notification.mention
                      Notification.post (Post._id post)
                      (ru_username me +:+ " mentioned you in a post"))
                 mentioned)
        else mret tt
      | None => mret tt
      end);;
     redis ← getRedisClient;
     (if (redis : bool) then
        redis_del popular_posts;;
        redis_del (user_feed (ru_id me))
      else mret tt);;
     mret (mkResponse 201 true (Some "Post created successfully") (Some post)))
    (failure 500 "Server error creating post").

(** GET /api/posts/popular *)
Definition getPopularPosts (page limit : Z) : M (Response PopularResult) :=
  tryCatch
    (redis ← getRedisClient;
     cachedPosts ← (if (redis : bool)
                    then redis_get (popular_posts_page page limit)
                    else mret None);
     match cachedPosts with
     | Some cached => mret (mkResponse 200 true None (Some cached))
     | None =>
       posts ← PostModel.getPopularPosts page limit;
       let result := mkPopularResult posts page limit in
       (if (redis : bool)
        then redis_setex (popular_posts_page page limit) 600 result
        else mret tt);;
       mret (mkResponse 200 true None (Some result))
     end)
    (failure 500 "Server error getting popular posts").

(** [post.author._id] after [populate('author', ...)]: the reference is
    null when the author's document is gone, and reading [_id] of it
    throws. *)
Definition populatedAuthorId (p : Post.t) : M ObjectId :=
  author ← UserModel.findById (Post.author p);
  match author with
  | Some _ => mret (Post.author p)
  | None => throw "TypeError: Cannot read properties of null (reading '_id')"
  end.

(** [id.toString() !== req.user?._id.toString()]: without a user the right
    side is undefined and differs from every id. *)
Definition differsFromViewer (id : ObjectId) (viewer : option ReqUser) : bool :=
  match viewer with
  | None => true
  | Some u => negb (bool_decide (id = ru_id u))
  end.

(** GET /api/posts/:id *)
Definition getPost (viewer : option ReqUser) (id : ObjectId) : M (Response Post.t) :=
  tryCatch
    (post ← PostModel.findById id;
     match post with
     | None => failure 404 "Post not found"
     | Some p =>
       if negb (Post.isActive p) then failure 404 "Post not found"
       else
         deniedPrivate ←
           (if decide (Post.visibility p = Post.private) then
              authorId ← populatedAuthorId p;
              mret (differsFromViewer authorId viewer)
            else mret false);
         if (deniedPrivate : bool) then failure 403 "This post is private"
         else
           match decide (Post.visibility p = Post.followers), viewer with
           | left _, None => failure 403 "This post is only visible to followers"
           | left _, Some u =>
             authorId ← populatedAuthorId p;
             isFollowing ← FollowModel.isFollowing (Some (ru_id u)) authorId;
             if negb (bool_decide (is_Some isFollowing))
                && negb (bool_decide (authorId = ru_id u))
             then failure 403 "This post is only visible to followers"
             else mret (mkResponse 200 true None (Some p))
           | right _, _ => mret (mkResponse 200 true None (Some p))
           end
     end)
    (failure 500 "Server error getting post").

(** [data] of the reply of likePost. *)
Record LikeReply := mkLikeReply {
  likesCount : Z;
  isLiked : bool
}.

(** POST /api/posts/:id/like *)
Definition likePost (me : ReqUser) (id : ObjectId) : M (Response LikeReply) :=
  tryCatch
    (post ← PostModel.findById id;
     match post with
     | None => failure 404 "Post not found"
     | Some p =>
       if negb (Post.isActive p) then failure 404 "Post not found"
       else
         let isLiked := Post.isLikedBy p (ru_id me) in
         let p1 :=
           if isLiked
           then Post.set_likes (filter (λ like, like ≠ ru_id me) (Post.likes p)) p
           else Post.set_likes (Post.likes p ++ [ru_id me]) p in
         saved ← PostModel.save [Post.path_likes] p1;
         (if negb isLiked && negb (bool_decide (Post.author saved = ru_id me))
          then
            NotificationModel.createNotification
              (Notification.mkData (Post.author saved) (ru_id me)
                 Notification.like Notification.post (Post._id saved)
                 (ru_username me +:+ " liked your post"));;
            mret tt
          else mret tt);;
         mret (mkResponse 200 true
                 (Some (if isLiked then "Post unliked" else "Post liked"))
                 (Some (mkLikeReply (Post.likesCount saved) (negb isLiked))))
     end)
    (failure 500 "Server error liking post").

(** POST /api/posts/:id/share *)
Definition sharePost (me : ReqUser) (id : ObjectId) (shareText : option string) : M (Response Post.t) :=
  tryCatch
    (originalPost ← PostModel.findById id;
     match originalPost with
     | None => failure 404 "Post not found"
     | Some original =>
       if negb (Post.isActive original) then failure 404 "Post not found"
       else
         sharedPost ← PostModel.create
           (Post.mkInput (ru_id me) None [] (Some Post.public)
              (Some (Post._id original)) shareText);
         saved ← PostModel.save [Post.path_shares]
           (Post.set_shares (Post.shares original ++ [ru_id me]) original);
         (if negb (bool_decide (Post.author saved = ru_id me)) then
            NotificationModel.createNotification
              (Notification.mkData (Post.author saved) (ru_id me)
                 Notification.share Notification.post (Post._id saved)
                 (ru_username me +:+ " shared your post"));;
            mret tt
          else mret tt);;
         mret (mkResponse 201 true (Some "Post shared successfully")
                 (Some sharedPost))
     end)
    (failure 500 "Server error sharing post").

End postController.

(* ===================================================================== *)
(** ** controllers/commentController.js *)
(* ===================================================================== *)

Module commentController.

(** [req.body] of createComment. *)
Record CreateBody := mkCreateBody {
  content : string;
  parentCommentId : option ObjectId
}.

(** [parentComment.field] on the result of [Comment.findById]: reading a
    field of null throws. *)
Definition loadParent (parentCommentId : ObjectId) : M Comment.t :=
  parentComment ← CommentModel.findById parentCommentId;
  match parentComment with
  | Some c => mret c
  | None => throw "TypeError: Cannot read properties of null"
  end.

(** POST /api/posts/:postId/comments.  [schemaOk] is the validation of the
    comment schema, which is not among the sources. *)
Definition createComment (schemaOk : Comment.Input → bool) (me : ReqUser) (postId : ObjectId) (body : CreateBody) : M (Response Comment.t) :=
  tryCatch
    (post ← PostModel.findById postId;
     match post with
     | None => failure 404 "Post not found"
     | Some p =>
       if negb (Post.isActive p) then failure 404 "Post not found"
       else
         parentOk ←
           match parentCommentId body with
           | Some parentId =>
             parentComment ← CommentModel.findById parentId;
             mret (match parentComment with
                   | Some c => Comment.isActive c
                   | None => false
                   end)
           | None => mret true
           end;
         if negb parentOk then failure 404 "Parent comment not found"
         else
           comment ← CommentModel.create schemaOk
             (Comment.mkInput (ru_id me) postId (content body)
                (parentCommentId body));
           saved ← PostModel.save [Post.path_comments]
             (Post.set_comments (Post.comments p ++ [Comment._id comment]) p);
           match parentCommentId body with
           | Some parentId =>
             parentComment ← loadParent parentId;
             CommentModel.save
               (Comment.set_replies
                  (Comment.replies parentComment ++ [Comment._id comment])
                  parentComment)
           | None => mret tt
           end;;
           (if negb (bool_decide (Post.author saved = ru_id me)) then
              NotificationModel.createNotification
                (Notification.mkData (Post.author saved) (ru_id me)
                   (if bool_decide (is_Some (parentCommentId body))
                    then Notification.reply else Notification.comment)
                   Notification.comment_ (Comment._id comment)
                   (if bool_decide (is_Some (parentCommentId body))
                    then ru_username me +:+ " replied to your comment"
                    else ru_username me +:+ " commented on your post"));;
              mret tt
            else mret tt);;
           match parentCommentId body with
           | Some parentId =>
             parentComment ← loadParent parentId;
             if negb (bool_decide (Comment.author parentComment = ru_id me))
                && negb (bool_decide (Comment.author parentComment = Post.author saved))
             then
               NotificationModel.createNotification
                 (Notification.mkData (Comment.author parentComment) (ru_id me)
                    Notification.reply Notification.comment_
                    (Comment._id comment)
                    (ru_username me +:+ " replied to your comment"));;
               mret tt
             else mret tt
           | None => mret tt
           end;;
           mret (mkResponse 201 true (Some "Comment created successfully")
                   (Some comment))
     end)
    (failure 500 "Server error creating comment").

(** GET /api/posts/:postId/comments.  Where the handler has the comment
    "Check post visibility permissions (similar to getPost)" it has no
    code: every viewer of an active post gets the comments. *)
Definition getComments (viewer : option ReqUser) (postId : ObjectId) (page limit : Z) : M (Response (Page Comment.t)) :=
  tryCatch
    (post ← PostModel.findById postId;
     match post with
     | None => failure 404 "Post not found"
     | Some p =>
       if negb (Post.isActive p) then failure 404 "Post not found"
       else
         found ← get (λ db,
           List.filter (CommentModel.isTopLevelOf postId) (comments db));
         let comments :=
           paginate page limit
             (sortDesc (λ c, Some (Comment.createdAt c)) found) in
         let total := length found in
         mret (mkResponse 200 true None
                 (Some (mkPage comments page limit total)))
     end)
    (failure 500 "Server error getting comments").

(** DELETE /api/comments/:id *)
Definition deleteComment (me : ReqUser) (id : ObjectId) : M (Response unit) :=
  tryCatch
    (comment ← CommentModel.findById id;
     match comment with
     | None => failure 404 "Comment not found"
     | Some c =>
       if negb (Comment.isActive c) then failure 404 "Comment not found"
       else if negb (bool_decide (Comment.author c = ru_id me))
               && negb (ru_admin me)
       then failure 403 "Not authorized to delete this comment"
       else
         CommentModel.save (Comment.set_isActive false c);;
         PostModel.pullComment (Comment.post c) (Comment._id c);;
         match Comment.parentComment c with
         | Some parentId => CommentModel.pullReply parentId (Comment._id c)
         | None => mret tt
         end;;
         mret (mkResponse 200 true (Some "Comment deleted successfully") None)
     end)
    (failure 500 "Server error deleting comment").

End commentController.

(* ===================================================================== *)
(** ** What the specification measures *)
(* ===================================================================== *)

(** The accepted edges that target an account, as getFollowStats counts
    them. *)
Definition isAcceptedTo (userId : ObjectId) (f : Follow.t) : bool :=
  bool_decide (Follow.following f = userId)
  && bool_decide (Follow.status f = Follow.accepted).

(** The accepted edges an account is the follower of. *)
Definition isAcceptedFrom (userId : ObjectId) (f : Follow.t) : bool :=
  bool_decide (Follow.follower f = userId)
  && bool_decide (Follow.status f = Follow.accepted).

Definition acceptedFollowers (db : DB) (userId : ObjectId) : Z :=
  Z.of_nat (length (List.filter (isAcceptedTo userId) (follows db))).

Definition acceptedFollowing (db : DB) (userId : ObjectId) : Z :=
  Z.of_nat (length (List.filter (isAcceptedFrom userId) (follows db))).

(** The denormalized counter of a stored account. *)
Definition followersCountOf (db : DB) (userId : ObjectId) : option Z :=
  User.followersCount <$> users db !! userId.

(** Invariant 3 of the specification: each counter equals the number of
    accepted edges. *)
Definition countersConsistent (db : DB) : Prop :=
  ∀ id u, users db !! id = Some u →
    User.followersCount u = acceptedFollowers db id
    ∧ User.followingCount u = acceptedFollowing db id.

(** The [commentsCount] field of a stored post. *)
Definition commentsCountOf (db : DB) (id : ObjectId) : option Z :=
  Post.commentsCount <$> find (byId Post._id id) (posts db).

(** A request that creates or deletes a comment. *)
Inductive CommentOp :=
  | opCreate (me : ReqUser) (postId : ObjectId) (body : commentController.CreateBody)
  | opDelete (me : ReqUser) (commentId : ObjectId).

(** The store after a comment request was handled. *)
Definition runCommentOp (schemaOk : Comment.Input → bool) (db : DB) (op : CommentOp) : DB :=
  match op with
  | opCreate me postId body =>
      (commentController.createComment schemaOk me postId body db).2
  | opDelete me commentId =>
      (commentController.deleteComment me commentId db).2
  end.

(** The store after a sequence of comment requests, handled in order. *)
Definition runCommentOps (schemaOk : Comment.Input → bool) (ops : list CommentOp) (db : DB) : DB :=
  foldl (runCommentOp schemaOk) db ops.

(** The notification likePost creates for the author of [p]. *)
Definition likeNotification (me : ReqUser) (p : Post.t) : Notification.t :=
  Notification.mk (Post.author p) (ru_id me) Notification.like
    Notification.post (Post._id p) (ru_username me +:+ " liked your post")
    false (Some (Notification.post_like_ (Post._id p))) true.

(** [a] does not sort after [b] under [.sort({ key: -1 })]: its key is not
    below the key of [b]. *)
Definition notBelow {D} (key : D → option Z) (a b : D) : Prop :=
  keyLt (key a) (key b) = false.

(** The order the specification gives the popular feed: engagement
    descending, ties by creation time descending. *)
Definition popularBefore (p q : Post.t) : Prop :=
  (Post.engagementCount q < Post.engagementCount p)%Z
  ∨ (Post.engagementCount p = Post.engagementCount q
     ∧ (Post.createdAt q ≤ Post.createdAt p)%Z).

(* ===================================================================== *)
(** ** Sample stores *)
(* ===================================================================== *)

Module Sample.

(** Two accounts: alice is public, bob is private. *)
Definition alice : ReqUser := mkReqUser 1 "alice" false.
Definition bob : ReqUser := mkReqUser 2 "bob" false.

Definition aliceUser : User.t := User.mk "alice" false true 0 0.
Definition bobUser : User.t := User.mk "bob" true true 0 0.

Definition accounts : gmap ObjectId User.t :=
  <[1 := aliceUser]> (<[2 := bobUser]> ∅).

(** No edges, no content. *)
Definition empty : DB := mkDB accounts [] [] [] [] None 100 0.

(** A post of bob with the given id, visibility, likes and creation
    time. *)
Definition postOfBob (id : ObjectId) (v : Post.Visibility) (likes : list ObjectId) (created : Z) : Post.t :=
  Post.mk id 2 "hello" likes (Z.of_nat (length likes)) [] 0 [] 0 []
          v true None None created.

(** bob has one private post. *)
Definition withPrivatePost : DB :=
  mkDB accounts [] [postOfBob 10 Post.private [] 1000] [] [] None 100 2000.

(** bob has one public post nobody liked. *)
Definition withFreshPost : DB :=
  mkDB accounts [] [postOfBob 10 Post.public [] 1000] [] [] None 100 2000.

(** bob has one public post that user 3 liked. *)
Definition withLikedPost : DB :=
  mkDB accounts [] [postOfBob 10 Post.public [3] 1000] [] [] None 100 2000.

(** Two public posts of the last week; the store holds the one nobody
    liked before the one user 3 liked. *)
Definition quiet : Post.t := postOfBob 10 Post.public [] 1000.
Definition liked : Post.t := postOfBob 11 Post.public [3] 2000.

Definition withRisingPosts : DB :=
  mkDB accounts [] [quiet; liked] [] [] None 100 3000.

(** alice writes a post and mentions herself. *)
Definition selfMention : postController.CreateBody :=
  postController.mkCreateBody (Some "look at me") None (Some [1]).

End Sample.

(* ===================================================================== *)
(** ** Further handlers and statics *)
(* ===================================================================== *)

(** [post.isActive = false] *)
Definition softDeleted (p : Post.t) : Post.t :=
  Post.mk (Post._id p) (Post.author p) (Post.content p) (Post.likes p)
    (Post.likesCount p) (Post.comments p) (Post.commentsCount p)
    (Post.shares p) (Post.sharesCount p) (Post.mentions p)
    (Post.visibility p) false (Post.sharedPost p) (Post.shareText p)
    (Post.createdAt p).

(** DELETE /api/posts/:id (postController.js, deletePost).  The soft
    delete modifies neither [likes] nor [shares], so the pre-save hook
    recomputes nothing. *)
Definition deletePost (me : ReqUser) (id : ObjectId) : M (Response unit) :=
  tryCatch
    (post ← PostModel.findById id;
     match post with
     | None => failure 404 "Post not found"
     | Some p =>
       if negb (Post.isActive p) then failure 404 "Post not found"
       else if negb (bool_decide (Post.author p = ru_id me))
               && negb (ru_admin me)
       then failure 403 "Not authorized to delete this post"
       else
         PostModel.save [] (softDeleted p);;
         redis ← getRedisClient;
         (if (redis : bool) then
            redis_del (user_feed (ru_id me));;
            redis_del popular_posts
          else mret tt);;
         mret (mkResponse 200 true (Some "Post deleted successfully") None)
     end)
    (failure 500 "Server error deleting post").

(** The query of getUserPosts: the active posts of [userId]; all of them
    for the owner ([visibility: { $exists: true }]), the public ones for
    everyone else.  The owner is told by the same comparison of texts as
    in the privacy check. *)
Definition userPostsQuery (viewer : option ReqUser) (userId : UrlId) (p : Post.t) : bool :=
  bool_decide (Post.author p = url_id userId)
  && Post.isActive p
  && (if followController.notOwner viewer userId
      then bool_decide (Post.visibility p = Post.public)
      else true).

(** GET /api/posts/user/:userId (postController.js, getUserPosts) *)
Definition getUserPosts (viewer : option ReqUser) (userId : UrlId) (page limit : Z) : M (Response (Page Post.t)) :=
  tryCatch
    (user ← UserModel.findById (url_id userId);
     match user with
     | None => failure 404 "User not found"
     | Some u =>
       if negb (User.isActive u) then failure 404 "User not found"
       else
         allowed ← followController.privacyCheck viewer userId u;
         if (allowed : bool) then
           found ← get (λ db,
             List.filter (userPostsQuery viewer userId) (posts db));
           mret (mkResponse 200 true None
                   (Some (mkPage
                            (paginate page limit
                               (sortDesc (λ p, Some (Post.createdAt p)) found))
                            page limit (length found))))
         else failure 403 "This account is private"
     end)
    (failure 500 "Server error getting user posts").

(** The query of getFeedPosts: public active posts whose author is the
    user or one of [followingIds]. *)
Definition inFeed (userId : ObjectId) (followingIds : list ObjectId) (p : Post.t) : bool :=
  (bool_decide (Post.author p ∈ followingIds)
   || bool_decide (Post.author p = userId))
  && bool_decide (Post.visibility p = Post.public)
  && Post.isActive p.

(** postSchema.statics.getFeedPosts *)
Definition getFeedPosts (userId : ObjectId) (followingIds : list ObjectId) (page limit : Z) : M (list Post.t) :=
  found ← get (λ db, List.filter (inFeed userId followingIds) (posts db));
  mret (paginate page limit (sortDesc (λ p, Some (Post.createdAt p)) found)).

Module NotificationStatics.

(** The filter of getUnreadCount: [{ recipient, isRead: false, isActive:
    true }]. *)
Definition isUnreadOf (userId : ObjectId) (n : Notification.t) : bool :=
  bool_decide (Notification.recipient n = userId)
  && negb (Notification.isRead n)
  && Notification.isActive n.

(** notificationSchema.statics.getUnreadCount *)
Definition getUnreadCount (userId : ObjectId) : M nat :=
  get (λ db, length (List.filter (isUnreadOf userId) (notifications db))).

(** [{ isRead: true, readAt: new Date() }]; the time stamp [readAt] is not
    among the fields of the notification record followed here. *)
Definition markRead (n : Notification.t) : Notification.t :=
  Notification.mk (Notification.recipient n) (Notification.sender n)
    (Notification.type n) (Notification.entityType n) (Notification.entityId n)
    (Notification.message n) true (Notification.groupKey n)
    (Notification.isActive n).

(** notificationSchema.statics.markAllAsRead: [updateMany] on
    [{ recipient: userId, isRead: false }]. *)
Definition markAllAsRead (userId : ObjectId) : M unit :=
  modify (set_notifications (map (λ n,
    if bool_decide (Notification.recipient n = userId)
       && negb (Notification.isRead n)
    then markRead n else n))).

End NotificationStatics.

Module notificationController.

(** PUT /api/notifications/read-all *)
Definition markAllAsRead (me : ReqUser) : M (Response unit) :=
  tryCatch
    (NotificationStatics.markAllAsRead (ru_id me);;
     mret (mkResponse 200 true (Some "All notifications marked as read") None))
    (failure 500 "Server error marking all notifications as read").

End notificationController.

(** [{ isActive: false }] on an account. *)
Definition deactivated (u : User.t) : User.t :=
  User.mk (User.username u) (User.isPrivate u) false
    (User.followersCount u) (User.followingCount u).

(** DELETE /api/auth/deactivate (authController.js, deactivateAccount) *)
Definition deactivateAccount (me : ReqUser) : M (Response unit) :=
  tryCatch
    (UserModel.findByIdAndUpdate (ru_id me) deactivated;;
     mret (mkResponse 200 true (Some "Account deactivated successfully") None))
    (failure 500 "Server error deactivating account").

Module Like.

(** [entityType: enum ['post', 'comment']] of likeSchema. *)
Inductive EntityType := post | comment.

#[global] Instance EntityType_eq_dec : EqDecision EntityType.
Proof. solve_decision. Defined.

(** likeSchema: user, entityType, entityId. *)
Record t := mk {
  _id : ObjectId;
  user : ObjectId;
  entityType : EntityType;
  entityId : ObjectId
}.

#[global] Instance t_eq_dec : EqDecision t.
Proof. solve_decision. Defined.

End Like.

(** The likes collection of the Like model with its source of fresh ids.
    No controller reads or writes it, so it is a store of its own, passed
    explicitly. *)
Record LikeStore := mkLikeStore {
  likeDocs : list Like.t;
  nextLikeId : ObjectId
}.

Module LikeModel.

(** The query [{ user, entityType, entityId }]. *)
Definition sameLike (userId : ObjectId) (entityType : Like.EntityType) (entityId : ObjectId) (l : Like.t) : bool :=
  bool_decide (Like.user l = userId)
  && bool_decide (Like.entityType l = entityType)
  && bool_decide (Like.entityId l = entityId).

(** likeSchema.statics.hasLiked *)
Definition hasLiked (s : LikeStore) (userId : ObjectId) (entityType : Like.EntityType) (entityId : ObjectId) : option Like.t :=
  find (sameLike userId entityType entityId) (likeDocs s).

(** [action] of the object toggleLike returns. *)
Inductive Action := liked | unliked.

(** likeSchema.statics.toggleLike: an existing like is deleted by its
    [_id], otherwise a new one is saved.  The unique index on the triple
    cannot reject the save: the query just found no document with it. *)
Definition toggleLike (s : LikeStore) (userId : ObjectId) (entityType : Like.EntityType) (entityId : ObjectId) : (Action * option Like.t) * LikeStore :=
  match find (sameLike userId entityType entityId) (likeDocs s) with
  | Some existingLike =>
      ((unliked, None),
       mkLikeStore
         (deleteFirst (byId Like._id (Like._id existingLike)) (likeDocs s))
         (nextLikeId s))
  | None =>
      let like := Like.mk (nextLikeId s) userId entityType entityId in
      ((liked, Some like),
       mkLikeStore (likeDocs s ++ [like]) (S (nextLikeId s)))
  end.

End LikeModel.

(* ===================================================================== *)
(** ** Further notions the properties use *)
(* ===================================================================== *)

(** An accepted edge from [a] to [b] is stored. *)
Definition followsAccepted (db : DB) (a b : ObjectId) : Prop :=
  ∃ f, f ∈ follows db
       ∧ Follow.follower f = a
       ∧ Follow.following f = b
       ∧ Follow.status f = Follow.accepted.

(** Whom getPost lets read a post: everyone when it is public, the author
    always, the accepted followers of the author when it is for
    followers. *)
Definition mayViewPost (db : DB) (viewer : option ReqUser) (p : Post.t) : Prop :=
  Post.visibility p = Post.public
  ∨ (∃ u, viewer = Some u ∧ ru_id u = Post.author p)
  ∨ (Post.visibility p = Post.followers
     ∧ ∃ u, viewer = Some u ∧ followsAccepted db (ru_id u) (Post.author p)).

(** The viewer is the owner of the account the URL names, and the URL
    spells the id as [toString()] does. *)
Definition ownerByText (viewer : option ReqUser) (userId : UrlId) : Prop :=
  ru_id <$> viewer = Some (url_id userId) ∧ url_asToString userId = true.

#[global] Instance ownerByText_dec (viewer : option ReqUser) (userId : UrlId) : Decision (ownerByText viewer userId).
Proof. unfold ownerByText. apply _. Defined.

(** Whom the list handlers let see an account: everyone when it is
    public, the owner (told by the text of the id), and the accepted
    followers. *)
Definition mayViewAccount (db : DB) (viewer : option ReqUser) (userId : UrlId) (u : User.t) : Prop :=
  User.isPrivate u = false
  ∨ ownerByText viewer userId
  ∨ (∃ v, viewer = Some v ∧ followsAccepted db (ru_id v) (url_id userId)).

(** The pair an edge connects. *)
Definition pairOf (f : Follow.t) : ObjectId * ObjectId :=
  (Follow.follower f, Follow.following f).

(** A well-formed follow collection: ids and pairs occur once, no edge
    joins an account to itself, and the ids in use are below the next
    fresh one. *)
Record graphOk (db : DB) : Prop := mkGraphOk {
  ids_unique : NoDup (Follow._id <$> follows db);
  pairs_unique : NoDup (pairOf <$> follows db);
  no_self_edge : Forall (λ f, Follow.follower f ≠ Follow.following f) (follows db);
  ids_below_next : Forall (λ f, Follow._id f < nextId db) (follows db)
}.

(** A request to one of the four handlers that change the graph. *)
Inductive GraphOp :=
  | opFollow (me : ReqUser) (userId : ObjectId)
  | opUnfollow (me : ReqUser) (userId : ObjectId)
  | opAccept (me : ReqUser) (userId : ObjectId)
  | opReject (me : ReqUser) (userId : ObjectId).

(** The store after a graph request was handled. *)
Definition runGraphOp (db : DB) (op : GraphOp) : DB :=
  match op with
  | opFollow me userId => (followController.followUser me userId db).2
  | opUnfollow me userId => (followController.unfollowUser me userId db).2
  | opAccept me userId => (followController.acceptFollowRequest me userId db).2
  | opReject me userId => (followController.rejectFollowRequest me userId db).2
  end.

(** The like collection holds at most one like per (user, entity) and its
    ids are unique and below the next fresh one. *)
Record likesOk (s : LikeStore) : Prop := mkLikesOk {
  like_ids_unique : NoDup (Like._id <$> likeDocs s);
  like_triples_unique :
    NoDup ((λ l, (Like.user l, Like.entityType l, Like.entityId l)) <$> likeDocs s);
  like_ids_below_next : Forall (λ l, Like._id l < nextLikeId s) (likeDocs s)
}.

(** The documents of pages 1 to [n] of a listing, in order. *)
Fixpoint firstPages {D} (n : nat) (limit : Z) (docs : list D) : list D :=
  match n with
  | O => []
  | S k => firstPages k limit docs ++ paginate (Z.of_nat (S k)) limit docs
  end.

(** The (user, entity) triple the unique index of the like collection is
    built on. *)
Definition tripleOf (l : Like.t) : ObjectId * Like.EntityType * ObjectId :=
  (Like.user l, Like.entityType l, Like.entityId l).

(** The order [.sort({ createdAt: -1 })] leaves two documents in: the
    earlier one of the listing is not older than the later one. *)
Definition newestFirst (p q : Post.t) : Prop :=
  (Post.createdAt q ≤ Post.createdAt p)%Z.

(* ===================================================================== *)
(** ** More sample stores *)
(* ===================================================================== *)

Module Fixture.

Definition carol : ReqUser := mkReqUser 3 "carol" false.
Definition admin : ReqUser := mkReqUser 9 "root" true.

Definition carolUser : User.t := User.mk "carol" false true 0 0.

(** alice, bob (private) and carol. *)
Definition accounts : gmap ObjectId User.t :=
  <[3 := carolUser]> Sample.accounts.

(** carol follows bob (accepted). *)
Definition carolFollowsBob : Follow.t := Follow.mk 50 3 2 Follow.accepted.

(** bob has a public post 10, a followers-only post 11 and a private post
    12; carol is his accepted follower. *)
Definition bobsPosts : list Post.t :=
  [Sample.postOfBob 10 Post.public [] 1000;
   Sample.postOfBob 11 Post.followers [] 1100;
   Sample.postOfBob 12 Post.private [] 1200].

Definition social : DB :=
  mkDB accounts [carolFollowsBob] bobsPosts [] [] None 100 2000.

(** The same store with a Redis client that holds a live popular page. *)
Definition cachedPage : PopularResult :=
  mkPopularResult [Sample.postOfBob 10 Post.public [] 1000] 1 20.

Definition cached : DB :=
  mkDB accounts [carolFollowsBob] bobsPosts [] []
    (Some [mkCacheEntry (popular_posts_page 1 20) cachedPage 5000]) 100 2000.

(** The same store with a Redis client and an empty cache. *)
Definition uncached : DB :=
  mkDB accounts [carolFollowsBob] bobsPosts [] [] (Some []) 100 2000.

(** A comment of alice on post 10. *)
Definition aliceComment : Comment.t :=
  Comment.mk 30 1 10 "hi" None [] true 1500.

Definition withComment : DB :=
  mkDB accounts [carolFollowsBob]
    [Post.set_comments [30] (Sample.postOfBob 10 Post.public [] 1000)]
    [aliceComment] [] None 100 2000.

(** Two unread notifications for bob, one for alice. *)
Definition note (recipient sender : ObjectId) : Notification.t :=
  Notification.mk recipient sender Notification.like Notification.post 10
    "liked your post" false None true.

Definition withNotes : DB :=
  mkDB accounts [] bobsPosts [] [note 2 1; note 1 3; note 2 3] None 100 2000.

(** An empty like collection. *)
Definition noLikes : LikeStore := mkLikeStore [] 0.

(** alice likes post 10. *)
Definition oneLike : LikeStore :=
  mkLikeStore [Like.mk 0 1 Like.post 10] 1.

(** alice asks to follow bob, bob accepts, carol follows alice, alice
    unfollows bob, bob rejects a request that is not there. *)
Definition requests : list GraphOp :=
  [opFollow Sample.alice 2; opAccept Sample.bob 1; opFollow carol 1;
   opUnfollow Sample.alice 2; opReject Sample.bob 3].

(** A post body with blank content that mentions bob. *)
Definition blankPost : postController.CreateBody :=
  postController.mkCreateBody (Some "   ") None (Some [2]).

(** A plain public post body. *)
Definition hello : postController.CreateBody :=
  postController.mkCreateBody (Some "hello") None None.

(** The id of bob in a URL, spelled as [toString()] spells it. *)
Definition bobsUrl : UrlId := mkUrlId 2 true.

End Fixture.

(* ===================================================================== *)
(** * Properties *)
(* ===================================================================== *)

(** Runs a handler symbolically: the monad and the field updates of the
    store are unfolded and the result is reduced. *)
Ltac run :=
  unfold tryCatch, failure, mbind, M_bind, mret, M_ret, get, modify, throw,
    freshId, set_users, set_follows, set_posts, set_comments,
    set_notifications, set_redis, set_nextId;
  cbn.

(** ** Queries on collections *)

Lemma find_None_existsb {D} (q : D → bool) (l : list D) :
  find q l = None → existsb q l = false.
Proof.
  induction l as [|d l IH]; simpl; [done|].
  destruct (q d); [done|]. exact IH.
Qed.

Lemma find_app_r {D} (q : D → bool) (l : list D) (d : D) :
  find q l = None → q d = true → find q (l ++ [d]) = Some d.
Proof.
  intros Hn Hd. induction l as [|e l IH]; simpl in *.
  - by rewrite Hd.
  - destruct (q e); [done|]. by apply IH.
Qed.

Lemma find_app_None {D} (q : D → bool) (l : list D) (d : D) :
  find q l = None → q d = false → find q (l ++ [d]) = None.
Proof.
  intros Hn Hd. induction l as [|e l IH]; simpl in *.
  - by rewrite Hd.
  - destruct (q e); [done|]. by apply IH.
Qed.

Lemma find_In_is_Some {D} (q : D → bool) (l : list D) (d : D) :
  In d l → q d = true → is_Some (find q l).
Proof.
  intros Hin Hq. destruct (find q l) eqn:E; [done|].
  eapply find_none in E; [|exact Hin]. congruence.
Qed.

Lemma find_None_weaken {D} (q q' : D → bool) (l : list D) :
  (∀ d, q' d = true → q d = true) → find q l = None → find q' l = None.
Proof.
  intros Himp. induction l as [|d l IH]; simpl; [done|].
  destruct (q d) eqn:Eq; [done|]. intros Hn.
  destruct (q' d) eqn:Eq'; [|by apply IH].
  apply Himp in Eq'. congruence.
Qed.

Lemma deleteFirst_app_r {D} (q : D → bool) (l : list D) (d : D) :
  find q l = None → q d = true → deleteFirst q (l ++ [d]) = l.
Proof.
  intros Hn Hd. induction l as [|e l IH]; simpl in *.
  - by rewrite Hd.
  - destruct (q e); [done|]. f_equal. by apply IH.
Qed.

Lemma find_byId_id {D} (id : D → ObjectId) (i : ObjectId) (l : list D) (d : D) :
  find (byId id i) l = Some d → id d = i.
Proof.
  intros H. apply find_some in H as [_ H]. by apply bool_decide_eq_true in H.
Qed.

(** Looking a document up after a save: the saved document is found under
    its own id, every other id finds what it found before. *)
Lemma find_replaceById {D} (id : D → ObjectId) (d : D) (l : list D) (i : ObjectId) :
  find (byId id i) (replaceById id d l)
  = if decide (i = id d) then (λ _, d) <$> find (byId id i) l
    else find (byId id i) l.
Proof.
  unfold replaceById, byId.
  destruct (decide (i = id d)) as [Hi|Hi].
  - subst i. induction l as [|e l IH]; simpl; [done|].
    destruct (decide (id e = id d)) as [He|He].
    + by rewrite !bool_decide_true.
    + by rewrite !bool_decide_false.
  - induction l as [|e l IH]; simpl; [done|].
    destruct (decide (id e = id d)) as [He|He].
    + rewrite !bool_decide_false by congruence. exact IH.
    + rewrite IH. done.
Qed.

(** ** The social graph *)

(** A follow request to a private, active account that the caller does
    not follow yet: the reply, the new edge and the two counters. *)
Lemma followUser_private_run (db : DB) (me : ReqUser) (userId : ObjectId) (target : User.t) :
  userId ≠ ru_id me →
  users db !! userId = Some target →
  User.isActive target = true →
  User.isPrivate target = true →
  find (FollowModel.samePair (ru_id me) userId) (follows db) = None →
  ∃ r db',
    followController.followUser me userId db = (Return r, db')
    ∧ code r = 201
    ∧ data r = Some (followController.mkFollowReply Follow.pending userId)
    ∧ follows db'
      = follows db ++ [Follow.mk (nextId db) (ru_id me) userId Follow.pending]
    ∧ users db'
      = alter (User.inc_followersCount 1) userId
          (alter (User.inc_followingCount 1) (ru_id me) (users db)).
Proof.
  intros Hne Hu Hact Hpriv Hfind.
  unfold followController.followUser, UserModel.findById, FollowModel.findOne,
    FollowModel.create, FollowModel.preSave, UserModel.findByIdAndUpdate,
    NotificationModel.createNotification.
  run.
  rewrite decide_False by done. rewrite Hu, Hact; cbn. rewrite Hfind.
  rewrite decide_False by done. cbn.
  rewrite (find_None_existsb _ _ Hfind). rewrite Hpriv. cbn.
  eexists _, _. split; [reflexivity|]. cbn. done.
Qed.

(** C1 (the code departs from the claim).  The claim: after any sequence
    of follow-request, accept, reject and unfollow operations every
    account's followersCount equals the number of accepted edges that
    target it.  What followUser does: a request to a private account adds
    a pending edge and still increments followersCount, so an account
    whose counter was right before the request has a counter one above
    its accepted edges after it, and the invariant is broken. *)
Theorem followUser_private_breaks_counters (db : DB) (me : ReqUser) (userId : ObjectId) (target : User.t) :
  userId ≠ ru_id me →
  users db !! userId = Some target →
  User.isActive target = true →
  User.isPrivate target = true →
  find (FollowModel.samePair (ru_id me) userId) (follows db) = None →
  User.followersCount target = acceptedFollowers db userId →
  let db' := (followController.followUser me userId db).2 in
  acceptedFollowers db' userId = acceptedFollowers db userId
  ∧ followersCountOf db' userId = Some (acceptedFollowers db' userId + 1)%Z
  ∧ ¬ countersConsistent db'.
Proof.
  intros Hne Hu Hact Hpriv Hfind Hcons.
  destruct (followUser_private_run db me userId target Hne Hu Hact Hpriv Hfind)
    as (r & db1 & Hrun & _ & _ & Hfol & Husers).
  rewrite Hrun. simpl.
  assert (Hacc : acceptedFollowers db1 userId = acceptedFollowers db userId).
  { unfold acceptedFollowers. rewrite Hfol, List.filter_app. simpl.
    unfold isAcceptedTo at 2. simpl. rewrite andb_false_r. simpl.
    by rewrite app_nil_r. }
  assert (Hcnt : followersCountOf db1 userId
                 = Some (acceptedFollowers db1 userId + 1)%Z).
  { unfold followersCountOf. rewrite Husers. rewrite lookup_alter_eq.
    rewrite lookup_alter_ne by done. rewrite Hu. simpl.
    by rewrite Hcons, Hacc. }
  split; [exact Hacc|]. split; [exact Hcnt|].
  intros Hcons'. unfold followersCountOf in Hcnt.
  destruct (users db1 !! userId) as [u'|] eqn:E; [|done].
  destruct (Hcons' _ _ E) as [Hf _]. simpl in Hcnt.
  injection Hcnt as Hcnt. lia.
Qed.

Lemma followUser_private_breaks_counters_witness :
  let db' := (followController.followUser Sample.alice 2 Sample.empty).2 in
  acceptedFollowers db' 2 = acceptedFollowers Sample.empty 2
  ∧ followersCountOf db' 2 = Some (acceptedFollowers db' 2 + 1)%Z
  ∧ ¬ countersConsistent db'.
Proof.
  apply (followUser_private_breaks_counters
           Sample.empty Sample.alice 2 Sample.bobUser);
    [cbn; lia | reflexivity | reflexivity | reflexivity | reflexivity | reflexivity].
Defined.

(** A rejected request leaves the increment of the request behind: the
    edge is gone, the counter of the account stays one higher. *)
Lemma reject_keeps_request_increment (db : DB) (me owner : ReqUser) (target : User.t) :
  ru_id owner ≠ ru_id me →
  users db !! ru_id owner = Some target →
  User.isActive target = true →
  User.isPrivate target = true →
  find (FollowModel.samePair (ru_id me) (ru_id owner)) (follows db) = None →
  let db1 := (followController.followUser me (ru_id owner) db).2 in
  let db2 := (followController.rejectFollowRequest owner (ru_id me) db1).2 in
  follows db2 = follows db
  ∧ followersCountOf db2 (ru_id owner) = Some (User.followersCount target + 1)%Z.
Proof.
  intros Hne Hu Hact Hpriv Hfind.
  destruct (followUser_private_run db me (ru_id owner) target Hne Hu Hact Hpriv Hfind)
    as (r1 & db1 & Hrun & _ & _ & Hfol & Husers).
  rewrite Hrun. cbn.
  set (f := Follow.mk (nextId db) (ru_id me) (ru_id owner) Follow.pending) in *.
  assert (Hq : followController.pendingFrom (ru_id me) (ru_id owner) f = true).
  { unfold followController.pendingFrom, FollowModel.samePair. simpl.
    by rewrite !bool_decide_true. }
  assert (Hn : find (followController.pendingFrom (ru_id me) (ru_id owner))
                 (follows db) = None).
  { eapply find_None_weaken; [|exact Hfind].
    intros d. unfold followController.pendingFrom.
    by intros [? _]%andb_true_iff. }
  unfold followController.rejectFollowRequest, FollowModel.findOneAndDelete,
    FollowModel.findOne.
  run. rewrite Hfol. rewrite (find_app_r _ _ _ Hn Hq). cbn.
  rewrite (deleteFirst_app_r _ _ _ Hn Hq). split; [done|].
  unfold followersCountOf. cbn. rewrite Husers. rewrite lookup_alter_eq.
  rewrite lookup_alter_ne by done. by rewrite Hu.
Qed.

(** C2 (the code departs from the claim).  The claim, scenario A: a
    request to a private account yields a pending edge, isFollowing stays
    false and followersCount is unchanged; the later accept makes
    isFollowing true and adds one to followersCount.  What the handlers
    do: the reply is pending and isFollowing stays false, but the request
    itself adds one to followersCount; the accept makes isFollowing true
    and leaves followersCount as the request left it. *)
Theorem request_then_accept_private (db : DB) (me owner : ReqUser) (target : User.t) :
  ru_id owner ≠ ru_id me →
  users db !! ru_id owner = Some target →
  User.isActive target = true →
  User.isPrivate target = true →
  find (FollowModel.samePair (ru_id me) (ru_id owner)) (follows db) = None →
  ∃ r1 db1 r2 db2 f,
    followController.followUser me (ru_id owner) db = (Return r1, db1)
    ∧ data r1 = Some (followController.mkFollowReply Follow.pending (ru_id owner))
    ∧ FollowModel.isFollowing (Some (ru_id me)) (ru_id owner) db1
      = (Return None, db1)
    ∧ followersCountOf db1 (ru_id owner)
      = Some (User.followersCount target + 1)%Z
    ∧ followController.acceptFollowRequest owner (ru_id me) db1
      = (Return r2, db2)
    ∧ code r2 = 200
    ∧ FollowModel.isFollowing (Some (ru_id me)) (ru_id owner) db2
      = (Return (Some f), db2)
    ∧ followersCountOf db2 (ru_id owner) = followersCountOf db1 (ru_id owner).
Proof.
  intros Hne Hu Hact Hpriv Hfind.
  destruct (followUser_private_run db me (ru_id owner) target Hne Hu Hact Hpriv Hfind)
    as (r1 & db1 & Hrun & _ & Hdata & Hfol & Husers).
  set (f := Follow.mk (nextId db) (ru_id me) (ru_id owner) Follow.pending) in *.
  set (f' := Follow.set_status Follow.accepted f).
  assert (Hpend : find (followController.pendingFrom (ru_id me) (ru_id owner))
                    (follows db1) = Some f).
  { rewrite Hfol. apply find_app_r.
    - eapply find_None_weaken; [|exact Hfind].
      intros d. unfold followController.pendingFrom.
      by intros [? _]%andb_true_iff.
    - unfold followController.pendingFrom, FollowModel.samePair. simpl.
      by rewrite !bool_decide_true. }
  assert (Hacc : ∃ db2,
    followController.acceptFollowRequest owner (ru_id me) db1
      = (Return (mkResponse 200 true (Some "Follow request accepted") None), db2)
    ∧ follows db2 = replaceById Follow._id f' (follows db1)
    ∧ users db2 = users db1).
  { unfold followController.acceptFollowRequest, FollowModel.findOne,
      FollowModel.save, FollowModel.preSave,
      NotificationModel.createNotification.
    run. rewrite Hpend. cbn. rewrite decide_False by (simpl; congruence).
    eexists. split; [reflexivity|]. done. }
  destruct Hacc as (db2 & Hacc & Hfol2 & Husers2).
  assert (Hin : In f' (follows db2)).
  { rewrite Hfol2, Hfol. unfold replaceById. rewrite map_app.
    apply in_or_app. right. simpl. rewrite decide_True by done. by left. }
  destruct (find_In_is_Some
    (λ g, matchesId (Some (ru_id me)) (Follow.follower g)
          && bool_decide (Follow.following g = ru_id owner)
          && bool_decide (Follow.status g = Follow.accepted)) _ _ Hin)
    as [g Hg].
  { simpl. by rewrite !bool_decide_true. }
  exists r1, db1, (mkResponse 200 true (Some "Follow request accepted") None),
    db2, g.
  split; [exact Hrun|]. split; [exact Hdata|]. split.
  { unfold FollowModel.isFollowing, FollowModel.findOne. run. f_equal. f_equal.
    rewrite Hfol. apply find_app_None.
    - eapply find_None_weaken; [|exact Hfind].
      intros d. unfold FollowModel.samePair. simpl.
      rewrite !andb_true_iff. intros [[? ?] _]. done.
    - simpl. by rewrite andb_false_r. }
  split.
  { unfold followersCountOf. rewrite Husers. rewrite lookup_alter_eq.
    rewrite lookup_alter_ne by done. by rewrite Hu. }
  split; [exact Hacc|]. split; [done|]. split.
  { unfold FollowModel.isFollowing, FollowModel.findOne. run.
    f_equal. f_equal. exact Hg. }
  unfold followersCountOf. by rewrite Husers2.
Qed.

Lemma request_then_accept_private_witness :
  ∃ r1 db1 r2 db2 f,
    followController.followUser Sample.alice 2 Sample.empty = (Return r1, db1)
    ∧ data r1 = Some (followController.mkFollowReply Follow.pending 2)
    ∧ FollowModel.isFollowing (Some 1) 2 db1 = (Return None, db1)
    ∧ followersCountOf db1 2 = Some (0 + 1)%Z
    ∧ followController.acceptFollowRequest Sample.bob 1 db1 = (Return r2, db2)
    ∧ code r2 = 200
    ∧ FollowModel.isFollowing (Some 1) 2 db2 = (Return (Some f), db2)
    ∧ followersCountOf db2 2 = followersCountOf db1 2.
Proof.
  apply (request_then_accept_private
           Sample.empty Sample.alice Sample.bob Sample.bobUser);
    [cbn; lia | reflexivity | reflexivity | reflexivity | reflexivity].
Defined.

Lemma isFollowing_anonymous (db : DB) (targetId : ObjectId) :
  FollowModel.isFollowing None targetId db = (Return None, db).
Proof.
  unfold FollowModel.isFollowing, FollowModel.findOne. run.
  f_equal. f_equal. induction (follows db); simpl; done.
Qed.

(** C6.  isFollowing(followerId, targetId) yields an edge exactly when an
    accepted edge from followerId to targetId is stored, and without a
    follower id (anonymous viewer) it yields none, for every target. *)
Theorem isFollowing_iff_accepted_edge (db : DB) (followerId : option ObjectId) (targetId : ObjectId) :
  (∃ r, FollowModel.isFollowing followerId targetId db = (Return r, db)
        ∧ (is_Some r ↔
           ∃ f, f ∈ follows db
                ∧ Some (Follow.follower f) = followerId
                ∧ Follow.following f = targetId
                ∧ Follow.status f = Follow.accepted))
  ∧ FollowModel.isFollowing None targetId db = (Return None, db).
Proof.
  split; [|apply isFollowing_anonymous].
  unfold FollowModel.isFollowing, FollowModel.findOne. run.
  eexists; split; [reflexivity|]. split.
  - intros [f Hf]. apply find_some in Hf as [Hin Hq].
    exists f. rewrite !andb_true_iff, !bool_decide_eq_true in Hq.
    destruct Hq as [[Hm ?] ?]. split; [by apply list_elem_of_In|].
    destruct followerId; simpl in Hm; [|done].
    apply bool_decide_eq_true in Hm. by subst.
  - intros (f & Hin & Hfo & Hfg & Hst).
    destruct (find _ _) eqn:E; [done|].
    apply list_elem_of_In in Hin.
    eapply find_none in E; [|exact Hin]. subst. simpl in E.
    rewrite !bool_decide_true in E by done. done.
Qed.

(** The use in the list handlers: without [req.user] the follower id is
    absent, no edge matches, and a private account is refused. *)
Lemma getFollowers_anonymous_private_refused (db : DB) (userId : UrlId) (u : User.t) (page limit : Z) :
  users db !! url_id userId = Some u →
  User.isActive u = true →
  User.isPrivate u = true →
  followController.getFollowers None userId page limit db
  = (Return (mkResponse 403 false (Some "This account is private") None), db).
Proof.
  intros Hu Hact Hpriv.
  pose proof (isFollowing_anonymous db (url_id userId)) as Hanon.
  unfold FollowModel.isFollowing, FollowModel.findOne, get in Hanon.
  injection Hanon as Hanon.
  unfold followController.getFollowers, UserModel.findById,
    followController.privacyCheck, FollowModel.isFollowing,
    FollowModel.findOne.
  run. rewrite Hu, Hact, Hpriv. cbn in *. rewrite Hanon. reflexivity.
Qed.

(** C9.  getFollowStatus never reports isFollowing and hasPendingRequest
    together: both flags are read from the status of the one edge the
    query returns. *)
Theorem getFollowStatus_flags_exclusive (db : DB) (me : ReqUser) (userId : ObjectId) :
  ∃ d, followController.getFollowStatus me userId db
         = (Return (mkResponse 200 true None (Some d)), db)
       ∧ followController.isFollowing d
         && followController.hasPendingRequest d = false.
Proof.
  unfold followController.getFollowStatus, FollowModel.findOne. run.
  eexists; split; [reflexivity|]. simpl.
  destruct (find _ _) as [f|]; simpl; [|done].
  destruct (Follow.status f); done.
Qed.

(** ** Notifications *)

(** C3 (the code departs from the claim).  The claim: no path creates a
    notification whose recipient is its sender.  What createPost does:
    the mention notifications are built from the [mentions] of the body
    without comparing them with the author, so an author who mentions
    himself gets a mention notification from himself. *)
Theorem createPost_self_mention_notifies_self (db : DB) (me : ReqUser) (body : postController.CreateBody) (mentioned : list ObjectId) :
  postController.mentions body = Some mentioned →
  ru_id me ∈ mentioned →
  Post.validate
    (Post.mkInput (ru_id me) (postController.content body) mentioned
       (Some (default Post.public (postController.visibility body)))
       None None) = true →
  existsb (byId Post._id (nextId db)) (posts db) = false →
  ∃ r db' added n,
    postController.createPost me body db = (Return r, db')
    ∧ code r = 201
    ∧ notifications db' = notifications db ++ added
    ∧ n ∈ added
    ∧ Notification.type n = Notification.mention
    ∧ Notification.recipient n = ru_id me
    ∧ Notification.sender n = ru_id me.
Proof.
  intros Hm Hin Hval Hfresh.
  unfold postController.createPost, PostModel.create,
    NotificationModel.insertMany, getRedisClient, redis_del.
  run. rewrite Hm. cbn. rewrite Hval. cbn. rewrite Hfresh. cbn.
  assert (Hlen : bool_decide (0 < length mentioned) = true).
  { apply bool_decide_eq_true.
    destruct mentioned; [by apply elem_of_nil in Hin|simpl; lia]. }
  rewrite Hlen. cbn.
  set (mk := λ userId : ObjectId,
        Notification.mkData userId (ru_id me) Notification.mention
          Notification.post (nextId db)
          (ru_username me +:+ " mentioned you in a post")).
  exists (mkResponse 201 true (Some "Post created successfully")
            (Some (Post.preSave [] (Post.new (nextId db) (clock db)
               (Post.mkInput (ru_id me) (postController.content body) mentioned
                  (Some (default Post.public (postController.visibility body)))
                  None None))))).
  destruct (redis db) as [cache|] eqn:Hr; cbn;
    eexists _, (map Notification.new (map mk mentioned)),
      (Notification.new (mk (ru_id me)));
    (split; [reflexivity|]); cbn;
    (repeat split; try reflexivity);
    apply list_elem_of_fmap_2, list_elem_of_fmap_2, Hin.
Qed.

Lemma createPost_self_mention_notifies_self_witness :
  ∃ r db' added n,
    postController.createPost Sample.alice Sample.selfMention Sample.empty
      = (Return r, db')
    ∧ code r = 201
    ∧ notifications db' = notifications Sample.empty ++ added
    ∧ n ∈ added
    ∧ Notification.type n = Notification.mention
    ∧ Notification.recipient n = 1
    ∧ Notification.sender n = 1.
Proof.
  apply (createPost_self_mention_notifies_self
           Sample.empty Sample.alice Sample.selfMention [1]);
    [reflexivity | apply list_elem_of_here | reflexivity | reflexivity].
Defined.

(** The guarded sibling: the notifications likePost adds never have the
    liker as their recipient. *)
Lemma likePost_no_self_notification (db : DB) (me : ReqUser) (id : ObjectId) :
  ∃ added,
    notifications (postController.likePost me id db).2
      = notifications db ++ added
    ∧ Forall (λ n, Notification.recipient n ≠ Notification.sender n) added.
Proof.
  unfold postController.likePost, PostModel.findById, PostModel.save,
    NotificationModel.createNotification.
  run.
  destruct (find (byId Post._id id) (posts db)) as [p|]; cbn;
    [|exists []; by rewrite app_nil_r].
  destruct (Post.isActive p); cbn; [|exists []; by rewrite app_nil_r].
  destruct (Post.isLikedBy p (ru_id me)); cbn;
    [exists []; by rewrite app_nil_r|].
  destruct (decide (Post.author p = ru_id me)) as [Ha|Ha].
  - rewrite bool_decide_true by done. cbn. exists []. by rewrite app_nil_r.
  - rewrite bool_decide_false by done. cbn. eexists [_]. split; [reflexivity|].
    constructor; [exact Ha|constructor].
Qed.

(** ** Visibility *)

(** C4 (the code departs from the claim).  The claim: the decision for a
    post's comments equals the decision for the post.  What getComments
    does: it checks only that the post exists and is active, so whenever
    getPost refuses a viewer with 403, getComments serves the same viewer
    the comments of that post. *)
Theorem getComments_serves_denied_viewers (db db' : DB) (viewer : option ReqUser) (postId : ObjectId) (page limit : Z) (r : Response Post.t) :
  postController.getPost viewer postId db = (Return r, db') →
  code r = 403 →
  ∃ comments,
    commentController.getComments viewer postId page limit db
      = (Return (mkResponse 200 true None (Some comments)), db).
Proof.
  intros Hget Hcode.
  unfold postController.getPost, PostModel.findById in Hget.
  unfold commentController.getComments, PostModel.findById.
  revert Hget. run.
  destruct (find (byId Post._id postId) (posts db)) as [p|]; cbn.
  - destruct (Post.isActive p); cbn.
    + intros _. eexists. reflexivity.
    + intros [= <- _]. discriminate Hcode.
  - intros [= <- _]. discriminate Hcode.
Qed.

Lemma getComments_serves_denied_viewers_witness :
  postController.getPost (Some Sample.alice) 10 Sample.withPrivatePost
    = (Return (mkResponse 403 false (Some "This post is private") None),
       Sample.withPrivatePost)
  ∧ ∃ comments,
      commentController.getComments (Some Sample.alice) 10 1 20
        Sample.withPrivatePost
        = (Return (mkResponse 200 true None (Some comments)),
           Sample.withPrivatePost).
Proof.
  split; [reflexivity|].
  apply (getComments_serves_denied_viewers
           Sample.withPrivatePost Sample.withPrivatePost (Some Sample.alice)
           10 1 20 (mkResponse 403 false (Some "This post is private") None));
    reflexivity.
Defined.

(** ** Engagement *)

Lemma preSave_likes (q : Post.t) :
  Post.preSave [Post.path_likes] q
  = Post.set_likesCount (Z.of_nat (length (Post.likes q))) q.
Proof. reflexivity. Qed.

Lemma preSave_comments (q : Post.t) :
  Post.preSave [Post.path_comments] q = q.
Proof. reflexivity. Qed.

Lemma filter_not_liked (likes : list ObjectId) (userId : ObjectId) :
  existsb (λ like, bool_decide (like = userId)) likes = false →
  filter (λ like, like ≠ userId) likes = likes.
Proof.
  induction likes as [|x l IH]; simpl; [done|].
  intros [Hx Hl]%orb_false_iff. apply bool_decide_eq_false in Hx.
  rewrite filter_cons_True by done. f_equal. by apply IH.
Qed.

Lemma existsb_app_last (likes : list ObjectId) (userId : ObjectId) :
  existsb (λ like, bool_decide (like = userId)) (likes ++ [userId]) = true.
Proof.
  rewrite existsb_app. simpl. rewrite bool_decide_true by done.
  by rewrite orb_true_r.
Qed.

(** C7 as stated fails: on a post that another user already liked, the
    first call of a user who has not liked it answers with count 2, not
    1, and the repeated call with count 1, not 0. *)
Lemma likePost_count_counterexample :
  Post.isLikedBy (Sample.postOfBob 10 Post.public [3] 1000) 1 = false
  ∧ (postController.likePost Sample.alice 10 Sample.withLikedPost).1
    = Return (mkResponse 200 true (Some "Post liked")
                (Some (postController.mkLikeReply 2 true)))
  ∧ (postController.likePost Sample.alice 10
       (postController.likePost Sample.alice 10 Sample.withLikedPost).2).1
    = Return (mkResponse 200 true (Some "Post unliked")
                (Some (postController.mkLikeReply 1 false)))
  ∧ ¬ ∃ db1 db2,
        postController.likePost Sample.alice 10 Sample.withLikedPost
          = (Return (mkResponse 200 true (Some "Post liked")
                       (Some (postController.mkLikeReply 1 true))), db1)
        ∧ postController.likePost Sample.alice 10 db1
          = (Return (mkResponse 200 true (Some "Post unliked")
                       (Some (postController.mkLikeReply 0 false))), db2).
Proof.
  split; [reflexivity|]. split; [reflexivity|]. split; [reflexivity|].
  intros (db1 & db2 & H1 & _). vm_compute in H1. discriminate H1.
Qed.

(** C7 (amended).  On an active post with n likes, none of them by U,
    likePost by U answers liked with count n + 1, and the same call
    repeated at once answers not liked with count n; so 1 and 0 on a post
    without likes.  The first call adds one like notification for the
    author, and none when U is the author; the second call adds none. *)
Theorem likePost_twice (db : DB) (me : ReqUser) (id : ObjectId) (p : Post.t) :
  find (byId Post._id id) (posts db) = Some p →
  Post.isActive p = true →
  Post.isLikedBy p (ru_id me) = false →
  let n := Z.of_nat (length (Post.likes p)) in
  ∃ db1 db2,
    postController.likePost me id db
      = (Return (mkResponse 200 true (Some "Post liked")
                   (Some (postController.mkLikeReply (n + 1) true))), db1)
    ∧ notifications db1
      = notifications db
        ++ (if decide (Post.author p = ru_id me) then []
            else [likeNotification me p])
    ∧ postController.likePost me id db1
      = (Return (mkResponse 200 true (Some "Post unliked")
                   (Some (postController.mkLikeReply n false))), db2)
    ∧ notifications db2 = notifications db1.
Proof.
  intros Hfind Hact Hnot n.
  pose proof (find_byId_id _ _ _ _ Hfind) as Hid.
  set (p1 := Post.set_likesCount (n + 1)
               (Post.set_likes (Post.likes p ++ [ru_id me]) p)).
  assert (Hfind1 : ∀ l, find (byId Post._id id) (replaceById Post._id p1 l)
                        = (λ _, p1) <$> find (byId Post._id id) l).
  { intros l. rewrite find_replaceById. by rewrite decide_True. }
  assert (Hrun1 : ∃ db1,
    postController.likePost me id db
      = (Return (mkResponse 200 true (Some "Post liked")
                   (Some (postController.mkLikeReply (n + 1) true))), db1)
    ∧ notifications db1
      = notifications db
        ++ (if decide (Post.author p = ru_id me) then []
            else [likeNotification me p])
    ∧ posts db1 = replaceById Post._id p1 (posts db)).
  { unfold postController.likePost, PostModel.findById, PostModel.save,
      NotificationModel.createNotification.
    run. rewrite Hfind, Hact. cbn. rewrite Hnot. cbn.
    rewrite preSave_likes. cbn.
    replace (Z.of_nat (length (Post.likes p ++ [ru_id me]))) with (n + 1)%Z
      by (rewrite length_app; simpl; lia).
    destruct (decide (Post.author p = ru_id me)) as [Ha|Ha].
    - rewrite bool_decide_true by done. cbn.
      eexists. split; [reflexivity|]. cbn. by rewrite app_nil_r.
    - rewrite bool_decide_false by done. cbn.
      eexists. split; [reflexivity|]. cbn. done. }
  destruct Hrun1 as (db1 & Hrun1 & Hn1 & Hp1).
  assert (Hrun2 : ∃ db2,
    postController.likePost me id db1
      = (Return (mkResponse 200 true (Some "Post unliked")
                   (Some (postController.mkLikeReply n false))), db2)
    ∧ notifications db2 = notifications db1).
  { unfold postController.likePost, PostModel.findById, PostModel.save,
      NotificationModel.createNotification.
    run. rewrite Hp1, Hfind1, Hfind. cbn. rewrite Hact.
    unfold Post.isLikedBy. cbn. rewrite existsb_app_last. cbn.
    rewrite preSave_likes. cbn.
    rewrite filter_app. rewrite filter_not_liked by exact Hnot.
    rewrite filter_cons_False by (intros H; by apply H). rewrite filter_nil.
    rewrite app_nil_r. fold n.
    eexists. split; [reflexivity|]. done. }
  destruct Hrun2 as (db2 & Hrun2 & Hn2).
  exists db1, db2. done.
Qed.

Lemma likePost_twice_witness :
  ∃ db1 db2,
    postController.likePost Sample.alice 10 Sample.withFreshPost
      = (Return (mkResponse 200 true (Some "Post liked")
                   (Some (postController.mkLikeReply (0 + 1) true))), db1)
    ∧ notifications db1
      = notifications Sample.withFreshPost
        ++ [likeNotification Sample.alice
              (Sample.postOfBob 10 Post.public [] 1000)]
    ∧ postController.likePost Sample.alice 10 db1
      = (Return (mkResponse 200 true (Some "Post unliked")
                   (Some (postController.mkLikeReply 0 false))), db2)
    ∧ notifications db2 = notifications db1.
Proof.
  apply (likePost_twice Sample.withFreshPost Sample.alice 10
           (Sample.postOfBob 10 Post.public [] 1000));
    reflexivity.
Defined.

(** C8 (the code departs from the claim).  The claim: sharing an active
    post creates a public post that references it and adds one to its
    sharesCount, once per call.  What sharePost does: it hands
    [Post.create] an object without [content], which the post schema
    requires, so the creation throws before anything is written: the
    reply is the 500 of the catch block and the posts and notifications
    are as before. *)
Theorem sharePost_always_fails (db : DB) (me : ReqUser) (id : ObjectId) (shareText : option string) (original : Post.t) :
  find (byId Post._id id) (posts db) = Some original →
  Post.isActive original = true →
  ∃ db',
    postController.sharePost me id shareText db
      = (Return (mkResponse 500 false (Some "Server error sharing post") None),
         db')
    ∧ posts db' = posts db
    ∧ notifications db' = notifications db.
Proof.
  intros Hfind Hact.
  unfold postController.sharePost, PostModel.findById, PostModel.create.
  run. rewrite Hfind, Hact. cbn.
  eexists. split; [reflexivity|]. done.
Qed.

Lemma sharePost_always_fails_witness :
  ∃ db',
    postController.sharePost Sample.alice 10 (Some "nice") Sample.withFreshPost
      = (Return (mkResponse 500 false (Some "Server error sharing post") None),
         db')
    ∧ posts db' = posts Sample.withFreshPost
    ∧ notifications db' = notifications Sample.withFreshPost.
Proof.
  apply (sharePost_always_fails Sample.withFreshPost Sample.alice 10
           (Some "nice") (Sample.postOfBob 10 Post.public [] 1000));
    reflexivity.
Defined.

(** ** The comment counter of a post *)

Lemma commentsCount_replaceById (p p' : Post.t) (l : list Post.t) (pid i : ObjectId) :
  find (byId Post._id pid) l = Some p →
  Post._id p' = Post._id p →
  Post.commentsCount p' = Post.commentsCount p →
  Post.commentsCount <$> find (byId Post._id i) (replaceById Post._id p' l)
  = Post.commentsCount <$> find (byId Post._id i) l.
Proof.
  intros Hfind Hid Hcc. rewrite find_replaceById.
  destruct (decide (i = Post._id p')) as [->|]; [|done].
  rewrite Hid. rewrite <- (find_byId_id _ _ _ _ Hfind) in Hfind.
  rewrite Hfind. simpl. by rewrite Hcc.
Qed.

Lemma commentsCount_pull (l : list Post.t) (pid cid i : ObjectId) :
  Post.commentsCount <$> find (byId Post._id i)
    (map (λ p, if byId Post._id pid p
               then Post.set_comments
                      (filter (λ c, c ≠ cid) (Post.comments p)) p
               else p) l)
  = Post.commentsCount <$> find (byId Post._id i) l.
Proof.
  induction l as [|e l IH]; simpl; [done|].
  destruct (byId Post._id pid e); unfold byId in *; simpl;
    destruct (bool_decide (Post._id e = i)); simpl; done.
Qed.

Lemma createComment_keeps_commentsCount (schemaOk : Comment.Input → bool) (db : DB) (me : ReqUser) (postId : ObjectId) (body : commentController.CreateBody) (i : ObjectId) :
  commentsCountOf
    (commentController.createComment schemaOk me postId body db).2 i
  = commentsCountOf db i.
Proof.
  unfold commentsCountOf, commentController.createComment, PostModel.findById,
    CommentModel.findById, CommentModel.create, PostModel.save,
    CommentModel.save, commentController.loadParent,
    NotificationModel.createNotification.
  run.
  destruct (find (byId Post._id postId) (posts db)) as [p|] eqn:Hfind; cbn;
    [|done].
  destruct (Post.isActive p); cbn; [|done].
  assert (Hsave : ∀ c,
    Post.commentsCount <$> find (byId Post._id i)
      (replaceById Post._id
         (Post.preSave [Post.path_comments]
            (Post.set_comments (Post.comments p ++ [c]) p)) (posts db))
    = Post.commentsCount <$> find (byId Post._id i) (posts db)).
  { intros c. eapply commentsCount_replaceById; [exact Hfind|done|done]. }
  repeat (case_match; simplify_eq; cbn; try done; try apply Hsave).
Qed.

Lemma deleteComment_keeps_commentsCount (db : DB) (me : ReqUser) (id : ObjectId) (i : ObjectId) :
  commentsCountOf (commentController.deleteComment me id db).2 i
  = commentsCountOf db i.
Proof.
  unfold commentsCountOf, commentController.deleteComment,
    CommentModel.findById, CommentModel.save, PostModel.pullComment,
    CommentModel.pullReply.
  run.
  repeat (case_match; simplify_eq; cbn; try done;
          try apply commentsCount_pull).
Qed.

(** A comment on a fresh post of bob: the comment id enters the
    [comments] array of the post and [commentsCount] stays 0. *)
Lemma createComment_sample :
  let db' := (commentController.createComment (λ _, true) Sample.alice 10
                (commentController.mkCreateBody "first" None)
                Sample.withFreshPost).2 in
  (Post.comments <$> find (byId Post._id 10) (posts db')) = Some [100]
  ∧ commentsCountOf db' 10 = Some 0%Z.
Proof. split; reflexivity. Qed.

(** C10.  Creating and deleting comments never changes the commentsCount
    of a post: after any sequence of createComment and deleteComment
    requests every stored post has the commentsCount it had before, and a
    new post starts with 0.  createComment appends to the [comments]
    array and saves; the pre-save hook recomputes only likesCount and
    sharesCount. *)
Theorem comment_requests_keep_commentsCount (schemaOk : Comment.Input → bool) (ops : list CommentOp) (db : DB) (id : ObjectId) :
  commentsCountOf (runCommentOps schemaOk ops db) id = commentsCountOf db id
  ∧ ∀ newId now input, Post.commentsCount (Post.new newId now input) = 0%Z.
Proof.
  split; [|done].
  revert db. induction ops as [|op ops IH]; intros db; [done|].
  unfold runCommentOps in *. simpl. rewrite IH.
  destruct op as [me postId body|me commentId]; simpl.
  - apply createComment_keeps_commentsCount.
  - apply deleteComment_keeps_commentsCount.
Qed.

(** ** The popular feed *)

Section Sorting.
Context {D : Type} (key : D → option Z).

Lemma keyLt_asym (a b : option Z) : keyLt a b = true → keyLt b a = false.
Proof.
  destruct a, b; simpl; try done.
  intros H%bool_decide_eq_true. apply bool_decide_eq_false. lia.
Qed.

Lemma keyLt_negtrans (a b c : option Z) :
  keyLt a b = false → keyLt b c = false → keyLt a c = false.
Proof.
  destruct a, b, c; simpl; try done.
  intros H1%bool_decide_eq_false H2%bool_decide_eq_false.
  apply bool_decide_eq_false. lia.
Qed.

Lemma insertDesc_perm (d : D) (l : list D) : insertDesc key d l ≡ₚ d :: l.
Proof.
  induction l as [|e l IH]; simpl; [done|].
  destruct (keyLt (key d) (key e)); [|done].
  rewrite IH. apply Permutation_swap.
Qed.

Lemma sortDesc_perm (l : list D) : sortDesc key l ≡ₚ l.
Proof.
  induction l as [|d l IH]; simpl; [done|].
  rewrite insertDesc_perm. by rewrite IH.
Qed.

Lemma insertDesc_sorted (d : D) (l : list D) :
  StronglySorted (notBelow key) l →
  StronglySorted (notBelow key) (insertDesc key d l).
Proof.
  induction 1 as [|e l Hs IH Hall]; simpl.
  - constructor; constructor.
  - destruct (keyLt (key d) (key e)) eqn:E.
    + constructor; [exact IH|].
      rewrite insertDesc_perm. constructor; [|exact Hall].
      by apply keyLt_asym.
    + constructor; [by constructor|].
      constructor; [exact E|].
      eapply Forall_impl; [exact Hall|].
      intros x Hx. eapply keyLt_negtrans; [exact E|exact Hx].
Qed.

Lemma sortDesc_sorted (l : list D) :
  StronglySorted (notBelow key) (sortDesc key l).
Proof.
  induction l as [|d l IH]; simpl; [constructor|].
  by apply insertDesc_sorted.
Qed.

End Sorting.

(** Sorting on a key no document has keeps the order of the scan. *)
Lemma sortDesc_no_key {D} (l : list D) : sortDesc (λ _, None) l = l.
Proof.
  induction l as [|d l IH]; simpl; [done|].
  rewrite IH. by destruct l.
Qed.

Lemma StronglySorted_mono {D} (R S : D → D → Prop) (l : list D) :
  (∀ a b, R a b → S a b) → StronglySorted R l → StronglySorted S l.
Proof.
  intros Himp. induction 1 as [|d l Hs IH Hall]; constructor; [exact IH|].
  eapply Forall_impl; [exact Hall|]. intros x. apply Himp.
Qed.

(** The filter of a query written with a boolean test and the filter on
    the proposition the test decides give the same documents. *)
Lemma List_filter_Prop {D} (f : D → bool) (P : D → Prop) `{!∀ d, Decision (P d)} (l : list D) :
  (∀ d, f d = true ↔ P d) → List.filter f l = filter P l.
Proof.
  intros Hfp. induction l as [|d l IH]; [done|].
  simpl. rewrite filter_cons, IH.
  destruct (f d) eqn:E.
  - rewrite decide_True; [done|]. by apply Hfp.
  - rewrite decide_False; [done|]. intros HP%Hfp. congruence.
Qed.

(** In a listing in the order of the specification no post stands before
    one with more engagement. *)
Lemma popularBefore_no_inversion (l : list Post.t) (i j : nat) (p q : Post.t) :
  StronglySorted popularBefore l →
  i < j → l !! i = Some p → l !! j = Some q →
  (Post.engagementCount p < Post.engagementCount q)%Z → False.
Proof.
  intros Hs. revert i j.
  induction Hs as [|d l Hs IH Hall]; intros i j Hij Hi Hj Hlt; [done|].
  destruct j as [|j]; [lia|]. destruct i as [|i].
  - simpl in Hi, Hj. injection Hi as ->.
    apply list_elem_of_lookup_2 in Hj.
    rewrite Forall_forall in Hall. specialize (Hall q Hj).
    destruct Hall as [?|[? ?]]; lia.
  - simpl in Hi, Hj. apply (IH i j); [lia|done|done|done].
Qed.

(** C5 fails in the code.  getPopularPosts sorts on [engagementCount],
    which the schema declares as a virtual: no stored document has the
    field, so the sort leaves the posts in the order of the scan.  Where
    the handler answers from the store (no Redis client; with a client a
    miss ends in the 500 of the catch block), the reply is the requested
    page -- (page - 1) * limit documents skipped, at most limit returned
    -- of the active public posts of the last 7 days in the order the
    store holds them.  A post that stands before a more engaging one in
    that page of the store stands before it in the reply: the reply is not
    in the order of the claim. *)
Theorem getPopularPosts_keeps_store_order (db : DB) (page limit : Z) :
  validatePagination page limit = true →
  redis db = None →
  let eligible :=
    filter (λ p, Post.visibility p = Post.public
                 ∧ Post.isActive p = true
                 ∧ (clock db - 7 * 24 * 60 * 60 * 1000 ≤ Post.createdAt p)%Z)
      (posts db) in
  let shown :=
    take (Z.to_nat limit) (drop (Z.to_nat ((page - 1) * limit)) eligible) in
  ∃ result,
    postController.getPopularPosts page limit db
      = (Return (mkResponse 200 true None (Some result)), db)
    ∧ pr_posts result = shown
    ∧ pr_page result = page
    ∧ pr_limit result = limit
    ∧ ∀ i j p q,
        i < j → shown !! i = Some p → shown !! j = Some q →
        (Post.engagementCount p < Post.engagementCount q)%Z →
        pr_posts result !! i = Some p
        ∧ pr_posts result !! j = Some q
        ∧ ¬ StronglySorted popularBefore (pr_posts result).
Proof.
  intros Hvalid Hr eligible shown.
  assert (Heligible :
    List.filter (PostModel.isRecentPublic (clock db)) (posts db) = eligible).
  { apply List_filter_Prop. intros p. unfold PostModel.isRecentPublic.
    rewrite !andb_true_iff, !bool_decide_eq_true. tauto. }
  exists (mkPopularResult shown page limit).
  split; [|split; [done|split; [done|split; [done|]]]].
  - unfold postController.getPopularPosts, PostModel.getPopularPosts,
      getRedisClient, redis_get, redis_setex.
    run. rewrite Hr. cbn.
    replace (sortDesc PostModel.engagementKey
               (List.filter (PostModel.isRecentPublic (clock db)) (posts db)))
      with eligible; [reflexivity|].
    rewrite Heligible. symmetry. apply sortDesc_no_key.
  - intros i j p q Hij Hi Hj Hlt. simpl.
    split; [exact Hi|]. split; [exact Hj|].
    intros Hs. exact (popularBefore_no_inversion shown i j p q Hs Hij Hi Hj Hlt).
Qed.

(** On the store that holds the post nobody liked before the liked one,
    page 1 shows them in that order. *)
Lemma getPopularPosts_keeps_store_order_witness :
  ∃ result,
    postController.getPopularPosts 1 20 Sample.withRisingPosts
      = (Return (mkResponse 200 true None (Some result)), Sample.withRisingPosts)
    ∧ pr_posts result = [Sample.quiet; Sample.liked]
    ∧ (Post.engagementCount Sample.quiet < Post.engagementCount Sample.liked)%Z
    ∧ ¬ StronglySorted popularBefore (pr_posts result).
Proof.
  destruct (getPopularPosts_keeps_store_order Sample.withRisingPosts 1 20
              eq_refl eq_refl) as (result & Hrun & Hposts & _ & _ & Hbad).
  exists result. split; [exact Hrun|]. split; [exact Hposts|].
  split; [reflexivity|].
  apply (Hbad 0 1 Sample.quiet Sample.liked); [lia|reflexivity|reflexivity|reflexivity].
Defined.

(* ===================================================================== *)
(** * Further properties of the handlers *)
(* ===================================================================== *)

(** The status followUser gives a new edge and the notification it
    sends. *)
Lemma followUser_run (db : DB) (me : ReqUser) (userId : ObjectId) (target : User.t) :
  userId ≠ ru_id me →
  users db !! userId = Some target →
  User.isActive target = true →
  find (FollowModel.samePair (ru_id me) userId) (follows db) = None →
  let st := if User.isPrivate target then Follow.pending else Follow.accepted in
  ∃ r db' n,
    followController.followUser me userId db = (Return r, db')
    ∧ code r = 201
    ∧ data r = Some (followController.mkFollowReply st userId)
    ∧ follows db' = follows db ++ [Follow.mk (nextId db) (ru_id me) userId st]
    ∧ users db'
      = alter (User.inc_followersCount 1) userId
          (alter (User.inc_followingCount 1) (ru_id me) (users db))
    ∧ notifications db' = notifications db ++ [n]
    ∧ Notification.recipient n = userId
    ∧ Notification.sender n = ru_id me
    ∧ Notification.type n
      = (if User.isPrivate target then Notification.follow_request
         else Notification.follow)
    ∧ nextId db' = S (nextId db)
    ∧ posts db' = posts db ∧ comments db' = comments db ∧ redis db' = redis db.
Proof.
  intros Hne Hu Hact Hfind st.
  unfold followController.followUser, UserModel.findById, FollowModel.findOne,
    FollowModel.create, FollowModel.preSave, UserModel.findByIdAndUpdate,
    NotificationModel.createNotification.
  run.
  rewrite decide_False by done. rewrite Hu, Hact; cbn. rewrite Hfind.
  rewrite decide_False by done. cbn.
  rewrite (find_None_existsb _ _ Hfind). subst st.
  destruct (User.isPrivate target); cbn;
    eexists _, _, _; (split; [reflexivity|]); cbn; done.
Qed.

Lemma alter_counts_back (m : gmap ObjectId User.t) (a b : ObjectId) :
  alter (User.inc_followersCount (-1)) b
    (alter (User.inc_followingCount (-1)) a
       (alter (User.inc_followersCount 1) b
          (alter (User.inc_followingCount 1) a m))) = m.
Proof.
  apply map_eq. intros i. rewrite !lookup_alter.
  repeat case_decide; subst;
    repeat match goal with
           | |- context [m !! ?k] => destruct (m !! k) as [[n p ac fc gc]|]
           end; cbn; try done;
    unfold User.inc_followersCount, User.inc_followingCount; cbn;
    do 2 f_equal; lia.
Qed.

(** X1. followUser followed by unfollowUser of the same account, from a
    store with no edge between the two, ends with the follow collection
    and both accounts' counters exactly as they were before the request. *)
Theorem follow_then_unfollow (db : DB) (me : ReqUser) (userId : ObjectId) (target : User.t) :
  userId ≠ ru_id me →
  users db !! userId = Some target →
  User.isActive target = true →
  find (FollowModel.samePair (ru_id me) userId) (follows db) = None →
  ∃ r1 db1 db2,
    followController.followUser me userId db = (Return r1, db1)
    ∧ code r1 = 201
    ∧ followController.unfollowUser me userId db1
      = (Return (mkResponse 200 true (Some "User unfollowed successfully") None),
         db2)
    ∧ follows db2 = follows db
    ∧ users db2 = users db.
Proof.
  intros Hne Hu Hact Hfind.
  destruct (followUser_run db me userId target Hne Hu Hact Hfind)
    as (r1 & db1 & n & Hrun & Hcode & _ & Hfol & Husers & _).
  set (f := Follow.mk (nextId db) (ru_id me) userId _) in Hfol.
  assert (Hq : FollowModel.samePair (ru_id me) userId f = true).
  { unfold FollowModel.samePair. simpl. by rewrite !bool_decide_true. }
  exists r1, db1.
  unfold followController.unfollowUser, FollowModel.findOneAndDelete,
    FollowModel.findOne, UserModel.findByIdAndUpdate.
  run. rewrite Hfol. rewrite (find_app_r _ _ _ Hfind Hq). cbn.
  eexists. split; [exact Hrun|]. split; [exact Hcode|].
  split; [reflexivity|]. cbn.
  rewrite (deleteFirst_app_r _ _ _ Hfind Hq). split; [done|].
  rewrite Husers. apply alter_counts_back.
Qed.

Lemma find_None_Forall {D} (q : D → bool) (l : list D) :
  Forall (λ d, q d = false) l → find q l = None.
Proof.
  induction 1 as [|d l Hd _ IH]; simpl; [done|]. by rewrite Hd.
Qed.

Lemma find_None_all {D} (q : D → bool) (l : list D) :
  find q l = None → Forall (λ d, q d = false) l.
Proof.
  intros Hn. apply Forall_forall. intros d Hd.
  apply list_elem_of_In in Hd. by eapply find_none in Hn.
Qed.

Lemma deleteFirst_None {D} (q : D → bool) (l : list D) :
  find q l = None → deleteFirst q l = l.
Proof.
  induction l as [|e l IH]; simpl; [done|].
  destruct (q e); [done|]. intros H. f_equal. by apply IH.
Qed.

(** X2. Following a public account whose counter was right answers status
    accepted, makes isFollowing true at once, and leaves followersCount
    equal to the number of accepted edges, one more than before. *)
Theorem followUser_public_in_step (db : DB) (me : ReqUser) (userId : ObjectId) (target : User.t) :
  userId ≠ ru_id me →
  users db !! userId = Some target →
  User.isActive target = true →
  User.isPrivate target = false →
  find (FollowModel.samePair (ru_id me) userId) (follows db) = None →
  User.followersCount target = acceptedFollowers db userId →
  ∃ r db' f,
    followController.followUser me userId db = (Return r, db')
    ∧ data r = Some (followController.mkFollowReply Follow.accepted userId)
    ∧ FollowModel.isFollowing (Some (ru_id me)) userId db' = (Return (Some f), db')
    ∧ acceptedFollowers db' userId = (acceptedFollowers db userId + 1)%Z
    ∧ followersCountOf db' userId = Some (acceptedFollowers db' userId).
Proof.
  intros Hne Hu Hact Hpub Hfind Hcnt.
  destruct (followUser_run db me userId target Hne Hu Hact Hfind)
    as (r & db' & n & Hrun & _ & Hdata & Hfol & Husers & _).
  rewrite Hpub in Hdata, Hfol.
  set (f := Follow.mk (nextId db) (ru_id me) userId Follow.accepted) in *.
  assert (Hacc : acceptedFollowers db' userId = (acceptedFollowers db userId + 1)%Z).
  { unfold acceptedFollowers. rewrite Hfol, List.filter_app. simpl.
    unfold isAcceptedTo at 2. simpl. rewrite !bool_decide_true by done.
    simpl. rewrite length_app. simpl. lia. }
  destruct (find_In_is_Some
    (λ g, matchesId (Some (ru_id me)) (Follow.follower g)
          && bool_decide (Follow.following g = userId)
          && bool_decide (Follow.status g = Follow.accepted))
    (follows db') f) as [g Hg].
  { rewrite Hfol. apply in_or_app. right. by left. }
  { simpl. by rewrite !bool_decide_true. }
  exists r, db', g. split; [exact Hrun|]. split; [exact Hdata|]. split.
  { unfold FollowModel.isFollowing, FollowModel.findOne. run.
    f_equal. f_equal. exact Hg. }
  split; [exact Hacc|].
  unfold followersCountOf. rewrite Husers. rewrite lookup_alter_eq.
  rewrite lookup_alter_ne by done. rewrite Hu. simpl.
  by rewrite Hacc, Hcnt.
Qed.

(** X3. A second followUser for the same account, whether the first edge
    is pending or accepted, is answered 400 Already following this user
    and changes nothing. *)
Theorem followUser_twice_refused (db : DB) (me : ReqUser) (userId : ObjectId) (target : User.t) :
  userId ≠ ru_id me →
  users db !! userId = Some target →
  User.isActive target = true →
  find (FollowModel.samePair (ru_id me) userId) (follows db) = None →
  ∃ r1 db1,
    followController.followUser me userId db = (Return r1, db1)
    ∧ code r1 = 201
    ∧ followController.followUser me userId db1
      = (Return (mkResponse 400 false (Some "Already following this user") None),
         db1).
Proof.
  intros Hne Hu Hact Hfind.
  destruct (followUser_run db me userId target Hne Hu Hact Hfind)
    as (r & db1 & n & Hrun & Hcode & _ & Hfol & Husers & _).
  exists r, db1. split; [exact Hrun|]. split; [exact Hcode|].
  set (f := Follow.mk (nextId db) (ru_id me) userId _) in Hfol.
  assert (Hq : FollowModel.samePair (ru_id me) userId f = true).
  { unfold FollowModel.samePair. simpl. by rewrite !bool_decide_true. }
  assert (Hu1 : ∃ t1, users db1 !! userId = Some t1 ∧ User.isActive t1 = true).
  { rewrite Husers. rewrite lookup_alter_eq. rewrite lookup_alter_ne by done.
    rewrite Hu. simpl. eexists. split; [reflexivity|]. exact Hact. }
  destruct Hu1 as (t1 & Hu1 & Hact1).
  unfold followController.followUser, UserModel.findById, FollowModel.findOne.
  run. rewrite decide_False by done. rewrite Hu1, Hact1. cbn.
  rewrite Hfol. rewrite (find_app_r _ _ _ Hfind Hq). reflexivity.
Qed.

(** X4. Once the owner of a private account has accepted a request,
    acceptFollowRequest and rejectFollowRequest for the same requester
    both answer 404 Follow request not found and change nothing. *)
Theorem accepted_request_is_final (db : DB) (me owner : ReqUser) (target : User.t) :
  ru_id owner ≠ ru_id me →
  users db !! ru_id owner = Some target →
  User.isActive target = true →
  User.isPrivate target = true →
  find (FollowModel.samePair (ru_id me) (ru_id owner)) (follows db) = None →
  let db1 := (followController.followUser me (ru_id owner) db).2 in
  let db2 := (followController.acceptFollowRequest owner (ru_id me) db1).2 in
  followController.acceptFollowRequest owner (ru_id me) db2
    = (Return (mkResponse 404 false (Some "Follow request not found") None), db2)
  ∧ followController.rejectFollowRequest owner (ru_id me) db2
    = (Return (mkResponse 404 false (Some "Follow request not found") None), db2).
Proof.
  intros Hne Hu Hact Hpriv Hfind.
  destruct (followUser_run db me (ru_id owner) target Hne Hu Hact Hfind)
    as (r1 & db1 & n & Hrun & _ & _ & Hfol & _).
  rewrite Hpriv in Hfol. rewrite Hrun. cbn.
  set (f := Follow.mk (nextId db) (ru_id me) (ru_id owner) Follow.pending) in *.
  set (q := followController.pendingFrom (ru_id me) (ru_id owner)).
  assert (Hq : q f = true).
  { unfold q, followController.pendingFrom, FollowModel.samePair. simpl.
    by rewrite !bool_decide_true. }
  assert (Hn : find q (follows db) = None).
  { eapply find_None_weaken; [|exact Hfind].
    intros d. unfold q, followController.pendingFrom.
    by intros [? _]%andb_true_iff. }
  assert (Hacc : ∃ db2,
    followController.acceptFollowRequest owner (ru_id me) db1
      = (Return (mkResponse 200 true (Some "Follow request accepted") None), db2)
    ∧ follows db2
      = replaceById Follow._id (Follow.set_status Follow.accepted f) (follows db1)).
  { unfold followController.acceptFollowRequest, FollowModel.findOne,
      FollowModel.save, FollowModel.preSave,
      NotificationModel.createNotification.
    run. rewrite Hfol. fold q. rewrite (find_app_r _ _ _ Hn Hq). cbn.
    rewrite decide_False by (simpl; congruence).
    eexists. split; [reflexivity|]. cbn. by rewrite Hfol. }
  destruct Hacc as (db2 & Hacc & Hfol2). rewrite Hacc. cbn.
  assert (Hn2 : find q (follows db2) = None).
  { apply find_None_Forall. rewrite Hfol2, Hfol. unfold replaceById.
    apply Forall_forall. intros e He.
    apply list_elem_of_In, in_map_iff in He as (x & <- & Hx).
    destruct (decide _).
    { unfold q, followController.pendingFrom. simpl. apply andb_false_r. }
    apply in_app_or in Hx as [Hx|[<-|[]]].
    - apply find_None_all in Hn. rewrite Forall_forall in Hn.
      apply Hn. by apply list_elem_of_In.
    - done. }
  unfold followController.acceptFollowRequest,
    followController.rejectFollowRequest, FollowModel.findOneAndDelete,
    FollowModel.findOne.
  run. fold q. rewrite Hn2. cbn. split; [done|].
  rewrite (deleteFirst_None _ _ Hn2). by destruct db2.
Qed.

Lemma deleteFirst_sublist {D} (q : D → bool) (l : list D) :
  deleteFirst q l `sublist_of` l.
Proof.
  induction l as [|d l IH]; simpl; [done|].
  destruct (q d); [by apply sublist_cons|by apply sublist_skip].
Qed.

Lemma Forall_sublist_of {D} (P : D → Prop) (l k : list D) :
  l `sublist_of` k → Forall P k → Forall P l.
Proof.
  intros Hs Hk. apply Forall_forall. intros x Hx.
  rewrite Forall_forall in Hk. apply Hk. eapply elem_of_sublist; eauto.
Qed.

Lemma fmap_replaceById {D E} (id : D → ObjectId) (g : D → E) (d : D) (l : list D) :
  (∀ e, e ∈ l → id e = id d → g e = g d) →
  g <$> replaceById id d l = g <$> l.
Proof.
  unfold replaceById. induction l as [|e l IH]; intros H; [done|].
  cbn. f_equal.
  - destruct (decide (id e = id d)) as [He|]; [|done].
    symmetry. apply H; [by left|done].
  - apply IH. intros x Hx. apply H. by right.
Qed.

Lemma Forall_replaceById {D} (id : D → ObjectId) (P : D → Prop) (d : D) (l : list D) :
  P d → Forall P l → Forall P (replaceById id d l).
Proof.
  intros Hd Hl. unfold replaceById.
  induction Hl as [|e l He Hl IH]; cbn; constructor; [|exact IH].
  by destruct (decide _).
Qed.

Lemma NoDup_fmap_same {D} (id : D → ObjectId) (l : list D) (a b : D) :
  NoDup (id <$> l) → a ∈ l → b ∈ l → id a = id b → a = b.
Proof.
  induction l as [|e l IH]; simpl; [by intros _ ?%elem_of_nil|].
  intros [Hne Hnd]%NoDup_cons Ha Hb Hid.
  apply elem_of_cons in Ha as [->|Ha]; apply elem_of_cons in Hb as [->|Hb].
  - done.
  - exfalso. apply Hne. rewrite Hid. by apply list_elem_of_fmap_2.
  - exfalso. apply Hne. rewrite <- Hid. by apply list_elem_of_fmap_2.
  - by apply IH.
Qed.

Lemma NoDup_fmap_same' {D E} (g : D → E) (l : list D) (a b : D) :
  NoDup (g <$> l) → a ∈ l → b ∈ l → g a = g b → a = b.
Proof.
  induction l as [|e l IH]; simpl; [by intros _ ?%elem_of_nil|].
  intros [Hne Hnd]%NoDup_cons Ha Hb Hid.
  apply elem_of_cons in Ha as [->|Ha]; apply elem_of_cons in Hb as [->|Hb].
  - done.
  - exfalso. apply Hne. rewrite Hid. by apply list_elem_of_fmap_2.
  - exfalso. apply Hne. rewrite <- Hid. by apply list_elem_of_fmap_2.
  - by apply IH.
Qed.

Lemma find_samePair_None (l : list Follow.t) (a b : ObjectId) :
  find (FollowModel.samePair a b) l = None → (a, b) ∉ pairOf <$> l.
Proof.
  intros Hn (f & Hp & Hin)%list_elem_of_fmap.
  apply list_elem_of_In in Hin. eapply find_none in Hn; [|exact Hin].
  unfold pairOf in Hp. injection Hp as -> ->.
  unfold FollowModel.samePair in Hn. by rewrite !bool_decide_true in Hn.
Qed.

Lemma graphOk_same (db db' : DB) :
  graphOk db → follows db' = follows db → nextId db ≤ nextId db' → graphOk db'.
Proof.
  intros [H1 H2 H3 H4] Hf Hn. split; rewrite Hf; try done.
  eapply Forall_impl; [exact H4|]. intros f Hlt. simpl in *. lia.
Qed.

Lemma graphOk_append (db db' : DB) (a b : ObjectId) (st : Follow.Status) :
  graphOk db →
  a ≠ b →
  find (FollowModel.samePair a b) (follows db) = None →
  follows db' = follows db ++ [Follow.mk (nextId db) a b st] →
  nextId db' = S (nextId db) →
  graphOk db'.
Proof.
  intros [H1 H2 H3 H4] Hab Hfind Hf Hn. split; rewrite Hf.
  - rewrite fmap_app. apply NoDup_app. split; [done|]. split.
    + intros x (f & -> & Hin)%list_elem_of_fmap. simpl.
      intros Heq%list_elem_of_singleton.
      rewrite Forall_forall in H4. specialize (H4 _ Hin). simpl in *. lia.
    + apply NoDup_singleton.
  - rewrite fmap_app. apply NoDup_app. split; [done|]. split.
    + intros x Hx. simpl. intros Heq%list_elem_of_singleton.
      subst x. by apply (find_samePair_None _ _ _ Hfind).
    + apply NoDup_singleton.
  - apply Forall_app. split; [done|]. by repeat constructor.
  - apply Forall_app. split.
    + eapply Forall_impl; [exact H4|]. intros f Hlt. simpl in *. lia.
    + repeat constructor. simpl. lia.
Qed.

Lemma graphOk_delete (db db' : DB) (q : Follow.t → bool) :
  graphOk db →
  follows db' = deleteFirst q (follows db) →
  nextId db' = nextId db →
  graphOk db'.
Proof.
  intros [H1 H2 H3 H4] Hf Hn.
  pose proof (deleteFirst_sublist q (follows db)) as Hs.
  split; rewrite Hf.
  - eapply sublist_NoDup; [exact H1|]. by apply fmap_sublist.
  - eapply sublist_NoDup; [exact H2|]. by apply fmap_sublist.
  - by eapply Forall_sublist_of.
  - rewrite Hn. by eapply Forall_sublist_of.
Qed.

Lemma graphOk_accept (db db' : DB) (q : Follow.t → bool) (f : Follow.t) :
  graphOk db →
  find q (follows db) = Some f →
  follows db' = replaceById Follow._id (Follow.set_status Follow.accepted f) (follows db) →
  nextId db' = nextId db →
  graphOk db'.
Proof.
  intros [H1 H2 H3 H4] Hfind Hf Hn.
  apply find_some in Hfind as [Hin _]. apply list_elem_of_In in Hin.
  assert (Hsame : ∀ e, e ∈ follows db →
            Follow._id e = Follow._id (Follow.set_status Follow.accepted f) →
            e = f).
  { intros e He Hid. eapply NoDup_fmap_same; eauto. }
  split; rewrite Hf.
  - rewrite fmap_replaceById; [done|]. by intros e _ ->.
  - rewrite fmap_replaceById; [done|].
    intros e He Hid. by rewrite (Hsame e He Hid).
  - apply Forall_replaceById; [|done].
    rewrite Forall_forall in H3. apply (H3 f Hin).
  - rewrite Hn. apply Forall_replaceById; [|done].
    rewrite Forall_forall in H4. apply (H4 f Hin).
Qed.

Lemma followUser_keeps_graphOk (db : DB) (me : ReqUser) (userId : ObjectId) :
  graphOk db → graphOk (followController.followUser me userId db).2.
Proof.
  intros Hok.
  unfold followController.followUser, UserModel.findById, FollowModel.findOne,
    FollowModel.create, FollowModel.preSave, UserModel.findByIdAndUpdate,
    NotificationModel.createNotification.
  run.
  destruct (decide (userId = ru_id me)) as [|Hne]; cbn; [done|].
  destruct (users db !! userId) as [target|]; cbn; [|done].
  destruct (User.isActive target); cbn; [|done].
  destruct (find (FollowModel.samePair (ru_id me) userId) (follows db)) eqn:Hfind;
    cbn; [done|].
  rewrite decide_False by done. cbn.
  rewrite (find_None_existsb _ _ Hfind).
  destruct (User.isPrivate target); cbn;
    (eapply graphOk_append; [exact Hok| |exact Hfind|reflexivity|reflexivity]);
    congruence.
Qed.

Lemma unfollowUser_keeps_graphOk (db : DB) (me : ReqUser) (userId : ObjectId) :
  graphOk db → graphOk (followController.unfollowUser me userId db).2.
Proof.
  intros Hok.
  unfold followController.unfollowUser, FollowModel.findOneAndDelete,
    FollowModel.findOne, UserModel.findByIdAndUpdate.
  run.
  destruct (find _ _); cbn;
    (eapply graphOk_delete; [exact Hok|reflexivity|reflexivity]).
Qed.

Lemma rejectFollowRequest_keeps_graphOk (db : DB) (me : ReqUser) (userId : ObjectId) :
  graphOk db → graphOk (followController.rejectFollowRequest me userId db).2.
Proof.
  intros Hok.
  unfold followController.rejectFollowRequest, FollowModel.findOneAndDelete,
    FollowModel.findOne.
  run.
  destruct (find _ _); cbn;
    (eapply graphOk_delete; [exact Hok|reflexivity|reflexivity]).
Qed.

Lemma acceptFollowRequest_keeps_graphOk (db : DB) (me : ReqUser) (userId : ObjectId) :
  graphOk db → graphOk (followController.acceptFollowRequest me userId db).2.
Proof.
  intros Hok.
  unfold followController.acceptFollowRequest, FollowModel.findOne,
    FollowModel.save, FollowModel.preSave,
    NotificationModel.createNotification.
  run.
  destruct (find _ _) as [f|] eqn:Hfind; cbn; [|done].
  destruct (decide _); cbn; [done|].
  eapply graphOk_accept; [exact Hok|exact Hfind|reflexivity|reflexivity].
Qed.

(** X5. Every sequence of followUser, unfollowUser, acceptFollowRequest
    and rejectFollowRequest requests keeps the follow collection well
    formed: edge ids unique and below the next fresh id, at most one edge
    per (follower, following) pair, no edge from an account to itself. *)
Theorem graph_requests_keep_graphOk (ops : list GraphOp) (db : DB) :
  graphOk db → graphOk (foldl runGraphOp db ops).
Proof.
  revert db. induction ops as [|op ops IH]; intros db Hok; [done|].
  simpl. apply IH. destruct op; simpl.
  - by apply followUser_keeps_graphOk.
  - by apply unfollowUser_keeps_graphOk.
  - by apply acceptFollowRequest_keeps_graphOk.
  - by apply rejectFollowRequest_keeps_graphOk.
Qed.

(** The query of isFollowing finds an edge exactly when an accepted edge
    is stored. *)
Lemma find_accepted_iff (db : DB) (a b : ObjectId) :
  is_Some (find (λ f, matchesId (Some a) (Follow.follower f)
                      && bool_decide (Follow.following f = b)
                      && bool_decide (Follow.status f = Follow.accepted))
             (follows db))
  ↔ followsAccepted db a b.
Proof.
  unfold followsAccepted. split.
  - intros [f Hf]. apply find_some in Hf as [Hin Hq].
    exists f. simpl in Hq. rewrite !andb_true_iff, !bool_decide_eq_true in Hq.
    destruct Hq as [[? ?] ?]. split; [by apply list_elem_of_In|done].
  - intros (f & Hin & <- & <- & Hst).
    eapply find_In_is_Some; [by apply list_elem_of_In|].
    simpl. by rewrite !bool_decide_true.
Qed.

(** X6. getPost of a stored active post answers 200 with the post exactly
    when the post is public, or the viewer is its author, or it is for
    followers and the viewer has an accepted edge to the author; every
    other viewer gets 403, and the store is unchanged either way. *)
Theorem getPost_decision (db : DB) (viewer : option ReqUser) (id : ObjectId) (p : Post.t) (a : User.t) :
  find (byId Post._id id) (posts db) = Some p →
  Post.isActive p = true →
  users db !! Post.author p = Some a →
  (mayViewPost db viewer p →
   postController.getPost viewer id db
   = (Return (mkResponse 200 true None (Some p)), db))
  ∧ (¬ mayViewPost db viewer p →
     ∃ msg, postController.getPost viewer id db
            = (Return (mkResponse 403 false (Some msg) None), db)).
Proof.
  intros Hfind Hact Hauthor.
  unfold postController.getPost, PostModel.findById,
    postController.populatedAuthorId, UserModel.findById,
    FollowModel.isFollowing, FollowModel.findOne, mayViewPost.
  run. rewrite Hfind, Hact. cbn.
  destruct (decide (Post.visibility p = Post.private)) as [Hpriv|Hnpriv]; cbn.
  - rewrite Hauthor. cbn.
    destruct viewer as [u|]; cbn.
    + destruct (decide (Post.author p = ru_id u)) as [Ha|Ha].
      * rewrite bool_decide_true by done. cbn.
        rewrite decide_False by congruence. split; [done|].
        intros H. exfalso. apply H. right. left. by exists u.
      * rewrite bool_decide_false by done. cbn. split.
        -- intros [?|[(u' & [= <-] & ?)|(? & _)]]; congruence.
        -- intros _. by eexists.
    + split.
      * intros [?|[(u' & ? & ?)|(? & _)]]; congruence.
      * intros _. by eexists.
  - destruct (decide (Post.visibility p = Post.followers)) as [Hfol|Hnfol]; cbn.
    + destruct viewer as [u|]; cbn.
      * rewrite Hauthor. cbn.
        pose proof (find_accepted_iff db (ru_id u) (Post.author p)) as Hiff.
        cbn in Hiff.
        destruct (find _ (follows db)) as [f|] eqn:Hf; cbn.
        -- split; [done|]. intros H. exfalso. apply H. right. right.
           split; [done|]. exists u. split; [done|]. apply Hiff. by eexists.
        -- destruct (decide (Post.author p = ru_id u)) as [Ha|Ha].
           ++ rewrite bool_decide_true by done. cbn. split; [done|].
              intros H. exfalso. apply H. right. left. by exists u.
           ++ rewrite bool_decide_false by done. cbn. split.
              ** intros [?|[(u' & [= <-] & ?)|(_ & u' & [= <-] & Hacc)]];
                   try congruence. apply Hiff in Hacc. by destruct Hacc.
              ** intros _. by eexists.
      * split.
        -- intros [?|[(u' & ? & ?)|(_ & u' & ? & _)]]; congruence.
        -- intros _. by eexists.
    + split; [done|]. intros H. exfalso. apply H. left.
      by destruct (Post.visibility p).
Qed.

(** The privacy check lets the request pass exactly for the viewers
    [mayViewAccount] names. *)
Lemma privacyCheck_decision (db : DB) (viewer : option ReqUser) (userId : UrlId) (u : User.t) :
  ∃ b, followController.privacyCheck viewer userId u db = (Return b, db)
       ∧ (b = true ↔ mayViewAccount db viewer userId u).
Proof.
  unfold followController.privacyCheck, FollowModel.isFollowing,
    FollowModel.findOne, mayViewAccount, ownerByText.
  destruct (User.isPrivate u) eqn:Hpriv; cbn.
  - destruct viewer as [v|]; cbn.
    + pose proof (find_accepted_iff db (ru_id v) (url_id userId)) as Hiff.
      cbn in Hiff.
      destruct (url_asToString userId) eqn:Htext; cbn;
        [destruct (decide (ru_id v = url_id userId)) as [Hv|Hv];
           [rewrite bool_decide_true by done|rewrite bool_decide_false by done];
           cbn|].
      * eexists. split; [reflexivity|].
        split; [|done]. intros _. right. left. by rewrite Hv.
      * run. eexists. split; [reflexivity|].
        rewrite bool_decide_eq_true, Hiff. split.
        -- intros H. right. right. by exists v.
        -- intros [?|[[[= ?] _]|(v' & [= <-] & ?)]]; done.
      * run. eexists. split; [reflexivity|].
        rewrite bool_decide_eq_true, Hiff. split.
        -- intros H. right. right. by exists v.
        -- intros [?|[[_ ?]|(v' & [= <-] & ?)]]; done.
    + run. eexists. split; [reflexivity|].
      rewrite bool_decide_eq_true. split.
      * intros [f Hf]. exfalso. clear -Hf.
        induction (follows db); simpl in *; done.
      * intros [?|[[? _]|(v' & ? & ?)]]; done.
  - run. eexists. split; [reflexivity|]. split; [|done]. intros _. by left.
Qed.

(** X7. getFollowers of an active account, for a page and a limit that
    validatePagination lets through, answers 200 with the page of its
    accepted edges and their total exactly for the viewers that may see
    the account (the account is public, or the viewer is the owner and the
    URL spells the id as toString() does, or the viewer is an accepted
    follower) and 403 This account is private for all others, anonymous
    viewers included. *)
Theorem getFollowers_decision (db : DB) (viewer : option ReqUser) (userId : UrlId) (u : User.t) (page limit : Z) :
  users db !! url_id userId = Some u →
  User.isActive u = true →
  validatePagination page limit = true →
  (mayViewAccount db viewer userId u →
   ∃ pg, followController.getFollowers viewer userId page limit db
         = (Return (mkResponse 200 true None (Some pg)), db)
         ∧ pg_items pg
           = take (Z.to_nat limit)
               (drop (Z.to_nat ((page - 1) * limit))
                  (filter (λ f, Follow.following f = url_id userId
                                ∧ Follow.status f = Follow.accepted)
                     (follows db)))
         ∧ Z.of_nat (pg_total pg) = acceptedFollowers db (url_id userId))
  ∧ (¬ mayViewAccount db viewer userId u →
     followController.getFollowers viewer userId page limit db
     = (Return (mkResponse 403 false (Some "This account is private") None), db)).
Proof.
  intros Hu Hact _.
  destruct (privacyCheck_decision db viewer userId u) as (b & Hb & Hiff).
  unfold followController.getFollowers, UserModel.findById,
    FollowModel.getFollowers, FollowModel.countDocuments.
  run. rewrite Hu, Hact. cbn. unfold mbind, M_bind in Hb |- *.
  rewrite Hb. destruct b; cbn.
  - split; [|intros H; exfalso; apply H; by apply Hiff].
    intros _. eexists. split; [reflexivity|]. done.
  - split; [|done]. intros H. apply Hiff in H. done.
Qed.

Lemma sortDesc_createdAt_sorted (l : list Post.t) :
  StronglySorted newestFirst (sortDesc (λ p, Some (Post.createdAt p)) l).
Proof.
  eapply StronglySorted_mono; [|apply sortDesc_sorted].
  intros p q. unfold notBelow, newestFirst. simpl.
  intros H%bool_decide_eq_false. lia.
Qed.

(** X8. getUserPosts of an active account, for a page and a limit that
    validatePagination lets through, answers 403 for viewers who may not
    see the account; otherwise it answers the page of a newest-first
    listing that holds, each once, the account's active posts: all of them
    when the viewer is the owner and the URL spells the id as toString()
    does, and only the public ones otherwise (an accepted follower does
    not get the followers-only posts); total is the length of that
    listing. *)
Theorem getUserPosts_listing (db : DB) (viewer : option ReqUser) (userId : UrlId) (u : User.t) (page limit : Z) :
  users db !! url_id userId = Some u →
  User.isActive u = true →
  validatePagination page limit = true →
  (mayViewAccount db viewer userId u →
   ∃ pg ranked,
     getUserPosts viewer userId page limit db
     = (Return (mkResponse 200 true None (Some pg)), db)
     ∧ pg_items pg
       = take (Z.to_nat limit) (drop (Z.to_nat ((page - 1) * limit)) ranked)
     ∧ StronglySorted newestFirst ranked
     ∧ ranked ≡ₚ filter (λ p, Post.author p = url_id userId
                               ∧ Post.isActive p = true
                               ∧ (Post.visibility p = Post.public
                                  ∨ ownerByText viewer userId))
                   (posts db)
     ∧ pg_total pg = length ranked)
  ∧ (¬ mayViewAccount db viewer userId u →
     getUserPosts viewer userId page limit db
     = (Return (mkResponse 403 false (Some "This account is private") None), db)).
Proof.
  intros Hu Hact _.
  destruct (privacyCheck_decision db viewer userId u) as (b & Hb & Hiff).
  unfold getUserPosts, UserModel.findById.
  run. rewrite Hu, Hact. cbn. unfold mbind, M_bind in Hb |- *.
  rewrite Hb. destruct b; cbn.
  - split; [|intros H; exfalso; apply H; by apply Hiff].
    intros _. eexists _, _. split; [reflexivity|]. cbn.
    split; [reflexivity|]. split; [apply sortDesc_createdAt_sorted|]. split.
    + rewrite sortDesc_perm.
      erewrite List_filter_Prop; [reflexivity|].
      intros p. unfold userPostsQuery, followController.notOwner, ownerByText.
      rewrite !andb_true_iff, bool_decide_eq_true.
      destruct viewer as [v|]; cbn.
      * destruct (url_asToString userId) eqn:Htext; cbn;
          [destruct (decide (ru_id v = url_id userId)) as [Hv|Hv];
             [rewrite bool_decide_true by done|rewrite bool_decide_false by done];
             cbn|].
        -- split; [|tauto]. intros [[? ?] _]. repeat split; try done.
           right. by rewrite Hv.
        -- rewrite bool_decide_eq_true. split; [tauto|].
           intros (? & ? & [?|[[= ?] _]]); done.
        -- rewrite bool_decide_eq_true. split; [tauto|].
           intros (? & ? & [?|[_ ?]]); done.
      * rewrite bool_decide_eq_true. split; [tauto|].
        intros (? & ? & [?|[? _]]); done.
    + by rewrite sortDesc_perm.
  - split; [|done]. intros H. apply Hiff in H. done.
Qed.

(** X9. Post.getFeedPosts, for a page and a limit that validatePagination
    lets through, returns the page ((page - 1) * limit documents skipped,
    at most limit returned) of a newest-first listing that holds, each
    once, the active public posts written by the user or by one of the
    given followed accounts; followers-only and private posts never
    appear, not even the user's own. *)
Theorem getFeedPosts_listing (db : DB) (userId : ObjectId) (followingIds : list ObjectId) (page limit : Z) :
  validatePagination page limit = true →
  ∃ ranked,
    getFeedPosts userId followingIds page limit db
    = (Return (take (Z.to_nat limit)
                 (drop (Z.to_nat ((page - 1) * limit)) ranked)), db)
    ∧ StronglySorted newestFirst ranked
    ∧ ranked ≡ₚ filter (λ p, (Post.author p = userId
                               ∨ Post.author p ∈ followingIds)
                              ∧ Post.visibility p = Post.public
                              ∧ Post.isActive p = true)
                  (posts db).
Proof.
  intros _.
  unfold getFeedPosts. run. eexists. split; [reflexivity|].
  split; [apply sortDesc_createdAt_sorted|].
  rewrite sortDesc_perm.
  erewrite List_filter_Prop; [reflexivity|].
  intros p. unfold inFeed.
  rewrite !andb_true_iff, orb_true_iff, !bool_decide_eq_true.
  tauto.
Qed.

(** What deletePost leaves: the post is stored inactive, every other id
    finds what it found before. *)
Lemma deletePost_run (db : DB) (me : ReqUser) (id : ObjectId) (p : Post.t) :
  find (byId Post._id id) (posts db) = Some p →
  Post.isActive p = true →
  (Post.author p = ru_id me ∨ ru_admin me = true) →
  ∃ db',
    deletePost me id db
    = (Return (mkResponse 200 true (Some "Post deleted successfully") None), db')
    ∧ posts db' = replaceById Post._id (softDeleted p) (posts db)
    ∧ comments db' = comments db
    ∧ notifications db' = notifications db.
Proof.
  intros Hfind Hact Hauth.
  unfold deletePost, PostModel.findById, PostModel.save, getRedisClient,
    redis_del.
  run. rewrite Hfind, Hact. cbn.
  assert (Hguard : negb (bool_decide (Post.author p = ru_id me))
                   && negb (ru_admin me) = false).
  { destruct Hauth as [Ha|Ha].
    - by rewrite bool_decide_true.
    - rewrite Ha. apply andb_false_r. }
  rewrite Hguard. cbn.
  destruct (redis db); cbn; eexists; (split; [reflexivity|]); done.
Qed.

(** X10. After the author or an admin has deleted a post, getPost,
    likePost, getComments and a second deletePost of it all answer 404
    Post not found for every caller, while every other post is found as
    before. *)
Theorem deletePost_hides_post (db : DB) (me : ReqUser) (id : ObjectId) (p : Post.t) :
  find (byId Post._id id) (posts db) = Some p →
  Post.isActive p = true →
  (Post.author p = ru_id me ∨ ru_admin me = true) →
  ∃ db',
    deletePost me id db
    = (Return (mkResponse 200 true (Some "Post deleted successfully") None), db')
    ∧ (∀ viewer, postController.getPost viewer id db'
                 = (Return (mkResponse 404 false (Some "Post not found") None), db'))
    ∧ (∀ u, postController.likePost u id db'
            = (Return (mkResponse 404 false (Some "Post not found") None), db'))
    ∧ (∀ viewer page limit,
         commentController.getComments viewer id page limit db'
         = (Return (mkResponse 404 false (Some "Post not found") None), db'))
    ∧ (∀ u, deletePost u id db'
            = (Return (mkResponse 404 false (Some "Post not found") None), db'))
    ∧ (∀ j, j ≠ id →
            find (byId Post._id j) (posts db') = find (byId Post._id j) (posts db)).
Proof.
  intros Hfind Hact Hauth.
  destruct (deletePost_run db me id p Hfind Hact Hauth)
    as (db' & Hrun & Hposts & _).
  pose proof (find_byId_id _ _ _ _ Hfind) as Hid.
  assert (Hgone : find (byId Post._id id) (posts db') = Some (softDeleted p)).
  { rewrite Hposts, find_replaceById. rewrite decide_True by done.
    by rewrite Hfind. }
  exists db'. split; [exact Hrun|].
  split; [|split; [|split; [|split]]].
  - intros viewer. unfold postController.getPost, PostModel.findById.
    run. by rewrite Hgone.
  - intros u. unfold postController.likePost, PostModel.findById.
    run. by rewrite Hgone.
  - intros viewer page limit.
    unfold commentController.getComments, PostModel.findById.
    run. by rewrite Hgone.
  - intros u. unfold deletePost, PostModel.findById. run. by rewrite Hgone.
  - intros j Hj. rewrite Hposts, find_replaceById.
    rewrite decide_False; [done|]. simpl. congruence.
Qed.

(** X11. deletePost by a user who is neither the author nor an admin
    answers 403 Not authorized to delete this post and leaves the store
    unchanged. *)
Theorem deletePost_needs_owner_or_admin (db : DB) (me : ReqUser) (id : ObjectId) (p : Post.t) :
  find (byId Post._id id) (posts db) = Some p →
  Post.isActive p = true →
  Post.author p ≠ ru_id me →
  ru_admin me = false →
  deletePost me id db
  = (Return (mkResponse 403 false (Some "Not authorized to delete this post") None),
     db).
Proof.
  intros Hfind Hact Ha Hadmin.
  unfold deletePost, PostModel.findById. run.
  rewrite Hfind, Hact. cbn. rewrite bool_decide_false by done.
  by rewrite Hadmin.
Qed.

(** The author of a stored active post is served it, whatever its
    visibility. *)
Lemma getPost_for_author (db : DB) (me : ReqUser) (id : ObjectId) (p : Post.t) (a : User.t) :
  find (byId Post._id id) (posts db) = Some p →
  Post.isActive p = true →
  Post.author p = ru_id me →
  users db !! ru_id me = Some a →
  postController.getPost (Some me) id db
  = (Return (mkResponse 200 true None (Some p)), db).
Proof.
  intros Hfind Hact Ha Hu. rewrite <- Ha in Hu.
  unfold postController.getPost, PostModel.findById,
    postController.populatedAuthorId, UserModel.findById,
    FollowModel.isFollowing, FollowModel.findOne.
  run. rewrite Hfind, Hact. cbn.
  destruct (decide (Post.visibility p = Post.private)) as [Hpriv|Hnpriv]; cbn.
  - rewrite Hu. cbn. rewrite bool_decide_true by done. cbn.
    by rewrite decide_False by congruence.
  - destruct (decide (Post.visibility p = Post.followers)); cbn; [|done].
    rewrite Hu. cbn. rewrite (bool_decide_true (Post.author p = ru_id me)) by done.
    cbn. by rewrite andb_false_r.
Qed.

(** X12. A post created with valid content of ASCII characters is stored
    under the fresh id with the caller as author, no likes, likesCount 0,
    the requested visibility (public by default) and active, and getPost
    by the author returns exactly that post, whatever its visibility. *)
Theorem createPost_then_getPost (db : DB) (me : ReqUser) (body : postController.CreateBody) (author : User.t) :
  (∀ text, postController.content body = Some text → Post.isAscii text = true) →
  Post.validate
    (Post.mkInput (ru_id me) (postController.content body)
       (default [] (postController.mentions body))
       (Some (default Post.public (postController.visibility body)))
       None None) = true →
  existsb (byId Post._id (nextId db)) (posts db) = false →
  users db !! ru_id me = Some author →
  ∃ p db',
    postController.createPost me body db
    = (Return (mkResponse 201 true (Some "Post created successfully") (Some p)), db')
    ∧ Post._id p = nextId db
    ∧ Post.author p = ru_id me
    ∧ Post.visibility p = default Post.public (postController.visibility body)
    ∧ Post.likesCount p = 0%Z ∧ Post.likes p = []
    ∧ Post.isActive p = true
    ∧ postController.getPost (Some me) (nextId db) db'
      = (Return (mkResponse 200 true None (Some p)), db').
Proof.
  intros _ Hval Hfresh Hme.
  assert (Hrun : ∃ db',
    postController.createPost me body db
    = (Return (mkResponse 201 true (Some "Post created successfully")
                 (Some (Post.new (nextId db) (clock db)
                    (Post.mkInput (ru_id me) (postController.content body)
                       (default [] (postController.mentions body))
                       (Some (default Post.public (postController.visibility body)))
                       None None)))), db')
    ∧ posts db' = posts db ++ [Post.new (nextId db) (clock db)
                    (Post.mkInput (ru_id me) (postController.content body)
                       (default [] (postController.mentions body))
                       (Some (default Post.public (postController.visibility body)))
                       None None)]
    ∧ users db' = users db
    ∧ follows db' = follows db).
  { unfold postController.createPost, PostModel.create,
      NotificationModel.insertMany, getRedisClient, redis_del.
    run. rewrite Hval. cbn. rewrite Hfresh. cbn.
    destruct (postController.mentions body) as [ms|]; cbn;
      [destruct (bool_decide (0 < length ms)); cbn|];
      destruct (redis db); cbn; eexists; (split; [reflexivity|]); done. }
  destruct Hrun as (db' & Hrun & Hposts & Husers & Hfol).
  set (p := Post.new _ _ _) in *.
  exists p, db'. split; [exact Hrun|]. repeat (split; [done|]).
  assert (Hfind : find (byId Post._id (nextId db)) (posts db') = Some p).
  { rewrite Hposts. apply find_app_r.
    - destruct (find _ (posts db)) eqn:E; [|done].
      apply find_some in E as [Hin Hq].
      assert (existsb (byId Post._id (nextId db)) (posts db) = true)
        by (apply existsb_exists; eauto).
      congruence.
    - unfold byId. by rewrite bool_decide_true. }
  apply (getPost_for_author db' me (nextId db) p author Hfind);
    [done|done|by rewrite Husers].
Qed.

Lemma find_filter_other_key (k k' : CacheKey) (now : Z) (cache : list CacheEntry) :
  k ≠ k' →
  find (λ e, bool_decide (ce_key e = k) && bool_decide (now < ce_expires e)%Z)
    (filter (λ e, ce_key e ≠ k') cache)
  = find (λ e, bool_decide (ce_key e = k) && bool_decide (now < ce_expires e)%Z)
      cache.
Proof.
  intros Hk. induction cache as [|e l IH]; [done|].
  destruct (decide (ce_key e = k')) as [He|He].
  - rewrite filter_cons_False by (intros H; by apply H). simpl.
    rewrite bool_decide_false by congruence. exact IH.
  - rewrite filter_cons_True by done. simpl. by rewrite IH.
Qed.

(** A cached popular page as the handler reads it. *)
Lemma getPopularPosts_hit (db : DB) (page limit : Z) (hit : PopularResult) :
  redis_get (popular_posts_page page limit) db = (Return (Some hit), db) →
  postController.getPopularPosts page limit db
  = (Return (mkResponse 200 true None (Some hit)), db).
Proof.
  intros Hhit. unfold redis_get, get in Hhit.
  unfold postController.getPopularPosts, getRedisClient, redis_get.
  run. injection Hhit as Hhit.
  destruct (redis db) as [cache|] eqn:Hr; cbn in *; [|done].
  rewrite Hr. cbn. by rewrite Hhit.
Qed.

(** X13. createPost does not invalidate a cached page of popular posts: it
    deletes the key popular_posts, while the pages are stored under
    popular_posts:page:limit, so a page that was served from the cache
    before is served unchanged after. *)
Theorem createPost_keeps_popular_cache (db : DB) (me : ReqUser) (body : postController.CreateBody) (page limit : Z) (hit : PopularResult) :
  redis_get (popular_posts_page page limit) db = (Return (Some hit), db) →
  let db' := (postController.createPost me body db).2 in
  postController.getPopularPosts page limit db'
  = (Return (mkResponse 200 true None (Some hit)), db').
Proof.
  intros Hhit db'. apply getPopularPosts_hit.
  unfold redis_get, get in Hhit |- *. injection Hhit as Hhit.
  f_equal. f_equal.
  destruct (redis db) as [cache|] eqn:Hr; cbn in Hhit; [|done].
  assert (Hdb' : clock db' = clock db
                 ∧ (redis db' = Some cache
                    ∨ redis db'
                      = Some (filter (λ e, ce_key e ≠ user_feed (ru_id me))
                                (filter (λ e, ce_key e ≠ popular_posts) cache)))).
  { subst db'.
    unfold postController.createPost, PostModel.create,
      NotificationModel.insertMany, getRedisClient, redis_del.
    run. rewrite Hr. cbn.
    repeat (case_match; simplify_eq; cbn; try rewrite Hr; cbn; auto). }
  destruct Hdb' as [Hclock [Hr'|Hr']]; rewrite Hr', Hclock; cbn.
  - exact Hhit.
  - rewrite !find_filter_other_key by done. exact Hhit.
Qed.

(** X14. deletePost does not invalidate a cached page of popular posts
    either: a page cached before the deletion is served unchanged after
    it, even when it holds the deleted post. *)
Theorem deletePost_keeps_popular_cache (db : DB) (me : ReqUser) (id : ObjectId) (page limit : Z) (hit : PopularResult) :
  redis_get (popular_posts_page page limit) db = (Return (Some hit), db) →
  let db' := (deletePost me id db).2 in
  postController.getPopularPosts page limit db'
  = (Return (mkResponse 200 true None (Some hit)), db').
Proof.
  intros Hhit db'. apply getPopularPosts_hit.
  unfold redis_get, get in Hhit |- *. injection Hhit as Hhit.
  f_equal. f_equal.
  destruct (redis db) as [cache|] eqn:Hr; cbn in Hhit; [|done].
  assert (Hdb' : clock db' = clock db
                 ∧ (redis db' = Some cache
                    ∨ redis db'
                      = Some (filter (λ e, ce_key e ≠ popular_posts)
                                (filter (λ e, ce_key e ≠ user_feed (ru_id me)) cache)))).
  { subst db'.
    unfold deletePost, PostModel.findById, PostModel.save, getRedisClient,
      redis_del.
    run. 
    repeat (case_match; simplify_eq; cbn; try rewrite Hr; cbn; auto). }
  destruct Hdb' as [Hclock [Hr'|Hr']]; rewrite Hr', Hclock; cbn.
  - exact Hhit.
  - rewrite !find_filter_other_key by done. exact Hhit.
Qed.

(** X15. With a Redis client and no live cached entry for the requested
    page, getPopularPosts answers 500 Server error getting popular posts
    and leaves the store and the cache as they are: the page is computed,
    but redis.setex is not a function of the client config/database.js
    creates, so the call throws before the reply and the handler never
    fills the cache it reads. *)
Theorem getPopularPosts_miss_with_client_fails (db : DB) (page limit : Z) (cache : list CacheEntry) :
  redis db = Some cache →
  redis_get (popular_posts_page page limit) db = (Return None, db) →
  postController.getPopularPosts page limit db
  = (Return (mkResponse 500 false (Some "Server error getting popular posts") None),
     db).
Proof.
  intros Hr Hmiss.
  unfold postController.getPopularPosts, PostModel.getPopularPosts,
    getRedisClient, redis_setex.
  unfold redis_get, get in Hmiss. injection Hmiss as Hmiss.
  rewrite Hr in Hmiss. cbn in Hmiss.
  run. repeat (rewrite Hr; cbn). rewrite Hmiss. cbn.
  repeat (rewrite Hr; cbn). reflexivity.
Qed.

Lemma isLikedBy_elem_of (p : Post.t) (u : ObjectId) :
  Post.isLikedBy p u = true ↔ u ∈ Post.likes p.
Proof.
  unfold Post.isLikedBy. rewrite existsb_exists. split.
  - intros (x & Hin & ->%bool_decide_eq_true). by apply list_elem_of_In.
  - intros Hin. exists u. split; [by apply list_elem_of_In|].
    by apply bool_decide_eq_true.
Qed.

(** X16. likePost on an active post whose likes hold no user twice flips
    the membership of the caller in likes, leaves every other user's like
    as it was, keeps likes free of duplicates, stores likesCount equal to
    the number of likes, and reports that count with isLiked the negation
    of the state before. *)
Theorem likePost_toggles (db : DB) (me : ReqUser) (id : ObjectId) (p : Post.t) :
  find (byId Post._id id) (posts db) = Some p →
  Post.isActive p = true →
  NoDup (Post.likes p) →
  ∃ r db' p',
    postController.likePost me id db = (Return r, db')
    ∧ code r = 200
    ∧ find (byId Post._id id) (posts db') = Some p'
    ∧ NoDup (Post.likes p')
    ∧ Post.likesCount p' = Z.of_nat (length (Post.likes p'))
    ∧ (ru_id me ∈ Post.likes p' ↔ ru_id me ∉ Post.likes p)
    ∧ (∀ u, u ≠ ru_id me → u ∈ Post.likes p' ↔ u ∈ Post.likes p)
    ∧ data r
      = Some (postController.mkLikeReply (Post.likesCount p')
                (negb (Post.isLikedBy p (ru_id me)))).
Proof.
  intros Hfind Hact Hnd.
  pose proof (find_byId_id _ _ _ _ Hfind) as Hid.
  set (likes' := if Post.isLikedBy p (ru_id me)
                 then filter (λ like, like ≠ ru_id me) (Post.likes p)
                 else Post.likes p ++ [ru_id me]).
  set (p' := Post.set_likesCount (Z.of_nat (length likes'))
               (Post.set_likes likes' p)).
  assert (Hrun : ∃ r db',
    postController.likePost me id db = (Return r, db')
    ∧ code r = 200
    ∧ posts db' = replaceById Post._id p' (posts db)
    ∧ data r
      = Some (postController.mkLikeReply (Post.likesCount p')
                (negb (Post.isLikedBy p (ru_id me))))).
  { unfold postController.likePost, PostModel.findById, PostModel.save,
      NotificationModel.createNotification.
    run. rewrite Hfind, Hact. cbn. subst p' likes'.
    destruct (Post.isLikedBy p (ru_id me)); cbn; rewrite preSave_likes; cbn.
    - eexists _, _. split; [reflexivity|]. done.
    - destruct (bool_decide (Post.author p = ru_id me)); cbn;
        eexists _, _; (split; [reflexivity|]); done. }
  destruct Hrun as (r & db' & Hrun & Hcode & Hposts & Hdata).
  exists r, db', p'. split; [exact Hrun|]. split; [exact Hcode|]. split.
  { rewrite Hposts, find_replaceById. rewrite decide_True by done.
    by rewrite Hfind. }
  assert (Hlikes : Post.likes p' = likes') by done.
  rewrite Hlikes. subst likes'.
  destruct (Post.isLikedBy p (ru_id me)) eqn:Hl.
  - apply isLikedBy_elem_of in Hl.
    split; [by apply NoDup_filter|]. split; [done|].
    split; [|split; [|exact Hdata]].
    + rewrite list_elem_of_filter. split; [intros [? _]; done|done].
    + intros u Hu. rewrite list_elem_of_filter. split; [by intros [_ ?]|done].
  - assert (Hnl : ru_id me ∉ Post.likes p).
    { intros H%isLikedBy_elem_of. congruence. }
    split.
    { apply NoDup_app. split; [done|]. split; [|apply NoDup_singleton].
      intros x Hx ->%list_elem_of_singleton. done. }
    split; [done|]. split; [|split; [|exact Hdata]].
    + split; [done|]. intros _. apply elem_of_app. right.
      by apply list_elem_of_singleton.
    + intros u Hu. rewrite elem_of_app, list_elem_of_singleton. split.
      * intros [?|?]; done.
      * by left.
Qed.

Lemma find_map_keeping_id {D} (id : D → ObjectId) (g : D → D) (l : list D) (i : ObjectId) :
  (∀ d, id (g d) = id d) →
  find (byId id i) (map g l) = g <$> find (byId id i) l.
Proof.
  intros Hg. unfold byId. induction l as [|d l IH]; simpl; [done|].
  rewrite Hg. by destruct (bool_decide (id d = i)).
Qed.

(** X17. deleteComment by the author or an admin stores the comment
    inactive, removes its id from the comments array of its post, and
    makes every later deleteComment of it answer 404; by anyone else it
    answers 403 and changes nothing. *)
Theorem deleteComment_effect (db : DB) (me : ReqUser) (id : ObjectId) (c : Comment.t) :
  find (byId Comment._id id) (comments db) = Some c →
  Comment.isActive c = true →
  ((Comment.author c = ru_id me ∨ ru_admin me = true) →
   ∃ db' c',
     commentController.deleteComment me id db
     = (Return (mkResponse 200 true (Some "Comment deleted successfully") None), db')
     ∧ find (byId Comment._id id) (comments db') = Some c'
     ∧ Comment.isActive c' = false
     ∧ (∀ p', find (byId Post._id (Comment.post c)) (posts db') = Some p' →
              id ∉ Post.comments p')
     ∧ (∀ u, commentController.deleteComment u id db'
             = (Return (mkResponse 404 false (Some "Comment not found") None), db')))
  ∧ ((Comment.author c ≠ ru_id me ∧ ru_admin me = false) →
     commentController.deleteComment me id db
     = (Return (mkResponse 403 false
                  (Some "Not authorized to delete this comment") None), db)).
Proof.
  intros Hfind Hact.
  pose proof (find_byId_id _ _ _ _ Hfind) as Hid.
  split.
  - intros Hauth.
    assert (Hguard : negb (bool_decide (Comment.author c = ru_id me))
                     && negb (ru_admin me) = false).
    { destruct Hauth as [Ha|Ha].
      - by rewrite bool_decide_true.
      - rewrite Ha. apply andb_false_r. }
    set (gone := Comment.set_isActive false c).
    set (pullC := λ p : Post.t,
           if byId Post._id (Comment.post c) p
           then Post.set_comments
                  (filter (λ x, x ≠ Comment._id c) (Post.comments p)) p
           else p).
    set (pullR := λ x : Comment.t,
           match Comment.parentComment c with
           | Some parentId =>
               if byId Comment._id parentId x
               then Comment.set_replies
                      (filter (λ r, r ≠ Comment._id c) (Comment.replies x)) x
               else x
           | None => x
           end).
    assert (Hrun : ∃ db',
      commentController.deleteComment me id db
      = (Return (mkResponse 200 true (Some "Comment deleted successfully") None), db')
      ∧ comments db' = map pullR (replaceById Comment._id gone (comments db))
      ∧ posts db' = map pullC (posts db)).
    { unfold commentController.deleteComment, CommentModel.findById,
        CommentModel.save, PostModel.pullComment, CommentModel.pullReply.
      run. rewrite Hfind, Hact. cbn. rewrite Hguard. cbn.
      subst pullR pullC gone.
      destruct (Comment.parentComment c); cbn;
        eexists; (split; [reflexivity|]); cbn; [done|].
      split; [|done]. by rewrite map_id. }
    destruct Hrun as (db' & Hrun & Hcs & Hps).
    assert (HpullR : ∀ x, Comment._id (pullR x) = Comment._id x
                          ∧ Comment.isActive (pullR x) = Comment.isActive x).
    { intros x. unfold pullR. destruct (Comment.parentComment c); [|done].
      by destruct (byId _ _ _). }
    assert (Hgone : find (byId Comment._id id) (comments db') = Some (pullR gone)).
    { rewrite Hcs. rewrite find_map_keeping_id by (intros x; apply HpullR).
      rewrite find_replaceById. rewrite decide_True by done.
      by rewrite Hfind. }
    exists db', (pullR gone). split; [exact Hrun|]. split; [exact Hgone|].
    split; [by rewrite (proj2 (HpullR gone))|]. split.
    + intros p'. rewrite Hps.
      rewrite find_map_keeping_id
        by (intros x; unfold pullC; by destruct (byId _ _ _)).
      destruct (find _ (posts db)) as [p|] eqn:Hp; [|done].
      intros [= <-]. unfold pullC.
      apply find_some in Hp as [_ Hp]. rewrite Hp. simpl.
      rewrite list_elem_of_filter. intros [Hne _]. congruence.
    + intros u. unfold commentController.deleteComment, CommentModel.findById.
      run. rewrite Hgone. cbn. by rewrite (proj2 (HpullR gone)).
  - intros [Ha Hadmin].
    unfold commentController.deleteComment, CommentModel.findById.
    run. rewrite Hfind, Hact. cbn. rewrite bool_decide_false by done.
    by rewrite Hadmin.
Qed.

Lemma Notification_preSave_keeps (n : Notification.t) :
  Notification.recipient (Notification.preSave n) = Notification.recipient n
  ∧ Notification.sender (Notification.preSave n) = Notification.sender n
  ∧ Notification.type (Notification.preSave n) = Notification.type n
  ∧ Notification.entityType (Notification.preSave n) = Notification.entityType n
  ∧ Notification.isRead (Notification.preSave n) = Notification.isRead n
  ∧ Notification.isActive (Notification.preSave n) = Notification.isActive n.
Proof. unfold Notification.preSave. by repeat case_decide. Qed.

(** X18. createComment, on whatever input and store, adds at most two
    notifications, each sent by the commenter, about a comment, and
    addressed to somebody other than the commenter; existing notifications
    are kept. *)
Theorem createComment_notifies_others (schemaOk : Comment.Input → bool) (db : DB) (me : ReqUser) (postId : ObjectId) (body : commentController.CreateBody) :
  ∃ added,
    notifications (commentController.createComment schemaOk me postId body db).2
    = notifications db ++ added
    ∧ Forall (λ n, Notification.sender n = ru_id me
                   ∧ Notification.recipient n ≠ ru_id me
                   ∧ Notification.entityType n = Notification.comment_) added
    ∧ length added ≤ 2.
Proof.
  unfold commentController.createComment, PostModel.findById,
    CommentModel.findById, CommentModel.create, PostModel.save,
    CommentModel.save, commentController.loadParent,
    NotificationModel.createNotification.
  run.
  repeat (case_match; simplify_eq; cbn).
  all: repeat match goal with
           | H : _ && _ = true |- _ => apply andb_true_iff in H as [? ?]
           | H : negb _ = true |- _ => apply negb_true_iff in H
           | H : bool_decide _ = false |- _ => apply bool_decide_eq_false in H
           end.
  all: try (exists []; rewrite app_nil_r; split; [reflexivity|];
        split; [constructor|simpl; lia]).
  all: cbn in *.
  all: first
      [ eexists [_]; split; [reflexivity|]
      | eexists [_; _]; split; [by rewrite <- app_assoc|] ].
  all: split; [|simpl; lia].
  all: repeat constructor;
       repeat match goal with
              | |- context [Notification.preSave ?n] =>
                  destruct (Notification_preSave_keeps n)
                    as (-> & -> & _ & -> & _); clear
              end; try done.
Qed.

(** X19. markAllAsRead leaves the caller with unread count 0, leaves every
    other recipient's unread count as it was, and deletes no notification. *)
Theorem markAllAsRead_clears_unread (db : DB) (me : ReqUser) :
  ∃ db',
    notificationController.markAllAsRead me db
    = (Return (mkResponse 200 true (Some "All notifications marked as read") None),
       db')
    ∧ NotificationStatics.getUnreadCount (ru_id me) db' = (Return 0, db')
    ∧ (∀ other, other ≠ ru_id me →
         (NotificationStatics.getUnreadCount other db').1
         = (NotificationStatics.getUnreadCount other db).1)
    ∧ length (notifications db') = length (notifications db).
Proof.
  unfold notificationController.markAllAsRead,
    NotificationStatics.markAllAsRead, NotificationStatics.getUnreadCount.
  run. eexists. split; [reflexivity|]. cbn.
  split; [|split].
  - f_equal. f_equal.
    induction (notifications db) as [|n l IH]; simpl; [done|].
    unfold NotificationStatics.isUnreadOf at 1.
    destruct (decide (Notification.recipient n = ru_id me)) as [Hn|Hn].
    + rewrite (bool_decide_true (Notification.recipient n = ru_id me)) by done.
      destruct (Notification.isRead n) eqn:Hread; simpl.
      * rewrite Hread. simpl. rewrite andb_false_r. exact IH.
      * rewrite andb_false_r. exact IH.
    + rewrite (bool_decide_false (Notification.recipient n = ru_id me)) by done.
      simpl. rewrite bool_decide_false by done. exact IH.
  - intros other Hother. f_equal.
    induction (notifications db) as [|n l IH]; simpl; [done|].
    assert (Hsame : NotificationStatics.isUnreadOf other
              (if bool_decide (Notification.recipient n = ru_id me)
                  && negb (Notification.isRead n)
               then NotificationStatics.markRead n else n)
            = NotificationStatics.isUnreadOf other n).
    { destruct (decide (Notification.recipient n = ru_id me)) as [Hn|Hn].
      - rewrite (bool_decide_true _ Hn).
        destruct (Notification.isRead n); simpl; [done|].
        unfold NotificationStatics.isUnreadOf. simpl.
        rewrite !bool_decide_false by congruence. done.
      - by rewrite (bool_decide_false _ Hn). }
    rewrite Hsame. destruct (NotificationStatics.isUnreadOf other n); simpl;
      by rewrite IH.
  - by rewrite length_map.
Qed.

(** X20. A like by somebody other than the author raises the author's
    unread notification count by exactly one; taking the like back with a
    second call leaves the count where it is (the notification is not
    withdrawn). *)
Theorem likePost_raises_unread (db : DB) (me : ReqUser) (id : ObjectId) (p : Post.t) :
  find (byId Post._id id) (posts db) = Some p →
  Post.isActive p = true →
  Post.isLikedBy p (ru_id me) = false →
  Post.author p ≠ ru_id me →
  let db1 := (postController.likePost me id db).2 in
  let db2 := (postController.likePost me id db1).2 in
  (NotificationStatics.getUnreadCount (Post.author p) db1).1
  = Return (S (length (List.filter (NotificationStatics.isUnreadOf (Post.author p))
                         (notifications db))))
  ∧ (NotificationStatics.getUnreadCount (Post.author p) db2).1
    = (NotificationStatics.getUnreadCount (Post.author p) db1).1.
Proof.
  intros Hfind Hact Hnot Hauthor db1 db2.
  pose proof (find_byId_id _ _ _ _ Hfind) as Hid.
  set (p1 := Post.set_likesCount
               (Z.of_nat (length (Post.likes p ++ [ru_id me])))
               (Post.set_likes (Post.likes p ++ [ru_id me]) p)).
  assert (H1 : notifications db1 = notifications db ++ [likeNotification me p]
               ∧ posts db1 = replaceById Post._id p1 (posts db)).
  { subst db1.
    unfold postController.likePost, PostModel.findById, PostModel.save,
      NotificationModel.createNotification.
    run. rewrite Hfind, Hact. cbn. rewrite Hnot. cbn.
    rewrite preSave_likes. cbn.
    rewrite bool_decide_false by done. cbn. done. }
  destruct H1 as [Hn1 Hp1].
  assert (H2 : notifications db2 = notifications db1).
  { subst db2.
    unfold postController.likePost, PostModel.findById, PostModel.save,
      NotificationModel.createNotification.
    run. rewrite Hp1, find_replaceById. rewrite decide_True by done.
    rewrite Hfind. cbn. rewrite Hact.
    unfold Post.isLikedBy. cbn. rewrite existsb_app_last. cbn. done. }
  unfold NotificationStatics.getUnreadCount, get. cbn.
  rewrite H2, Hn1. split; [|done].
  f_equal. rewrite List.filter_app, length_app. simpl.
  unfold NotificationStatics.isUnreadOf at 2. simpl.
  rewrite bool_decide_true by done. simpl. lia.
Qed.

Lemma sameLike_triple (u : ObjectId) (t : Like.EntityType) (e : ObjectId) (l : Like.t) :
  LikeModel.sameLike u t e l = true ↔ tripleOf l = (u, t, e).
Proof.
  unfold LikeModel.sameLike, tripleOf.
  rewrite !andb_true_iff, !bool_decide_eq_true. split.
  - by intros [[-> ->] ->].
  - by intros [= -> -> ->].
Qed.

(** X21. Like.toggleLike on a well-formed like collection (unique ids
    below the next fresh id, at most one like per user and entity) keeps
    it well formed, flips what hasLiked answers for the triple, and
    reports liked exactly when there was no like before. *)
Theorem toggleLike_flips (s : LikeStore) (u : ObjectId) (t : Like.EntityType) (e : ObjectId) :
  likesOk s →
  let s' := (LikeModel.toggleLike s u t e).2 in
  likesOk s'
  ∧ (is_Some (LikeModel.hasLiked s' u t e) ↔ LikeModel.hasLiked s u t e = None)
  ∧ ((LikeModel.toggleLike s u t e).1.1 = LikeModel.liked
     ↔ LikeModel.hasLiked s u t e = None).
Proof.
  intros [H1 H2 H3]. unfold LikeModel.toggleLike, LikeModel.hasLiked.
  destruct (find _ (likeDocs s)) as [x|] eqn:Hfind; cbn.
  - pose proof Hfind as Hx. apply find_some in Hx as [Hin Hq].
    apply list_elem_of_In in Hin. apply sameLike_triple in Hq.
    pose proof (deleteFirst_sublist (byId Like._id (Like._id x)) (likeDocs s)) as Hs.
    split; [|split; [|done]].
    + split; cbn.
      * eapply sublist_NoDup; [exact H1|]. by apply fmap_sublist.
      * eapply sublist_NoDup; [exact H2|]. by apply fmap_sublist.
      * by eapply Forall_sublist_of.
    + split; [|done]. intros [y Hy]. exfalso.
      apply find_some in Hy as [Hyin Hyq]. apply sameLike_triple in Hyq.
      apply list_elem_of_In in Hyin.
      assert (y = x).
      { eapply (NoDup_fmap_same' tripleOf); eauto.
        - eapply elem_of_sublist; eauto.
        - congruence. }
      subst y. clear -Hyin H1 Hin.
      induction (likeDocs s) as [|z l IH]; simpl in *; [by apply elem_of_nil in Hin|].
      apply NoDup_cons in H1 as [Hz Hnd].
      unfold byId in Hyin. simpl in *.
      destruct (decide (Like._id z = Like._id x)) as [Hzx|Hzx].
      * rewrite bool_decide_true in Hyin by done.
        apply Hz. rewrite Hzx. by apply list_elem_of_fmap_2.
      * rewrite bool_decide_false in Hyin by done.
        apply elem_of_cons in Hyin as [->|Hyin]; [done|].
        apply elem_of_cons in Hin as [->|Hin]; [done|]. by apply IH.
  - set (new := Like.mk (nextLikeId s) u t e).
    split; [|split; [|done]].
    + split; cbn.
      * rewrite fmap_app. apply NoDup_app. split; [done|].
        split; [|apply NoDup_singleton].
        intros i (y & -> & Hy)%list_elem_of_fmap Heq%list_elem_of_singleton.
        rewrite Forall_forall in H3. specialize (H3 _ Hy). simpl in *. lia.
      * rewrite fmap_app. apply NoDup_app. split; [done|].
        split; [|apply NoDup_singleton].
        intros i (y & -> & Hy)%list_elem_of_fmap Heq%list_elem_of_singleton.
        apply list_elem_of_In in Hy. eapply find_none in Hfind; [|exact Hy].
        assert (LikeModel.sameLike u t e y = true)
          by (apply sameLike_triple; exact Heq).
        congruence.
      * apply Forall_app. split.
        -- eapply Forall_impl; [exact H3|]. intros y Hy. simpl in *. lia.
        -- constructor; [simpl; lia|constructor].
    + split; [done|]. intros _. eapply find_In_is_Some.
      * apply in_or_app. right. by left.
      * by apply sameLike_triple.
Qed.

(** X22. Calling Like.toggleLike twice for a triple that had no like
    reports liked and then unliked with a null like, and leaves the like
    documents exactly as they were. *)
Theorem toggleLike_twice (s : LikeStore) (u : ObjectId) (t : Like.EntityType) (e : ObjectId) :
  likesOk s →
  LikeModel.hasLiked s u t e = None →
  let r1 := LikeModel.toggleLike s u t e in
  let r2 := LikeModel.toggleLike r1.2 u t e in
  r1.1.1 = LikeModel.liked
  ∧ r2.1 = (LikeModel.unliked, None)
  ∧ likeDocs r2.2 = likeDocs s
  ∧ LikeModel.hasLiked r2.2 u t e = None.
Proof.
  intros [H1 H2 H3] Hnone. unfold LikeModel.hasLiked in *.
  unfold LikeModel.toggleLike. rewrite Hnone. cbn.
  set (new := Like.mk (nextLikeId s) u t e).
  assert (Hq : LikeModel.sameLike u t e new = true) by by apply sameLike_triple.
  rewrite (find_app_r _ _ _ Hnone Hq). cbn.
  assert (Hid : find (byId Like._id (nextLikeId s)) (likeDocs s) = None).
  { apply find_None_Forall. eapply Forall_impl; [exact H3|].
    intros y Hy. unfold byId. apply bool_decide_eq_false. simpl in *. lia. }
  rewrite deleteFirst_app_r; [done|exact Hid|].
  unfold byId. by apply bool_decide_eq_true.
Qed.

(** X23. With a limit of at least 1, pages 1 to n of a skip/limit listing,
    put one after the other, are exactly the first n * limit documents of
    the listing: no document is skipped and none is repeated. *)
Theorem pages_tile_listing {D} (n : nat) (limit : Z) (docs : list D) :
  (1 ≤ limit)%Z →
  firstPages n limit docs = take (n * Z.to_nat limit) docs.
Proof.
  intros Hl. induction n as [|k IH]; [done|].
  cbn [firstPages]. rewrite IH. unfold paginate.
  replace (Z.to_nat ((Z.of_nat (S k) - 1) * limit)) with (k * Z.to_nat limit)
    by (rewrite Z2Nat.inj_mul by lia; f_equal; lia).
  rewrite take_take_drop. f_equal. lia.
Qed.

(** X24. deactivateAccount stores the caller's account with isActive
    false and its name, privacy flag and both counters as they were,
    leaves every other account and all follow edges as they are;
    afterwards followUser of the account and getFollowers of the account
    answer 404 User not found. *)
Theorem deactivateAccount_effect (db : DB) (me : ReqUser) (u : User.t) :
  users db !! ru_id me = Some u →
  ∃ db',
    deactivateAccount me db
    = (Return (mkResponse 200 true (Some "Account deactivated successfully") None),
       db')
    ∧ users db' !! ru_id me
      = Some (User.mk (User.username u) (User.isPrivate u) false
                (User.followersCount u) (User.followingCount u))
    ∧ follows db' = follows db
    ∧ (∀ j, j ≠ ru_id me → users db' !! j = users db !! j)
    ∧ (∀ other, ru_id other ≠ ru_id me →
         followController.followUser other (ru_id me) db'
         = (Return (mkResponse 404 false (Some "User not found") None), db'))
    ∧ (∀ viewer userId page limit,
         url_id userId = ru_id me →
         followController.getFollowers viewer userId page limit db'
         = (Return (mkResponse 404 false (Some "User not found") None), db')).
Proof.
  intros Hu. unfold deactivateAccount, UserModel.findByIdAndUpdate. run.
  eexists. split; [reflexivity|]. cbn.
  split; [by rewrite lookup_alter_eq, Hu|].
  split; [done|]. split; [|split].
  - intros j Hj. by rewrite lookup_alter_ne.
  - intros other Hne.
    unfold followController.followUser, UserModel.findById. run.
    rewrite decide_False by done. cbn. rewrite lookup_alter_eq, Hu. done.
  - intros viewer userId page limit Hid.
    unfold followController.getFollowers, UserModel.findById. run.
    rewrite Hid, lookup_alter_eq, Hu. done.
Qed.

(** X25. A top-level comment created on an active post is stored active
    with the fresh id, the caller as author and no parent; its id is
    appended to the post's comments array, and getComments of the post,
    for every viewer and every page and limit that validatePagination
    lets through, then reports a total one higher than the number of
    active top-level comments before. *)
Theorem createComment_then_listed (schemaOk : Comment.Input → bool) (db : DB) (me : ReqUser) (postId : ObjectId) (text : string) (p : Post.t) :
  find (byId Post._id postId) (posts db) = Some p →
  Post.isActive p = true →
  schemaOk (Comment.mkInput (ru_id me) postId text None) = true →
  existsb (byId Comment._id (nextId db)) (comments db) = false →
  ∃ c db' p',
    commentController.createComment schemaOk me postId
      (commentController.mkCreateBody text None) db
    = (Return (mkResponse 201 true (Some "Comment created successfully") (Some c)),
       db')
    ∧ c = Comment.mk (nextId db) (ru_id me) postId text None [] true (clock db)
    ∧ comments db' = comments db ++ [c]
    ∧ find (byId Post._id postId) (posts db') = Some p'
    ∧ Post.comments p' = Post.comments p ++ [nextId db]
    ∧ ∀ viewer page limit,
        validatePagination page limit = true →
        ∃ pg, commentController.getComments viewer postId page limit db'
              = (Return (mkResponse 200 true None (Some pg)), db')
              ∧ pg_total pg
                = S (length (List.filter (CommentModel.isTopLevelOf postId)
                               (comments db))).
Proof.
  intros Hfind Hact Hok Hfresh.
  pose proof (find_byId_id _ _ _ _ Hfind) as Hid.
  set (c := Comment.mk (nextId db) (ru_id me) postId text None [] true (clock db)).
  set (p' := Post.set_comments (Post.comments p ++ [nextId db]) p).
  assert (Hrun : ∃ db',
    commentController.createComment schemaOk me postId
      (commentController.mkCreateBody text None) db
    = (Return (mkResponse 201 true (Some "Comment created successfully") (Some c)),
       db')
    ∧ comments db' = comments db ++ [c]
    ∧ posts db' = replaceById Post._id p' (posts db)).
  { unfold commentController.createComment, PostModel.findById,
      CommentModel.findById, CommentModel.create, PostModel.save,
      NotificationModel.createNotification.
    run. rewrite Hfind, Hact. cbn. rewrite Hok. cbn. rewrite Hfresh. cbn.
    rewrite preSave_comments.
    destruct (bool_decide (Post.author
                (Post.set_comments (Post.comments p ++ [nextId db]) p)
              = ru_id me)); cbn; eexists; (split; [reflexivity|]); done. }
  destruct Hrun as (db' & Hrun & Hcs & Hps).
  assert (Hp' : find (byId Post._id postId) (posts db') = Some p').
  { rewrite Hps, find_replaceById. rewrite decide_True by done.
    by rewrite Hfind. }
  exists c, db', p'. split; [exact Hrun|]. split; [done|].
  split; [exact Hcs|]. split; [exact Hp'|]. split; [done|].
  intros viewer page limit _.
  unfold commentController.getComments, PostModel.findById.
  run. rewrite Hp'. cbn. rewrite Hact. cbn.
  eexists. split; [reflexivity|]. cbn.
  rewrite Hcs, List.filter_app, length_app. simpl.
  unfold CommentModel.isTopLevelOf at 2. simpl.
  rewrite !bool_decide_true by done. simpl. lia.
Qed.

(** X26. createPost without content or with content that is blank after
    trimming answers 500 Server error creating post; no post is stored, no
    mention notification is sent and the cache is left alone. *)
Theorem createPost_blank_content (db : DB) (me : ReqUser) (body : postController.CreateBody) :
  (postController.content body = None
   ∨ ∃ text, postController.content body = Some text
             ∧ Post.trim text = EmptyString) →
  ∃ db',
    postController.createPost me body db
    = (Return (mkResponse 500 false (Some "Server error creating post") None), db')
    ∧ posts db' = posts db
    ∧ notifications db' = notifications db
    ∧ redis db' = redis db.
Proof.
  intros Hblank.
  assert (Hval : Post.validate
    (Post.mkInput (ru_id me) (postController.content body)
       (default [] (postController.mentions body))
       (Some (default Post.public (postController.visibility body)))
       None None) = false).
  { unfold Post.validate. simpl.
    destruct Hblank as [->|(text & -> & Ht)]; [done|].
    rewrite Ht. by rewrite bool_decide_true. }
  unfold postController.createPost, PostModel.create. run.
  rewrite Hval. cbn. eexists. split; [reflexivity|]. done.
Qed.

(* ===================================================================== *)
(** ** The further properties on the sample stores *)
(* ===================================================================== *)

(** alice follows bob and unfollows him again. *)
Lemma follow_then_unfollow_witness :
  ∃ r1 db1 db2,
    followController.followUser Sample.alice 2 Sample.empty = (Return r1, db1)
    ∧ code r1 = 201
    ∧ followController.unfollowUser Sample.alice 2 db1
      = (Return (mkResponse 200 true (Some "User unfollowed successfully") None),
         db2)
    ∧ follows db2 = follows Sample.empty
    ∧ users db2 = users Sample.empty.
Proof.
  apply (follow_then_unfollow Sample.empty Sample.alice 2 Sample.bobUser);
    [cbn; lia | reflexivity | reflexivity | reflexivity].
Defined.

(** bob follows the public account of alice. *)
Lemma followUser_public_in_step_witness :
  ∃ r db' f,
    followController.followUser Sample.bob 1 Sample.empty = (Return r, db')
    ∧ data r = Some (followController.mkFollowReply Follow.accepted 1)
    ∧ FollowModel.isFollowing (Some (ru_id Sample.bob)) 1 db'
      = (Return (Some f), db')
    ∧ acceptedFollowers db' 1 = (acceptedFollowers Sample.empty 1 + 1)%Z
    ∧ followersCountOf db' 1 = Some (acceptedFollowers db' 1).
Proof.
  apply (followUser_public_in_step Sample.empty Sample.bob 1 Sample.aliceUser);
    [cbn; lia | reflexivity | reflexivity | reflexivity | reflexivity
    | reflexivity].
Defined.

(** alice asks twice to follow bob. *)
Lemma followUser_twice_refused_witness :
  ∃ r1 db1,
    followController.followUser Sample.alice 2 Sample.empty = (Return r1, db1)
    ∧ code r1 = 201
    ∧ followController.followUser Sample.alice 2 db1
      = (Return (mkResponse 400 false (Some "Already following this user") None),
         db1).
Proof.
  apply (followUser_twice_refused Sample.empty Sample.alice 2 Sample.bobUser);
    [cbn; lia | reflexivity | reflexivity | reflexivity].
Defined.

(** bob has accepted the request of alice. *)
Lemma accepted_request_is_final_witness :
  let db1 := (followController.followUser Sample.alice 2 Sample.empty).2 in
  let db2 := (followController.acceptFollowRequest Sample.bob 1 db1).2 in
  followController.acceptFollowRequest Sample.bob 1 db2
    = (Return (mkResponse 404 false (Some "Follow request not found") None), db2)
  ∧ followController.rejectFollowRequest Sample.bob 1 db2
    = (Return (mkResponse 404 false (Some "Follow request not found") None), db2).
Proof.
  apply (accepted_request_is_final Sample.empty Sample.alice Sample.bob
           Sample.bobUser);
    [cbn; lia | reflexivity | reflexivity | reflexivity | reflexivity].
Defined.

(** Five requests on the store in which carol follows bob. *)
Lemma graph_requests_keep_graphOk_witness :
  graphOk (foldl runGraphOp Fixture.social Fixture.requests).
Proof.
  apply (graph_requests_keep_graphOk Fixture.requests Fixture.social).
  split; cbn.
  - apply NoDup_singleton.
  - apply NoDup_singleton.
  - constructor; [cbn; lia | constructor].
  - constructor; [cbn; lia | constructor].
Defined.

(** carol, an accepted follower of bob, and his followers-only post 11. *)
Lemma getPost_decision_witness :
  (mayViewPost Fixture.social (Some Fixture.carol)
     (Sample.postOfBob 11 Post.followers [] 1100) →
   postController.getPost (Some Fixture.carol) 11 Fixture.social
   = (Return (mkResponse 200 true None
                (Some (Sample.postOfBob 11 Post.followers [] 1100))),
      Fixture.social))
  ∧ (¬ mayViewPost Fixture.social (Some Fixture.carol)
         (Sample.postOfBob 11 Post.followers [] 1100) →
     ∃ msg, postController.getPost (Some Fixture.carol) 11 Fixture.social
            = (Return (mkResponse 403 false (Some msg) None), Fixture.social)).
Proof.
  apply (getPost_decision Fixture.social (Some Fixture.carol) 11
           (Sample.postOfBob 11 Post.followers [] 1100) Sample.bobUser);
    [reflexivity | reflexivity | reflexivity].
Defined.

(** alice asks for the followers of the private account of bob. *)
Lemma getFollowers_decision_witness :
  (mayViewAccount Fixture.social (Some Sample.alice) Fixture.bobsUrl
     Sample.bobUser →
   ∃ pg, followController.getFollowers (Some Sample.alice) Fixture.bobsUrl 1 20
           Fixture.social
         = (Return (mkResponse 200 true None (Some pg)), Fixture.social)
         ∧ pg_items pg
           = take (Z.to_nat 20)
               (drop (Z.to_nat ((1 - 1) * 20))
                  (filter (λ f, Follow.following f = url_id Fixture.bobsUrl
                                ∧ Follow.status f = Follow.accepted)
                     (follows Fixture.social)))
         ∧ Z.of_nat (pg_total pg)
           = acceptedFollowers Fixture.social (url_id Fixture.bobsUrl))
  ∧ (¬ mayViewAccount Fixture.social (Some Sample.alice) Fixture.bobsUrl
         Sample.bobUser →
     followController.getFollowers (Some Sample.alice) Fixture.bobsUrl 1 20
       Fixture.social
     = (Return (mkResponse 403 false (Some "This account is private") None),
        Fixture.social)).
Proof.
  apply (getFollowers_decision Fixture.social (Some Sample.alice)
           Fixture.bobsUrl Sample.bobUser 1 20);
    [reflexivity | reflexivity | reflexivity].
Defined.

(** carol lists the posts of bob. *)
Lemma getUserPosts_listing_witness :
  (mayViewAccount Fixture.social (Some Fixture.carol) Fixture.bobsUrl
     Sample.bobUser →
   ∃ pg ranked,
     getUserPosts (Some Fixture.carol) Fixture.bobsUrl 1 20 Fixture.social
     = (Return (mkResponse 200 true None (Some pg)), Fixture.social)
     ∧ pg_items pg = take (Z.to_nat 20) (drop (Z.to_nat ((1 - 1) * 20)) ranked)
     ∧ StronglySorted newestFirst ranked
     ∧ ranked ≡ₚ filter (λ p, Post.author p = url_id Fixture.bobsUrl
                               ∧ Post.isActive p = true
                               ∧ (Post.visibility p = Post.public
                                  ∨ ownerByText (Some Fixture.carol)
                                      Fixture.bobsUrl))
                   (posts Fixture.social)
     ∧ pg_total pg = length ranked)
  ∧ (¬ mayViewAccount Fixture.social (Some Fixture.carol) Fixture.bobsUrl
         Sample.bobUser →
     getUserPosts (Some Fixture.carol) Fixture.bobsUrl 1 20 Fixture.social
     = (Return (mkResponse 403 false (Some "This account is private") None),
        Fixture.social)).
Proof.
  apply (getUserPosts_listing Fixture.social (Some Fixture.carol)
           Fixture.bobsUrl Sample.bobUser 1 20);
    [reflexivity | reflexivity | reflexivity].
Defined.

(** The feed of carol, who follows bob. *)
Lemma getFeedPosts_listing_witness :
  ∃ ranked,
    getFeedPosts 3 [2] 1 20 Fixture.social
    = (Return (take (Z.to_nat 20) (drop (Z.to_nat ((1 - 1) * 20)) ranked)),
       Fixture.social)
    ∧ StronglySorted newestFirst ranked
    ∧ ranked ≡ₚ filter (λ p, (Post.author p = 3 ∨ Post.author p ∈ [2])
                              ∧ Post.visibility p = Post.public
                              ∧ Post.isActive p = true)
                  (posts Fixture.social).
Proof.
  apply (getFeedPosts_listing Fixture.social 3 [2] 1 20). reflexivity.
Defined.

(** bob deletes his post 10. *)
Lemma deletePost_hides_post_witness :
  ∃ db',
    deletePost Sample.bob 10 Fixture.social
    = (Return (mkResponse 200 true (Some "Post deleted successfully") None), db')
    ∧ (∀ viewer, postController.getPost viewer 10 db'
                 = (Return (mkResponse 404 false (Some "Post not found") None), db'))
    ∧ (∀ u, postController.likePost u 10 db'
            = (Return (mkResponse 404 false (Some "Post not found") None), db'))
    ∧ (∀ viewer page limit,
         commentController.getComments viewer 10 page limit db'
         = (Return (mkResponse 404 false (Some "Post not found") None), db'))
    ∧ (∀ u, deletePost u 10 db'
            = (Return (mkResponse 404 false (Some "Post not found") None), db'))
    ∧ (∀ j, j ≠ 10 →
            find (byId Post._id j) (posts db')
            = find (byId Post._id j) (posts Fixture.social)).
Proof.
  apply (deletePost_hides_post Fixture.social Sample.bob 10
           (Sample.postOfBob 10 Post.public [] 1000));
    [reflexivity | reflexivity | left; reflexivity].
Defined.

(** alice tries to delete the post of bob. *)
Lemma deletePost_needs_owner_or_admin_witness :
  deletePost Sample.alice 10 Fixture.social
  = (Return (mkResponse 403 false (Some "Not authorized to delete this post") None),
     Fixture.social).
Proof.
  apply (deletePost_needs_owner_or_admin Fixture.social Sample.alice 10
           (Sample.postOfBob 10 Post.public [] 1000));
    [reflexivity | reflexivity | cbn; lia | reflexivity].
Defined.

(** alice posts hello and reads it back. *)
Lemma createPost_then_getPost_witness :
  ∃ p db',
    postController.createPost Sample.alice Fixture.hello Sample.empty
    = (Return (mkResponse 201 true (Some "Post created successfully") (Some p)), db')
    ∧ Post._id p = nextId Sample.empty
    ∧ Post.author p = ru_id Sample.alice
    ∧ Post.visibility p
      = default Post.public (postController.visibility Fixture.hello)
    ∧ Post.likesCount p = 0%Z ∧ Post.likes p = []
    ∧ Post.isActive p = true
    ∧ postController.getPost (Some Sample.alice) (nextId Sample.empty) db'
      = (Return (mkResponse 200 true None (Some p)), db').
Proof.
  apply (createPost_then_getPost Sample.empty Sample.alice Fixture.hello
           Sample.aliceUser);
    [intros text [= <-]; reflexivity | reflexivity | reflexivity | reflexivity].
Defined.

(** alice posts while page 1 of the popular posts is cached. *)
Lemma createPost_keeps_popular_cache_witness :
  let db' := (postController.createPost Sample.alice Fixture.hello
                Fixture.cached).2 in
  postController.getPopularPosts 1 20 db'
  = (Return (mkResponse 200 true None (Some Fixture.cachedPage)), db').
Proof.
  apply (createPost_keeps_popular_cache Fixture.cached Sample.alice
           Fixture.hello 1 20 Fixture.cachedPage).
  reflexivity.
Defined.

(** bob deletes post 10 while the cached page shows it. *)
Lemma deletePost_keeps_popular_cache_witness :
  let db' := (deletePost Sample.bob 10 Fixture.cached).2 in
  postController.getPopularPosts 1 20 db'
  = (Return (mkResponse 200 true None (Some Fixture.cachedPage)), db').
Proof.
  apply (deletePost_keeps_popular_cache Fixture.cached Sample.bob 10 1 20
           Fixture.cachedPage).
  reflexivity.
Defined.

(** The first request for page 1 with a client and an empty cache. *)
Lemma getPopularPosts_miss_with_client_fails_witness :
  postController.getPopularPosts 1 20 Fixture.uncached
  = (Return (mkResponse 500 false (Some "Server error getting popular posts") None),
     Fixture.uncached).
Proof.
  apply (getPopularPosts_miss_with_client_fails Fixture.uncached 1 20 []);
    [reflexivity | reflexivity].
Defined.

(** alice likes the post user 3 already liked. *)
Lemma likePost_toggles_witness :
  ∃ r db' p',
    postController.likePost Sample.alice 10 Sample.withLikedPost = (Return r, db')
    ∧ code r = 200
    ∧ find (byId Post._id 10) (posts db') = Some p'
    ∧ NoDup (Post.likes p')
    ∧ Post.likesCount p' = Z.of_nat (length (Post.likes p'))
    ∧ (ru_id Sample.alice ∈ Post.likes p'
       ↔ ru_id Sample.alice ∉ Post.likes (Sample.postOfBob 10 Post.public [3] 1000))
    ∧ (∀ u, u ≠ ru_id Sample.alice →
            u ∈ Post.likes p'
            ↔ u ∈ Post.likes (Sample.postOfBob 10 Post.public [3] 1000))
    ∧ data r
      = Some (postController.mkLikeReply (Post.likesCount p')
                (negb (Post.isLikedBy (Sample.postOfBob 10 Post.public [3] 1000)
                         (ru_id Sample.alice)))).
Proof.
  apply (likePost_toggles Sample.withLikedPost Sample.alice 10
           (Sample.postOfBob 10 Post.public [3] 1000));
    [reflexivity | reflexivity | apply NoDup_singleton].
Defined.

(** alice deletes her comment 30. *)
Lemma deleteComment_effect_witness :
  ((Comment.author Fixture.aliceComment = ru_id Sample.alice
    ∨ ru_admin Sample.alice = true) →
   ∃ db' c',
     commentController.deleteComment Sample.alice 30 Fixture.withComment
     = (Return (mkResponse 200 true (Some "Comment deleted successfully") None), db')
     ∧ find (byId Comment._id 30) (comments db') = Some c'
     ∧ Comment.isActive c' = false
     ∧ (∀ p', find (byId Post._id (Comment.post Fixture.aliceComment)) (posts db')
              = Some p' →
              30 ∉ Post.comments p')
     ∧ (∀ u, commentController.deleteComment u 30 db'
             = (Return (mkResponse 404 false (Some "Comment not found") None), db')))
  ∧ ((Comment.author Fixture.aliceComment ≠ ru_id Sample.alice
      ∧ ru_admin Sample.alice = false) →
     commentController.deleteComment Sample.alice 30 Fixture.withComment
     = (Return (mkResponse 403 false
                  (Some "Not authorized to delete this comment") None),
        Fixture.withComment)).
Proof.
  apply (deleteComment_effect Fixture.withComment Sample.alice 30
           Fixture.aliceComment);
    [reflexivity | reflexivity].
Defined.

(** alice likes the fresh post of bob and takes the like back. *)
Lemma likePost_raises_unread_witness :
  let p := Sample.postOfBob 10 Post.public [] 1000 in
  let db1 := (postController.likePost Sample.alice 10 Sample.withFreshPost).2 in
  let db2 := (postController.likePost Sample.alice 10 db1).2 in
  (NotificationStatics.getUnreadCount (Post.author p) db1).1
  = Return (S (length (List.filter (NotificationStatics.isUnreadOf (Post.author p))
                         (notifications Sample.withFreshPost))))
  ∧ (NotificationStatics.getUnreadCount (Post.author p) db2).1
    = (NotificationStatics.getUnreadCount (Post.author p) db1).1.
Proof.
  apply (likePost_raises_unread Sample.withFreshPost Sample.alice 10
           (Sample.postOfBob 10 Post.public [] 1000));
    [reflexivity | reflexivity | reflexivity | cbn; lia].
Defined.

(** alice toggles her like of post 10. *)
Lemma toggleLike_flips_witness :
  let s' := (LikeModel.toggleLike Fixture.oneLike 1 Like.post 10).2 in
  likesOk s'
  ∧ (is_Some (LikeModel.hasLiked s' 1 Like.post 10)
     ↔ LikeModel.hasLiked Fixture.oneLike 1 Like.post 10 = None)
  ∧ ((LikeModel.toggleLike Fixture.oneLike 1 Like.post 10).1.1 = LikeModel.liked
     ↔ LikeModel.hasLiked Fixture.oneLike 1 Like.post 10 = None).
Proof.
  apply (toggleLike_flips Fixture.oneLike 1 Like.post 10).
  split; cbn.
  - apply NoDup_singleton.
  - apply NoDup_singleton.
  - constructor; [cbn; lia | constructor].
Defined.

(** User 3 toggles twice on the collection that holds the like of alice. *)
Lemma toggleLike_twice_witness :
  let r1 := LikeModel.toggleLike Fixture.oneLike 3 Like.post 10 in
  let r2 := LikeModel.toggleLike r1.2 3 Like.post 10 in
  r1.1.1 = LikeModel.liked
  ∧ r2.1 = (LikeModel.unliked, None)
  ∧ likeDocs r2.2 = likeDocs Fixture.oneLike
  ∧ LikeModel.hasLiked r2.2 3 Like.post 10 = None.
Proof.
  apply (toggleLike_twice Fixture.oneLike 3 Like.post 10); [|reflexivity].
  split; cbn.
  - apply NoDup_singleton.
  - apply NoDup_singleton.
  - constructor; [cbn; lia | constructor].
Defined.

(** Two pages of two out of five documents. *)
Lemma pages_tile_listing_witness :
  firstPages 2 2 [1; 2; 3; 4; 5] = take (2 * Z.to_nat 2) [1; 2; 3; 4; 5].
Proof.
  apply (pages_tile_listing 2 2 [1; 2; 3; 4; 5]). lia.
Defined.

(** bob deactivates his account. *)
Lemma deactivateAccount_effect_witness :
  ∃ db',
    deactivateAccount Sample.bob Sample.empty
    = (Return (mkResponse 200 true (Some "Account deactivated successfully") None),
       db')
    ∧ users db' !! ru_id Sample.bob
      = Some (User.mk (User.username Sample.bobUser)
                (User.isPrivate Sample.bobUser) false
                (User.followersCount Sample.bobUser)
                (User.followingCount Sample.bobUser))
    ∧ follows db' = follows Sample.empty
    ∧ (∀ j, j ≠ ru_id Sample.bob → users db' !! j = users Sample.empty !! j)
    ∧ (∀ other, ru_id other ≠ ru_id Sample.bob →
         followController.followUser other (ru_id Sample.bob) db'
         = (Return (mkResponse 404 false (Some "User not found") None), db'))
    ∧ (∀ viewer userId page limit,
         url_id userId = ru_id Sample.bob →
         followController.getFollowers viewer userId page limit db'
         = (Return (mkResponse 404 false (Some "User not found") None), db')).
Proof.
  apply (deactivateAccount_effect Sample.empty Sample.bob Sample.bobUser).
  reflexivity.
Defined.

(** alice comments on the fresh post of bob. *)
Lemma createComment_then_listed_witness :
  ∃ c db' p',
    commentController.createComment (λ _, true) Sample.alice 10
      (commentController.mkCreateBody "nice" None) Sample.withFreshPost
    = (Return (mkResponse 201 true (Some "Comment created successfully") (Some c)),
       db')
    ∧ c = Comment.mk (nextId Sample.withFreshPost) (ru_id Sample.alice) 10 "nice"
            None [] true (clock Sample.withFreshPost)
    ∧ comments db' = comments Sample.withFreshPost ++ [c]
    ∧ find (byId Post._id 10) (posts db') = Some p'
    ∧ Post.comments p'
      = Post.comments (Sample.postOfBob 10 Post.public [] 1000)
        ++ [nextId Sample.withFreshPost]
    ∧ ∀ viewer page limit,
        validatePagination page limit = true →
        ∃ pg, commentController.getComments viewer 10 page limit db'
              = (Return (mkResponse 200 true None (Some pg)), db')
              ∧ pg_total pg
                = S (length (List.filter (CommentModel.isTopLevelOf 10)
                               (comments Sample.withFreshPost))).
Proof.
  apply (createComment_then_listed (λ _, true) Sample.withFreshPost Sample.alice
           10 "nice" (Sample.postOfBob 10 Post.public [] 1000));
    [reflexivity | reflexivity | reflexivity | reflexivity].
Defined.

(** alice posts three blanks and mentions bob. *)
Lemma createPost_blank_content_witness :
  ∃ db',
    postController.createPost Sample.alice Fixture.blankPost Sample.empty
    = (Return (mkResponse 500 false (Some "Server error creating post") None), db')
    ∧ posts db' = posts Sample.empty
    ∧ notifications db' = notifications Sample.empty
    ∧ redis db' = redis Sample.empty.
Proof.
  apply (createPost_blank_content Sample.empty Sample.alice Fixture.blankPost).
  right. exists "   ". split; reflexivity.
Defined.
